(** * GradientInfill: the g-code transformer of [GradientInfill.py]

    A shallow embedding of the post-processing script.  Python exceptions are
    values of an error monad, the function-local variables that [execute] may
    read before their first assignment are [option]s, and [lines] and [data],
    which the script mutates by index while it iterates over them, are threaded
    as explicit lists.

    Python floats are an interface ([PyFloat]): the state machine and the text
    rewriting are written once over it, so that what is proved about them holds
    whatever the arithmetic does, and the interface is instantiated with IEEE
    binary64 numbers to run the script on concrete g-code.  Lines are byte
    strings; g-code is ASCII. *)

From Stdlib Require Import List String Ascii ZArith Lia Bool Arith.
From Stdlib Require PrimFloat SpecFloat FloatOps Uint63.
Import ListNotations.

Set Implicit Arguments.
Local Open Scope list_scope.
Local Open Scope string_scope.

(** ** Exceptions *)

Inductive exn : Type :=
| ZeroDivisionError
| ValueError
| OverflowError
| SyntaxError
| UnboundLocalError (name : string).

Inductive result (A : Type) : Type :=
| Ok (a : A)
| Raise (e : exn).

Arguments Ok {A} a.
Arguments Raise {A} e.

Definition bind {A B : Type} (r : result A) (k : A -> result B) : result B :=
  match r with
  | Ok a => k a
  | Raise e => Raise e
  end.

Notation "'let*' x ':=' r 'in' k" := (bind r (fun x => k))
  (at level 10, x pattern, r at level 100, k at level 200).

(** Reading a local variable: unbound until its first assignment. *)
Definition load {A : Type} (name : string) (v : option A) : result A :=
  match v with
  | Some a => Ok a
  | None => Raise (UnboundLocalError name)
  end.

Definition is_ok {A : Type} (r : result A) : bool :=
  match r with Ok _ => true | Raise _ => false end.

(** ** Strings as Python uses them *)

Definition nl : string := String "010"%char EmptyString.

(** [needle in hay] *)
Fixpoint contains (needle hay : string) : bool :=
  if prefix needle hay then true
  else match hay with
       | EmptyString => false
       | String _ rest => contains needle rest
       end.

(** [s.startswith(p)] *)
Definition startswith (p s : string) : bool := prefix p s.

(** [s.split(c)] for a one-character separator: never the empty list. *)
Fixpoint split (c : ascii) (s : string) : list string :=
  match s with
  | EmptyString => [EmptyString]
  | String a rest =>
      if Ascii.eqb a c then EmptyString :: split c rest
      else match split c rest with
           | [] => [String a EmptyString]
           | w :: ws => String a w :: ws
           end
  end.

(** [sep.join(l)] *)
Fixpoint join (sep : string) (l : list string) : string :=
  match l with
  | [] => EmptyString
  | [w] => w
  | w :: ws => w ++ sep ++ join sep ws
  end.

(** [s[1:]] *)
Definition tail1 (s : string) : string :=
  match s with
  | EmptyString => EmptyString
  | String _ rest => rest
  end.

Definition is_digit (a : ascii) : bool :=
  let n := nat_of_ascii a in (48 <=? n)%nat && (n <=? 57)%nat.

(** The longest run of digits at the head of [s], and what follows it. *)
Fixpoint take_digits (s : string) : string * string :=
  match s with
  | String a rest =>
      if is_digit a then let (d, r) := take_digits rest in (String a d, r)
      else (EmptyString, s)
  | EmptyString => (EmptyString, EmptyString)
  end.

(** What the group of the number pattern (digits, an optional dot, digits)
    captures at the head of [s]: every part of the pattern may match the empty
    string, so greedy matching never backtracks. *)
Definition number_prefix (s : string) : string :=
  let (d1, r1) := take_digits s in
  match r1 with
  | String "."%char r2 => let (d2, _) := take_digits r2 in d1 ++ "." ++ d2
  | _ => d1
  end.

(** [re.search] for the letter [c] followed by the number pattern: the match
    starts at the first [c]; [None] when there is none, else group 1. *)
Fixpoint re_search (c : ascii) (line : string) : option string :=
  match line with
  | EmptyString => None
  | String a rest =>
      if Ascii.eqb a c then Some (number_prefix rest) else re_search c rest
  end.

(** [l.index(v)]: the first position holding a value equal to [v]. *)
Fixpoint index (v : string) (l : list string) : result nat :=
  match l with
  | [] => Raise ValueError
  | w :: ws => if String.eqb w v then Ok O else let* i := index v ws in Ok (S i)
  end.

(** [l[i] = v] for an index in range, as every index the script uses is. *)
Fixpoint assign {A : Type} (i : nat) (v : A) (l : list A) : list A :=
  match l, i with
  | [], _ => []
  | _ :: ws, O => v :: ws
  | w :: ws, S j => w :: assign j v ws
  end.

(** ** Python floats, as an interface *)

Class PyFloat (F : Type) : Type := {
  of_int : Z -> F;             (* an int operand promoted to float *)
  fadd : F -> F -> F;
  fsub : F -> F -> F;
  fmul : F -> F -> F;
  fquot : F -> F -> F;          (* [a / b] for a divisor that is not zero *)
  fzero : F -> bool;
  square : F -> result F;      (* [a ** 2], OverflowError out of range *)
  pow_half : F -> F;           (* [a ** 0.5] *)
  flt : F -> F -> bool;         (* [a < b] *)
  fle : F -> F -> bool;         (* [a <= b] *)
  trunc : F -> result Z;       (* [int(a)] *)
  round_to : nat -> F -> F;    (* [round(a, n)] *)
  repr : F -> string;          (* [str(a)] and [format] of a float *)
  parse : string -> option F   (* [float(s)], None for ValueError *)
}.

(** The cascade of [mfill_mode]: every test runs, the last one that matches wins. *)
Definition mfill_mode (Mode : string) : nat :=
  let iMode := 0%nat in
  let iMode := if String.eqb Mode "grid" then 2%nat else iMode in
  let iMode := if String.eqb Mode "lines" then 2%nat else iMode in
  let iMode := if String.eqb Mode "triangles" then 2%nat else iMode in
  let iMode := if String.eqb Mode "trihexagon" then 2%nat else iMode in
  let iMode := if String.eqb Mode "cubic" then 2%nat else iMode in
  let iMode := if String.eqb Mode "cubicsubdiv" then 2%nat else iMode in
  let iMode := if String.eqb Mode "tetrahedral" then 2%nat else iMode in
  let iMode := if String.eqb Mode "quarter_cubic" then 2%nat else iMode in
  let iMode := if String.eqb Mode "concentric" then 0%nat else iMode in
  let iMode := if String.eqb Mode "zigzag" then 2%nat else iMode in
  let iMode := if String.eqb Mode "cross" then 0%nat else iMode in
  let iMode := if String.eqb Mode "cross_3d" then 0%nat else iMode in
  let iMode := if String.eqb Mode "gyroid" then 1%nat else iMode in
  iMode.

Section Transformer.

Context {F : Type} `{PyFloat F}.

(** [a / b]: Python raises on a zero divisor, it never yields an infinity or a NaN. *)
Definition fdiv (a b : F) : result F :=
  if fzero b then Raise ZeroDivisionError else Ok (fquot a b).

(** [float(s)] *)
Definition to_float (s : string) : result F :=
  match parse s with
  | Some v => Ok v
  | None => Raise ValueError
  end.

(** ** Data *)

Record Point2D : Type := mkPoint { Px : F; Py : F }.
Record Segment : Type := mkSegment { point1 : Point2D; point2 : Point2D }.

Inductive Section_ : Type := NOTHING | INNER_WALL | INFILL.

Definition Section_eqb (a b : Section_) : bool :=
  match a, b with
  | NOTHING, NOTHING | INNER_WALL, INNER_WALL | INFILL, INFILL => true
  | _, _ => false
  end.

(** ** Geometry *)

Definition dist (segment : Segment) (point : Point2D) : result F :=
  let px := fsub (Px (point2 segment)) (Px (point1 segment)) in
  let py := fsub (Py (point2 segment)) (Py (point1 segment)) in
  let norm := fadd (fmul px px) (fmul py py) in
  let* u := fdiv (fadd (fmul (fsub (Px point) (Px (point1 segment))) px)
                     (fmul (fsub (Py point) (Py (point1 segment))) py)) norm in
  let u := if flt (of_int 1) u then of_int 1
           else if flt u (of_int 0) then of_int 0
           else u in
  let x := fadd (Px (point1 segment)) (fmul u px) in
  let y := fadd (Py (point1 segment)) (fmul u py) in
  let dx := fsub x (Px point) in
  let dy := fsub y (Py point) in
  Ok (pow_half (fadd (fmul dx dx) (fmul dy dy))).

Definition get_points_distance (point1 point2 : Point2D) : result F :=
  let* a := square (fsub (Px point1) (Px point2)) in
  let* b := square (fsub (Py point1) (Py point2)) in
  Ok (pow_half (fadd a b)).

(** [min(dist(s, p) for s in segments)] once the first distance is known: the
    generator is consumed in order, and a later value replaces the current one
    only when it is strictly smaller. *)
Fixpoint min_rest (current : F) (segments : list Segment) (p : Point2D) : result F :=
  match segments with
  | [] => Ok current
  | s :: rest =>
      let* d := dist s p in
      min_rest (if flt d current then d else current) rest p
  end.

Definition min_distance_from_segment (segment : Segment) (segments : list Segment)
  : result F :=
  let middlePoint :=
    mkPoint (fquot (fadd (Px (point1 segment)) (Px (point2 segment))) (of_int 2))
            (fquot (fadd (Py (point1 segment)) (Py (point2 segment))) (of_int 2)) in
  match segments with
  | [] => Raise ValueError
  | s :: rest => let* d := dist s middlePoint in min_rest d rest middlePoint
  end.

(** ** Fields of a line *)

Definition getXY (currentLine : string) : result Point2D :=
  match re_search "X" currentLine, re_search "Y" currentLine with
  | Some elementX, Some elementY =>
      let* vx := to_float elementX in
      let* vy := to_float elementY in
      Ok (mkPoint vx vy)
  | _, _ => Raise SyntaxError
  end.

Definition mapRange (a b : F * F) (s : F) : result F :=
  let '(a1, a2) := a in
  let '(b1, b2) := b in
  let* q := fdiv (fmul (fsub s a1) (fsub b2 b1)) (fsub a2 a1) in
  Ok (fadd b1 q).

Definition get_extrusion_command (x y extrusion : F) : string :=
  "G1 X" ++ repr (round_to 3 x) ++ " Y" ++ repr (round_to 3 y)
         ++ " E" ++ repr (round_to 5 extrusion).

(** ** Line classifier *)

Definition is_begin_layer_line (line : string) : bool := startswith ";LAYER:" line.
Definition is_begin_inner_wall_line (line : string) : bool :=
  startswith ";TYPE:WALL-INNER" line.
Definition is_end_inner_wall_line (line : string) : bool :=
  startswith ";TYPE:WALL-OUTER" line.
Definition is_extrusion_line (line : string) : bool :=
  contains "G1" line && contains " X" line && contains "Y" line && contains "E" line.
Definition is_begin_infill_segment_line (line : string) : bool :=
  startswith ";TYPE:FILL" line.

(** ** Settings and the state of the scan *)

(** The settings [execute] reads from the host, already converted by [float],
    and the infill pattern of the selected extruder. *)
Record Settings : Type := mkSettings {
  gradient_discretization : F;
  max_flow : F;
  min_flow : F;
  gradient_thickness : F;
  infillpattern : string
}.

(** The locals of [execute] that live across lines.  [perimeterSegments],
    [new_Line] and [extrusionLength] have no value before their first
    assignment. *)
Record State : Type := mkState {
  currentSection : Section_;
  lastPosition : Point2D;
  perimeterSegments : option (list Segment);
  new_Line : option string;
  extrusionLength : option F
}.

Definition set_section (st : State) (s : Section_) : State :=
  mkState s (lastPosition st) (perimeterSegments st) (new_Line st) (extrusionLength st).
Definition set_position (st : State) (p : Point2D) : State :=
  mkState (currentSection st) p (perimeterSegments st) (new_Line st) (extrusionLength st).
Definition set_perimeter (st : State) (l : option (list Segment)) : State :=
  mkState (currentSection st) (lastPosition st) l (new_Line st) (extrusionLength st).
Definition set_new_Line (st : State) (l : option string) : State :=
  mkState (currentSection st) (lastPosition st) (perimeterSegments st) l (extrusionLength st).
Definition set_extrusion (st : State) (e : option F) : State :=
  mkState (currentSection st) (lastPosition st) (perimeterSegments st) (new_Line st) e.

Variable cfg : Settings.

(** The flow multiplier of a point at distance [shortestDistance] inside the band. *)
Definition band_flow (shortestDistance : F) : result F :=
  mapRange (of_int 0, gradient_thickness cfg)
           (fquot (max_flow cfg) (of_int 100), fquot (min_flow cfg) (of_int 100))
           shortestDistance.

(** ** LINEAR infill *)

(** [for element in splitLine: if "E" in element: extrusionLength = float(element[1:])] *)
Fixpoint find_extrusion (splitLine : list string) (extrusionLength : option F)
  : result (option F) :=
  match splitLine with
  | [] => Ok extrusionLength
  | element :: rest =>
      if contains "E" element then
        let* v := to_float (tail1 element) in find_extrusion rest (Some v)
      else find_extrusion rest extrusionLength
  end.

(** The body of [for step in range(int(segmentSteps))], [n] times: the
    position and the accumulated text move on together. *)
Fixpoint subdivide (n : nat) (extrusionLengthPerSegment : F) (segmentDirection : Point2D)
    (perimeter : option (list Segment)) (lastPosition : Point2D) (new_Line : option string)
  : result (Point2D * option string) :=
  match n with
  | O => Ok (lastPosition, new_Line)
  | S k =>
      let segmentEnd := mkPoint (fadd (Px lastPosition) (Px segmentDirection))
                                (fadd (Py lastPosition) (Py segmentDirection)) in
      let* segments := load "perimeterSegments" perimeter in
      let* shortestDistance :=
        min_distance_from_segment (mkSegment lastPosition segmentEnd) segments in
      let* segmentExtrusion :=
        if flt shortestDistance (gradient_thickness cfg) then
          let* m := band_flow shortestDistance in Ok (fmul extrusionLengthPerSegment m)
        else Ok (fquot (fmul extrusionLengthPerSegment (min_flow cfg)) (of_int 100)) in
      let* text := load "new_Line" new_Line in
      subdivide k extrusionLengthPerSegment segmentDirection perimeter segmentEnd
        (Some (text ++ get_extrusion_command (Px segmentEnd) (Py segmentEnd) segmentExtrusion
                    ++ nl))
  end.

(** The branch [segmentSteps >= 2]: the sub-moves, then the missing segment. *)
Definition subdivided_move (segmentSteps extrusionLengthPerSegment segmentLength extrusion : F)
    (segmentDirection currentPosition : Point2D)
    (perimeter : option (list Segment)) (lastPosition : Point2D) (new_Line : option string)
  : result (Point2D * string) :=
  let* steps := trunc segmentSteps in
  let* (lastPosition, new_Line) :=
    subdivide (Z.to_nat steps) extrusionLengthPerSegment segmentDirection perimeter
              lastPosition new_Line in
  let* rest := get_points_distance lastPosition currentPosition in
  let* segmentLengthRatio := fdiv rest segmentLength in
  let* text := load "new_Line" new_Line in
  Ok (lastPosition,
      text ++ get_extrusion_command (Px currentPosition) (Py currentPosition)
                (fquot (fmul (fmul segmentLengthRatio extrusion) (max_flow cfg)) (of_int 100))).

(** The branch [segmentSteps < 2]: every field holding an E is replaced, the
    others are copied with a space after them. *)
Fixpoint scale_fields (splitLine : list string) (value : string) (outPutLine : string)
  : string :=
  match splitLine with
  | [] => outPutLine
  | element :: rest =>
      if contains "E" element then scale_fields rest value (outPutLine ++ "E" ++ value)
      else scale_fields rest value (outPutLine ++ element ++ " ")
  end.

(** The block [if infill_type == 2]. *)
Definition linear_infill (gradientDiscretizationLength : F) (st : State)
    (lines : list string) (line_index : nat) (currentPosition : Point2D)
    (splitLine : list string) : result (State * list string) :=
  let* e := find_extrusion splitLine (extrusionLength st) in
  let st := set_extrusion st e in
  let* extrusion := load "extrusionLength" e in
  let* segmentLength := get_points_distance (lastPosition st) currentPosition in
  let* segmentSteps := fdiv segmentLength gradientDiscretizationLength in
  let* extrusionLengthPerSegment := fdiv extrusion segmentSteps in
  let* dx := fdiv (fsub (Px currentPosition) (Px (lastPosition st))) segmentLength in
  let* dy := fdiv (fsub (Py currentPosition) (Py (lastPosition st))) segmentLength in
  let segmentDirection := mkPoint (fmul dx gradientDiscretizationLength)
                                  (fmul dy gradientDiscretizationLength) in
  if fle (of_int 2) segmentSteps then
    let* (position, text) :=
      subdivided_move segmentSteps extrusionLengthPerSegment segmentLength extrusion
        segmentDirection currentPosition (perimeterSegments st) (lastPosition st)
        (new_Line st) in
    Ok (set_new_Line (set_position st position) (Some text), assign line_index text lines)
  else
    let outPutLine :=
      scale_fields splitLine
        (repr (round_to 5 (fquot (fmul extrusion (max_flow cfg)) (of_int 100)))) "" in
    Ok (st, assign line_index outPutLine lines).

(** ** SMALL_SEGMENTS infill *)

(** What a field of the line becomes: an E field is scaled by the flow of the
    band, any other field is copied with a space after it. *)
Definition scaled_field (shortestDistance : F) (element : string) : result string :=
  if contains "E" element then
    let* v := to_float (tail1 element) in
    let* m := band_flow shortestDistance in
    let newE := fmul v m in
    Ok ("E" ++ repr (round_to 5 newE))
  else Ok (element ++ " ").

Fixpoint scale_each_field (splitLine : list string) (shortestDistance : F)
    (outPutLine : string) : result string :=
  match splitLine with
  | [] => Ok outPutLine
  | element :: rest =>
      let* text := scaled_field shortestDistance element in
      scale_each_field rest shortestDistance (outPutLine ++ text)
  end.

(** The block [if infill_type == 1]. *)
Definition small_segments_infill (st : State) (lines : list string) (line_index : nat)
    (currentPosition : Point2D) (splitLine : list string) : result (list string) :=
  let* segments := load "perimeterSegments" (perimeterSegments st) in
  let* shortestDistance :=
    min_distance_from_segment (mkSegment (lastPosition st) currentPosition) segments in
  let* outPutLine := load "new_Line" (new_Line st) in
  if flt shortestDistance (gradient_thickness cfg) then
    let* outPutLine := scale_each_field splitLine shortestDistance outPutLine in
    Ok (assign line_index (outPutLine ++ nl) lines)
  else Ok lines.

(** ** One line of a layer *)

(** The markers and the wall collection at the head of the loop body. *)
Definition scan_markers (st : State) (currentLine : string) : result State :=
  let st := if is_begin_layer_line currentLine then set_perimeter st (Some []) else st in
  let st := if is_begin_inner_wall_line currentLine then set_section st INNER_WALL else st in
  let* st :=
    if Section_eqb (currentSection st) INNER_WALL && is_extrusion_line currentLine then
      let* segments := load "perimeterSegments" (perimeterSegments st) in
      let* p := getXY currentLine in
      Ok (set_perimeter st (Some (segments ++ [mkSegment p (lastPosition st)])%list))
    else Ok st in
  Ok (if is_end_inner_wall_line currentLine then set_section st NOTHING else st).

(** A line with F and G1 inside the infill: the speed command is kept in
    [new_Line]; [lines] is not written. *)
Definition keep_speed (st : State) (currentLine : string) : State :=
  if contains "F" currentLine && contains "G1" currentLine then
    match re_search "F" currentLine with
    | Some speed => set_new_Line st (Some ("G1 F" ++ speed ++ nl))
    | None => st
    end
  else st.

(** The rewriting of an extrusion move inside the infill. *)
Definition rewrite_move (infill_type : nat) (gradientDiscretizationLength : F) (st : State)
    (lines : list string) (line_index : nat) (currentLine : string)
  : result (State * list string) :=
  if contains "E" currentLine && contains "G1" currentLine
     && contains " X" currentLine && contains "Y" currentLine then
    let* currentPosition := getXY currentLine in
    let splitLine := split " " currentLine in
    let* (st, lines) :=
      if Nat.eqb infill_type 2 then
        linear_infill gradientDiscretizationLength st lines line_index currentPosition
                      splitLine
      else Ok (st, lines) in
    if Nat.eqb infill_type 1 then
      let* lines := small_segments_infill st lines line_index currentPosition splitLine in
      Ok (st, lines)
    else Ok (st, lines)
  else Ok (st, lines).

(** The body of [if currentSection == Section.INFILL]. *)
Definition infill_line (infill_type : nat) (gradientDiscretizationLength : F) (st : State)
    (lines : list string) (line_index : nat) (currentLine : string)
  : result (State * list string) :=
  let st := keep_speed st currentLine in
  let* (st, lines) :=
    rewrite_move infill_type gradientDiscretizationLength st lines line_index currentLine in
  Ok (if contains ";" currentLine then set_section st NOTHING else st, lines).

(** [# line with move] *)
Definition track_position (st : State) (currentLine : string) : result State :=
  if contains " X" currentLine && contains " Y" currentLine
     && (contains "G1" currentLine || contains "G0" currentLine) then
    let* p := getXY currentLine in Ok (set_position st p)
  else Ok st.

(** The body of [for currentLine in lines]. *)
Definition process_line (infill_type : nat) (gradientDiscretizationLength : F) (st : State)
    (lines : list string) (currentLine : string) : result (State * list string) :=
  let* line_index := index currentLine lines in
  let* st := scan_markers st currentLine in
  if is_begin_infill_segment_line currentLine then Ok (set_section st INFILL, lines)
  else
    let* (st, lines) :=
      if Section_eqb (currentSection st) INFILL then
        infill_line infill_type gradientDiscretizationLength st lines line_index currentLine
      else Ok (st, lines) in
    let* st := track_position st currentLine in
    Ok (st, lines).

(** ** Layers and the stream *)

(** [for currentLine in lines]: the list iterator reads [lines[i]] when it
    reaches position [i], from the list as the earlier iterations left it. *)
Fixpoint scan_lines (infill_type : nat) (gradientDiscretizationLength : F)
    (positions : list nat) (st : State) (lines : list string)
  : result (State * list string) :=
  match positions with
  | [] => Ok (st, lines)
  | i :: rest =>
      match nth_error lines i with
      | None => Ok (st, lines)
      | Some currentLine =>
          let* (st, lines) :=
            process_line infill_type gradientDiscretizationLength st lines currentLine in
          scan_lines infill_type gradientDiscretizationLength rest st lines
      end
  end.

(** The body of [for layer in data], without the two uses of [data]. *)
Definition process_layer (infill_type : nat) (gradientDiscretizationLength : F) (st : State)
    (layer : string) : result (State * string) :=
  let lines := split "010" layer in
  let* (st, lines) :=
    scan_lines infill_type gradientDiscretizationLength (seq 0 (List.length lines)) st lines in
  Ok (st, join nl lines).

(** [for layer in data], over the list as the earlier iterations left it. *)
Fixpoint scan_layers (infill_type : nat) (gradientDiscretizationLength : F)
    (positions : list nat) (st : State) (data : list string)
  : result (State * list string) :=
  match positions with
  | [] => Ok (st, data)
  | j :: rest =>
      match nth_error data j with
      | None => Ok (st, data)
      | Some layer =>
          let* layer_index := index layer data in
          let* (st, final_lines) :=
            process_layer infill_type gradientDiscretizationLength st layer in
          scan_layers infill_type gradientDiscretizationLength rest st
                      (assign layer_index final_lines data)
      end
  end.

Definition initial_state : State :=
  mkState NOTHING (mkPoint (of_int (-10000)) (of_int (-10000))) None None None.

(** [execute], from the settings on: the host lookups before are not modelled. *)
Definition run (data : list string) : result (State * list string) :=
  let* gradientDiscretizationLength :=
    fdiv (gradient_thickness cfg) (gradient_discretization cfg) in
  let infill_type := mfill_mode (infillpattern cfg) in
  scan_layers infill_type gradientDiscretizationLength (seq 0 (List.length data))
              initial_state data.

Definition execute (data : list string) : result (list string) :=
  let* (_, data) := run data in Ok data.

End Transformer.

(** ** Binary64 floats *)

(** The floats of CPython on IEEE doubles: [+], [-], [*] and [/] round to
    nearest, and [round], [repr] and [float] are CPython's own, the same on
    every platform.  [**] alone is left to the C library: see [power2] and
    [power_half] for what the instance takes it to be. *)

Module Binary64.

Import PrimFloat SpecFloat FloatOps.
Local Open Scope Z_scope.

(** The float nearest to [n / d], ties to even, with the sign [neg]. *)
Definition nearest (neg : bool) (n d : positive) : PrimFloat.float :=
  SF2Prim (SFdiv prec emax (S754_finite neg n 0) (S754_finite false d 0)).

(** [n / d] rounded to an integer, ties to even. *)
Definition round_half_even (n d : Z) : Z :=
  let q := (n / d)%Z in
  let r := (n mod d)%Z in
  match (2 * r ?= d)%Z with
  | Lt => q
  | Gt => (q + 1)%Z
  | Eq => if Z.even q then q else (q + 1)%Z
  end.

(** A finite non-zero float as sign, numerator and denominator. *)
Definition fraction (x : PrimFloat.float) : option (bool * Z * Z) :=
  match Prim2SF x with
  | S754_finite s m e =>
      Some (s, if (0 <=? e)%Z then (Zpos m * 2 ^ e)%Z else Zpos m,
               if (0 <=? e)%Z then 1%Z else (2 ^ (- e))%Z)
  | _ => None
  end.

Definition signed_zero (neg : bool) : PrimFloat.float :=
  if neg then neg_zero else zero.

Definition of_fraction (neg : bool) (n d : Z) : PrimFloat.float :=
  match n, d with
  | Zpos p, Zpos q => nearest neg p q
  | _, _ => signed_zero neg
  end.

(** [round(x, ndigits)]: the decimal with [ndigits] places nearest to the
    exact value of [x], read back as a float. *)
Definition round_digits (ndigits : nat) (x : PrimFloat.float) : PrimFloat.float :=
  match fraction x with
  | Some (s, n, d) =>
      let scale := (10 ^ Z.of_nat ndigits)%Z in
      of_fraction s (round_half_even (n * scale) d) scale
  | None => x
  end.

(** [int(x)] *)
Definition truncate (x : PrimFloat.float) : result Z :=
  match Prim2SF x with
  | S754_nan => Raise ValueError
  | S754_infinity _ => Raise OverflowError
  | S754_zero _ => Ok 0%Z
  | S754_finite s m e =>
      let v := if (0 <=? e)%Z then (Zpos m * 2 ^ e)%Z else (Zpos m / 2 ^ (- e))%Z in
      Ok (if s then (- v)%Z else v)
  end.

(** [x ** 2], as the float nearest to the square.  CPython hands [**] to the
    [pow] of the C library, which is not bound to return the nearest float and
    is sometimes one unit in the last place away from it; what [pow] returns
    there depends on the library.  The instance is the arithmetic of a [pow]
    that rounds to nearest; squares that a float holds exactly come out the
    same under every [pow]. *)
Definition power2 (x : PrimFloat.float) : result PrimFloat.float :=
  let r := PrimFloat.mul x x in
  if is_infinity r && is_finite x then Raise OverflowError else Ok r.

(** The position of the decimal point: [k] with [10^(k-1) <= n/d < 10^k]. *)
Fixpoint decimal_point (fuel : nat) (n d k : Z) : Z :=
  match fuel with
  | O => k
  | S f =>
      if (n <? d)%Z then
        if (10 * n <? d)%Z then decimal_point f (10 * n)%Z d (k - 1)%Z else k
      else decimal_point f n (10 * d)%Z (k + 1)%Z
  end.

(** Digits that reach [10^p] are written as one digit more to the left. *)
Definition carry (p m k : Z) : Z * Z :=
  if (m =? 10 ^ p)%Z then (10 ^ (p - 1), k + 1)%Z else (m, k).

(** The two decimals of [p] significant digits around [n / d], each as its
    digits and the position of its decimal point: first the nearer one (of two
    equally near, the even one), then the one on the other side. *)
Definition neighbours (p : Z) (n d : Z) : (Z * Z) * (Z * Z) :=
  let k := decimal_point 800 n d 0 in
  let shift := (p - k)%Z in
  let num := if (0 <=? shift)%Z then (n * 10 ^ shift)%Z else n in
  let den := if (0 <=? shift)%Z then d else (d * 10 ^ (- shift))%Z in
  let below := (num / den)%Z in
  let near := round_half_even num den in
  let far := if (near =? below)%Z then (below + 1)%Z else below in
  (carry p near k, carry p far k).

Definition of_decimal (neg : bool) (m e : Z) : PrimFloat.float :=
  if (0 <=? e)%Z then of_fraction neg (m * 10 ^ e) 1 else of_fraction neg m (10 ^ (- e)).

(** The fewest significant digits that read back as [x]; of the decimals of
    that length that do, the one nearest to [x].  Next to a power of two the
    floats below [x] lie twice as close as those above, and the decimal that
    reads back may be the farther neighbour. *)
Fixpoint shortest (fuel : nat) (p : Z) (x : PrimFloat.float) (s : bool) (n d : Z)
  : Z * Z * Z :=
  let '((m, k), (m', k')) := neighbours p n d in
  match fuel with
  | O => (m, p, k)
  | S f =>
      if PrimFloat.eqb (of_decimal s m (k - p)) x then (m, p, k)
      else if PrimFloat.eqb (of_decimal s m' (k' - p)) x then (m', p, k')
      else shortest f (p + 1)%Z x s n d
  end.

Definition digit_char (v : Z) : ascii := ascii_of_nat (48 + Z.to_nat v).

Fixpoint digits_of (count : nat) (m : Z) (suffix : string) : string :=
  match count with
  | O => suffix
  | S c => digits_of c (m / 10)%Z (String (digit_char (m mod 10)) suffix)
  end.

Fixpoint strip_zeros (fuel : nat) (m p : Z) : Z * Z :=
  match fuel with
  | O => (m, p)
  | S f => if ((1 <? p) && (m mod 10 =? 0))%Z then strip_zeros f (m / 10)%Z (p - 1)%Z
           else (m, p)
  end.

Fixpoint zeros (n : nat) : string :=
  match n with O => EmptyString | S k => String "0"%char (zeros k) end.

Fixpoint take (n : nat) (s : string) : string :=
  match n, s with
  | S k, String a r => String a (take k r)
  | _, _ => EmptyString
  end.

Fixpoint drop (n : nat) (s : string) : string :=
  match n, s with
  | S k, String _ r => drop k r
  | _, _ => s
  end.

Definition nat_digits (v : Z) : string :=
  let fix count (fuel : nat) (w : Z) : nat :=
    match fuel with
    | O => 1%nat
    | S f => if (w <? 10)%Z then 1%nat else S (count f (w / 10)%Z)
    end in
  digits_of (count 20%nat v) v EmptyString.

(** [repr] of a float: the shortest digits, in positional notation when the
    decimal point lies in (-4, 16], else with an exponent of two digits or more. *)
Definition float_repr (x : PrimFloat.float) : string :=
  match Prim2SF x with
  | S754_nan => "nan"
  | S754_infinity s => if s then "-inf" else "inf"
  | S754_zero s => if s then "-0.0" else "0.0"
  | S754_finite s _ _ =>
      match fraction x with
      | None => "nan"
      | Some (_, n, d) =>
          let '(m, p, k) := shortest 17 1 x s n d in
          let (m, p) := strip_zeros 17 m p in
          let digits := digits_of (Z.to_nat p) m EmptyString in
          let body :=
            if ((-4 <? k) && (k <=? 16))%Z then
              if (k <=? 0)%Z then "0." ++ zeros (Z.to_nat (- k)) ++ digits
              else if (p <=? k)%Z then digits ++ zeros (Z.to_nat (k - p)) ++ ".0"
              else take (Z.to_nat k) digits ++ "." ++ drop (Z.to_nat k) digits
            else
              let e := (k - 1)%Z in
              take 1 digits ++ (if (1 <? p)%Z then "." ++ drop 1 digits else "")
                ++ "e" ++ (if (e <? 0)%Z then "-" else "+")
                ++ (if (Z.abs e <? 10)%Z then "0" else "") ++ nat_digits (Z.abs e) in
          if s then "-" ++ body else body
      end
  end.

(** [float(s)] of an ASCII string: blanks around (tab to carriage return, and
    the space), a sign, then inf, infinity or nan in any case, or digits with
    an optional point and an optional exponent; an underscore may stand
    between two digits. *)
Definition is_space (a : ascii) : bool :=
  let n := nat_of_ascii a in
  ((9 <=? n) && (n <=? 13) || (n =? 32))%nat.

Fixpoint lstrip (s : string) : string :=
  match s with
  | String a r => if is_space a then lstrip r else s
  | EmptyString => s
  end.

Fixpoint rstrip (s : string) : string :=
  match s with
  | String a r =>
      match rstrip r with
      | EmptyString => if is_space a then EmptyString else String a EmptyString
      | r' => String a r'
      end
  | EmptyString => s
  end.

Definition lower (a : ascii) : ascii :=
  let n := nat_of_ascii a in
  if ((65 <=? n) && (n <=? 90))%nat then ascii_of_nat (n + 32) else a.

Fixpoint lowercase (s : string) : string :=
  match s with
  | String a r => String (lower a) (lowercase r)
  | EmptyString => s
  end.

Definition digit_value (a : ascii) : Z := Z.of_nat (nat_of_ascii a - 48).

Fixpoint digits_loop (acc : Z) (count : Z) (s : string) : Z * Z * string :=
  match s with
  | String a r =>
      if is_digit a then digits_loop (10 * acc + digit_value a) (count + 1) r
      else if Ascii.eqb a "_" then
        match r with
        | String b r' =>
            if is_digit b then digits_loop (10 * acc + digit_value b) (count + 1) r'
            else (acc, count, s)
        | EmptyString => (acc, count, s)
        end
      else (acc, count, s)
  | EmptyString => (acc, count, s)
  end.

(** A digit part at the head of [s], when there is one: its value, how many
    digits it has, and the rest. *)
Definition digitpart (s : string) : Z * Z * string :=
  match s with
  | String a r => if is_digit a then digits_loop (digit_value a) 1 r else (0, 0, s)%Z
  | EmptyString => (0, 0, s)%Z
  end.

Definition read_sign (s : string) : bool * string :=
  match s with
  | String "-" r => (true, r)
  | String "+" r => (false, r)
  | _ => (false, s)
  end.

Definition read_exponent (s : string) : option Z :=
  match s with
  | EmptyString => Some 0%Z
  | String a r =>
      if Ascii.eqb (lower a) "e" then
        let (neg, r) := read_sign r in
        let '(v, count, rest) := digitpart r in
        match rest with
        | EmptyString =>
            if (count =? 0)%Z then None else Some (if neg then (- v)%Z else v)
        | _ => None
        end
      else None
  end.

Definition parse_float (s : string) : option PrimFloat.float :=
  let (neg, body) := read_sign (lstrip (rstrip s)) in
  let word := lowercase body in
  if String.eqb word "inf" || String.eqb word "infinity" then
    Some (if neg then neg_infinity else infinity)
  else if String.eqb word "nan" then Some nan
  else
    let '(i, icount, rest) := digitpart body in
    let '(f, fcount, rest) :=
      match rest with
      | String "." r => digitpart r
      | _ => (0%Z, 0%Z, rest)
      end in
    if (icount + fcount =? 0)%Z then None
    else
      match read_exponent rest with
      | None => None
      | Some e =>
          let m := (i * 10 ^ fcount + f)%Z in
          let e := (e - fcount)%Z in
          if (m =? 0)%Z then Some (signed_zero neg)
          else if (1024 <=? Z.log2 m + 3 * e)%Z then
            (* [m * 10^e >= 2^(log2 m + 3 e) >= 2^1024]: beyond every float *)
            Some (if neg then neg_infinity else infinity)
          else if (Z.log2 m + 1 + 3 * e <=? -1075)%Z then
            (* [m * 10^e < 2^(log2 m + 1 + 3 e) <= 2^-1075]: nearer to zero than
               to the least float *)
            Some (signed_zero neg)
          else Some (of_decimal neg m e)
      end.

Definition of_integer (z : Z) : PrimFloat.float :=
  match z with
  | Z0 => zero
  | Zpos p => nearest false p 1
  | Zneg p => nearest true p 1
  end.

(** [x ** 0.5] of a float that is not negative, as the float nearest to the
    root: again the value of a [pow] that rounds to nearest, from which the
    [pow] of a C library may be one unit in the last place away when the root
    is not itself a float.  [pow] of a zero of either sign is [0.0]. *)
Definition power_half (x : PrimFloat.float) : PrimFloat.float :=
  if is_zero x then zero else PrimFloat.sqrt x.

End Binary64.

#[export] Instance binary64 : PyFloat PrimFloat.float := {
  of_int := Binary64.of_integer;
  fadd := PrimFloat.add;
  fsub := PrimFloat.sub;
  fmul := PrimFloat.mul;
  fquot := PrimFloat.div;
  fzero := PrimFloat.is_zero;
  square := Binary64.power2;
  pow_half := Binary64.power_half;
  flt := PrimFloat.ltb;
  fle := PrimFloat.leb;
  trunc := Binary64.truncate;
  round_to := Binary64.round_digits;
  repr := Binary64.float_repr;
  parse := Binary64.parse_float
}.

(** The defaults of the settings, for the infill pattern [pattern]. *)
Definition default_settings (pattern : string) : Settings (F := PrimFloat.float) :=
  mkSettings (of_int 4) (of_int 350) (of_int 50) (of_int 6) pattern.

(** A layer from its lines. *)
Definition layer_of (lines : list string) : string := join nl lines.

(** ** Streams to run the script on *)

(** Two linear infill moves in a row along the X axis, behind a wall on the Y axis. *)
Definition two_moves : list string :=
  [";LAYER:0"; "G0 X0 Y0"; ";TYPE:WALL-INNER"; "G1 X0 Y10 E1"; ";TYPE:WALL-OUTER";
   "G0 X0 Y0"; ";TYPE:FILL"; "G1 F1200 X3 Y0 E1.0"; "G1 X6 Y0 E1.0"].

(** An infill move to the position the nozzle is already at. *)
Definition zero_length_move : list string :=
  [";LAYER:0"; ";TYPE:FILL"; "G0 X5 Y5"; "G1 X5 Y5 E1"].

(** The same text once as a wall move and once as an infill move. *)
Definition twin_of_wall_move : list string :=
  [";LAYER:0"; ";TYPE:WALL-INNER"; "G1 X5 Y5 E1"; ";TYPE:WALL-OUTER"; ";TYPE:FILL";
   "G1 X6 Y5 E1"; "G1 X5 Y5 E1"].

(** The same text once before any section and once as an infill move. *)
Definition twin_of_outside_move : list string :=
  [";LAYER:0"; "G1 X5 Y5 E1"; ";TYPE:FILL"; "G1 X6 Y5 E1"; "G1 X5 Y5 E1"].

(** A wall move that ends where it starts. *)
Definition wall_of_no_length : list string :=
  [";LAYER:0"; "G0 X1 Y1"; ";TYPE:WALL-INNER"; "G1 X1 Y1 E0.1"; ";TYPE:WALL-OUTER";
   ";TYPE:FILL"; "G1 F1200 X5 Y5 E1"].

(** An infill with no wall before it in the layer. *)
Definition infill_without_wall : list string :=
  [";LAYER:0"; ";TYPE:FILL"; "G1 F1200 X5 Y5 E1"].

(** A speed change with a travel target inside the infill. *)
Definition speed_change : list string :=
  [";LAYER:0"; ";TYPE:FILL"; "G1 F1200 X5 Y5"].

(** An infill move with no speed line anywhere before it. *)
Definition move_without_speed : list string :=
  [";LAYER:0"; "G0 X0 Y0"; ";TYPE:WALL-INNER"; "G1 X0 Y10 E1"; ";TYPE:WALL-OUTER";
   "G0 X0 Y0"; ";TYPE:FILL"; "G1 X5 Y5 E1.0"].

(** The state inside the infill of a layer with the wall from (0,10) to (0,0),
    the nozzle at the origin and the speed command of F1200 accumulated. *)
Definition inside_infill : State (F := PrimFloat.float) :=
  mkState INFILL (mkPoint (of_int 0) (of_int 0))
          (Some [mkSegment (mkPoint (of_int 0) (of_int 10))
                           (mkPoint (of_int 0) (of_int 0))])
          (Some ("G1 F1200" ++ nl)) None.

(** A wall segment far away, as another layer may have left it. *)
Definition far_wall : list (Segment (F := PrimFloat.float)) :=
  [mkSegment (mkPoint (of_int 200) (of_int 200)) (mkPoint (of_int 200) (of_int 210))].

(** A layer that starts with its marker, with a wall and one infill move. *)
Definition second_layer : list string :=
  [";LAYER:1"; "G0 X0 Y0"; ";TYPE:WALL-INNER"; "G1 X0 Y10 E1"; ";TYPE:WALL-OUTER";
   "G0 X0 Y0"; ";TYPE:FILL"; "G1 F1200 X5 Y5 E1.0"].

(** The gradient step of the default settings: 6 / 4. *)
Definition default_step : PrimFloat.float :=
  PrimFloat.div (of_int 6) (of_int 4).

(** A line that sets the speed command: it holds an F and a G1. *)
Definition carries_speed (line : string) : bool :=
  contains "F" line && contains "G1" line.

(** ** The extruder of the settings *)

(** [l[i]] on a Python list: a negative index counts from the end, and an
    index out of range is an IndexError, here [None]. *)
Definition list_item {A : Type} (l : list A) (i : Z) : option A :=
  if (0 <=? i)%Z then nth_error l (Z.to_nat i)
  else if (- Z.of_nat (List.length l) <=? i)%Z
       then nth_error l (Z.to_nat (Z.of_nat (List.length l) + i))
       else None.

(** The index [execute] computes from the setting [extruder_nb] and the
    machine's extruder count: both less one, the first capped by the second. *)
Definition selected_extruder (extruder_nb machine_extruder_count : Z) : Z :=
  let extruder_id := (extruder_nb - 1)%Z in
  let extruder_count := (machine_extruder_count - 1)%Z in
  if (extruder_count <? extruder_id)%Z then extruder_count else extruder_id.

(** What [execute] reads from an extruder of the host. *)
Record Extruder : Type := mkExtruder {
  infill_pattern : string;
  relative_extrusion : bool
}.

(** [extrud[extruder_id].getProperty("infill_pattern", "value")] *)
Definition extruder_pattern (extruder_nb machine_extruder_count : Z)
    (extrud : list Extruder) : option string :=
  option_map infill_pattern
    (list_item extrud (selected_extruder extruder_nb machine_extruder_count)).

(** ** Vocabulary of the statements *)

(** A line on which the scan may call [getXY]: an extrusion move, or a move
    that sets the position. *)
Definition reads_position (line : string) : bool :=
  (contains "G1" line && contains " X" line && contains "Y" line && contains "E" line)
  || (contains " X" line && contains " Y" line
      && (contains "G1" line || contains "G0" line)).

(** The pattern names [mfill_mode] maps to 1 or 2. *)
Definition gradient_patterns : list string :=
  ["grid"; "lines"; "triangles"; "trihexagon"; "cubic"; "cubicsubdiv"; "tetrahedral";
   "quarter_cubic"; "zigzag"; "gyroid"].

Section Vocabulary.

Context {F : Type} `{PyFloat F}.
Variable cfg : Settings (F := F).

(** A point moved by a direction, as [segmentEnd] is from [lastPosition]. *)
Definition moved (p dir : Point2D) : Point2D :=
  mkPoint (fadd (Px p) (Px dir)) (fadd (Py p) (Py dir)).

(** The position after [n] sub-moves. *)
Fixpoint advance (n : nat) (p dir : Point2D) : Point2D :=
  match n with
  | O => p
  | S k => advance k (moved p dir) dir
  end.

(** The extrusion of the sub-move from [lastPosition] to [segmentEnd]: its
    share scaled by the flow of the band at the distance of its midpoint, or
    by the minimum flow outside the band. *)
Definition sub_move_extrusion (extrusionLengthPerSegment : F)
    (perimeter : option (list Segment)) (lastPosition segmentEnd : Point2D) : result F :=
  let* segments := load "perimeterSegments" perimeter in
  let* shortestDistance :=
    min_distance_from_segment (mkSegment lastPosition segmentEnd) segments in
  if flt shortestDistance (gradient_thickness cfg) then
    let* m := band_flow cfg shortestDistance in Ok (fmul extrusionLengthPerSegment m)
  else Ok (fquot (fmul extrusionLengthPerSegment (min_flow cfg)) (of_int 100)).

(** [extrusions] are those of the successive sub-moves from [p] on. *)
Fixpoint sub_moves_of (extrusionLengthPerSegment : F) (perimeter : option (list Segment))
    (dir p : Point2D) (extrusions : list F) : Prop :=
  match extrusions with
  | [] => True
  | e :: rest =>
      sub_move_extrusion extrusionLengthPerSegment perimeter p (moved p dir) = Ok e /\
      sub_moves_of extrusionLengthPerSegment perimeter dir (moved p dir) rest
  end.

(** The commands of the successive sub-moves from [p] on, a line each. *)
Fixpoint sub_move_commands (dir p : Point2D) (extrusions : list F) : string :=
  match extrusions with
  | [] => ""
  | e :: rest =>
      get_extrusion_command (Px (moved p dir)) (Py (moved p dir)) e ++ nl
        ++ sub_move_commands dir (moved p dir) rest
  end.

(** The text of a field of a short linear move: an E field becomes the
    scaled value, any other field is copied with a space after it. *)
Definition short_move_field (value element : string) : string :=
  if contains "E" element then "E" ++ value else element ++ " ".

End Vocabulary.

Section Midpoint.

Context {F : Type} `{PyFloat F}.

(** The point [min_distance_from_segment] measures from. *)
Definition middle_point (segment : Segment) : Point2D :=
  mkPoint (fquot (fadd (Px (point1 segment)) (Px (point2 segment))) (of_int 2))
          (fquot (fadd (Py (point1 segment)) (Py (point2 segment))) (of_int 2)).

(** [min] keeps the value it holds unless the next one is strictly smaller. *)
Definition smaller (current next : F) : F :=
  if flt next current then next else current.

End Midpoint.

(** ** More streams and states *)

(** The state before any section of a layer, the perimeter set empty. *)
Definition outside_sections : State (F := PrimFloat.float) :=
  mkState NOTHING (mkPoint (of_int 0) (of_int 0)) (Some []) None None.

(** The state inside an inner wall with one segment recorded. *)
Definition inside_wall : State (F := PrimFloat.float) :=
  mkState INNER_WALL (mkPoint (of_int 0) (of_int 0))
          (Some [mkSegment (mkPoint (of_int 0) (of_int 0))
                           (mkPoint (of_int 1) (of_int 1))])
          None None.

(** A layer with walls and moves and no infill. *)
Definition layer_without_infill : list string :=
  [";LAYER:3"; ";TYPE:WALL-INNER"; "G1 X5 Y5 E1"; ";TYPE:WALL-OUTER"; "G1 X6 Y5 E1";
   "G0 X0 Y0"].

(** A wall that opens before any layer marker. *)
Definition wall_without_marker : list string :=
  [";TYPE:WALL-INNER"; "G1 X5 Y5 E1"].

(** Two walls parallel to the Y axis, at X 0 and at X 5. *)
Definition two_walls : list (Segment (F := PrimFloat.float)) :=
  [mkSegment (mkPoint (of_int 0) (of_int 10)) (mkPoint (of_int 0) (of_int 0));
   mkSegment (mkPoint (of_int 5) (of_int 0)) (mkPoint (of_int 5) (of_int 10))].

(** Two extruders of a machine. *)
Definition two_extruders : list Extruder :=
  [mkExtruder "lines" true; mkExtruder "gyroid" true].

(** ** Vocabulary of the rewriting *)

Section Rewriting.

Context {F : Type} `{PyFloat F}.

(** [segmentDirection]: the way from [lastPosition] towards [currentPosition],
    one gradient step long. *)
Definition segment_direction (gradientDiscretizationLength : F)
    (lastPosition currentPosition : Point2D) (segmentLength : F) : Point2D :=
  mkPoint (fmul (fquot (fsub (Px currentPosition) (Px lastPosition)) segmentLength)
                gradientDiscretizationLength)
          (fmul (fquot (fsub (Py currentPosition) (Py lastPosition)) segmentLength)
                gradientDiscretizationLength).

(** What is left of the loop body after the rewriting of a line of the
    infill, for a line on which [getXY] reads [p]: a semicolon ends the infill,
    and a move sets the position. *)
Definition after_line (st : State (F := F)) (line : string) (p : Point2D (F := F))
  : State (F := F) :=
  let st := if contains ";" line then set_section st NOTHING else st in
  if contains " X" line && contains " Y" line
     && (contains "G1" line || contains "G0" line)
  then set_position st p else st.

End Rewriting.

(** ** Streams for the accumulator *)



(** An infill move of two gradient steps along the wall's foot, with no speed
    line anywhere before it. *)
Definition steps_without_speed : list string :=
  [";LAYER:0"; "G0 X0 Y0"; ";TYPE:WALL-INNER"; "G1 X0 Y10 E1"; ";TYPE:WALL-OUTER";
   "G0 X0 Y0"; ";TYPE:FILL"; "G1 X3 Y0 E1.0"].

(** The state [inside_infill] before any speed line. *)
Definition infill_without_speed : State (F := PrimFloat.float) :=
  set_new_Line inside_infill None.

(** * Properties *)

(** ** Lists and strings *)

Lemma bind_ok {A B : Type} (r : result A) (k : A -> result B) (b : B) :
  bind r k = Ok b -> exists a, r = Ok a /\ k a = Ok b.
Proof.
  destruct r as [a|e]; simpl; intros E; [exists a; auto | discriminate].
Qed.

Lemma bind_raise {A B : Type} (r : result A) (k : A -> result B) (e : exn) :
  r = Raise e -> bind r k = Raise e.
Proof. intros ->; reflexivity. Qed.

Lemma index_found (v : string) (l : list string) (i : nat) :
  nth_error l i = Some v -> exists k, index v l = Ok k /\ (k <= i)%nat.
Proof.
  revert i; induction l as [|w ws IH]; intros [|i] E; simpl in *; try discriminate.
  - injection E as ->. rewrite String.eqb_refl. exists O; auto.
  - destruct (String.eqb w v).
    + exists O; split; [reflexivity | lia].
    + destruct (IH _ E) as (k & -> & Hk). exists (S k); split; [reflexivity | lia].
Qed.

Lemma index_lt (v : string) (l : list string) (k : nat) :
  index v l = Ok k -> (k < List.length l)%nat /\ nth_error l k = Some v.
Proof.
  revert k; induction l as [|w ws IH]; intros k E; simpl in *; try discriminate.
  destruct (String.eqb w v) eqn:Ew.
  - injection E as <-. apply String.eqb_eq in Ew; subst. split; [lia | reflexivity].
  - apply bind_ok in E as (i & Ei & E). injection E as <-.
    destruct (IH _ Ei); split; [lia | assumption].
Qed.

Lemma assign_length {A : Type} (i : nat) (v : A) (l : list A) :
  List.length (assign i v l) = List.length l.
Proof.
  revert i; induction l as [|w ws IH]; intros [|i]; simpl; auto.
Qed.

Lemma assign_other {A : Type} (i k : nat) (v : A) (l : list A) :
  i <> k -> nth_error (assign i v l) k = nth_error l k.
Proof.
  revert i k; induction l as [|w ws IH]; intros [|i] [|k] N; simpl; auto;
    try contradiction.
Qed.

Lemma assign_same {A : Type} (i : nat) (v : A) (l : list A) :
  (i < List.length l)%nat -> nth_error (assign i v l) i = Some v.
Proof.
  revert i; induction l as [|w ws IH]; intros [|i] L; simpl in *; try lia; auto.
  apply IH; lia.
Qed.

Lemma assign_twice {A : Type} (i : nat) (v w : A) (l : list A) :
  assign i w (assign i v l) = assign i w l.
Proof.
  revert i; induction l as [|u us IH]; intros [|i]; simpl; auto.
  now rewrite IH.
Qed.

Lemma prefix_trans (a b c : string) :
  prefix a b = true -> prefix b c = true -> prefix a c = true.
Proof.
  revert b c; induction a as [|x a IH]; intros b c; [destruct c; reflexivity|].
  destruct b as [|y b]; simpl; [discriminate|].
  destruct c as [|z c]; simpl; [discriminate|].
  destruct (ascii_dec x y) as [Exy|]; [|discriminate].
  destruct (ascii_dec y z) as [Eyz|]; [|discriminate].
  destruct (ascii_dec x z) as [_|N]; [apply IH | congruence].
Qed.

(** A line that does not start with [;] is none of the four markers. *)
Lemma not_a_comment (p line : string) :
  prefix ";" line = false -> prefix ";" p = true -> prefix p line = false.
Proof.
  intros N P. destruct (prefix p line) eqn:E; [|reflexivity].
  rewrite (prefix_trans _ _ _ P E) in N. discriminate.
Qed.

Lemma re_search_found (c : ascii) (line : string) :
  contains (String c EmptyString) line = true -> exists g, re_search c line = Some g.
Proof.
  induction line as [|a rest IH]; simpl.
  - discriminate.
  - destruct (ascii_dec c a) as [->|N].
    + rewrite Ascii.eqb_refl. eauto.
    + intros E. destruct (Ascii.eqb a c) eqn:Eac.
      * eauto.
      * apply IH. exact E.
Qed.

Section Properties.

Context {F : Type} `{PyFloat F}.
Variable cfg : Settings (F := F).

(** ** The markers *)

Lemma markers_of_plain_line (line : string) :
  prefix ";" line = false ->
  is_begin_layer_line line = false /\ is_begin_inner_wall_line line = false /\
  is_end_inner_wall_line line = false /\ is_begin_infill_segment_line line = false.
Proof.
  intros N. unfold is_begin_layer_line, is_begin_inner_wall_line,
    is_end_inner_wall_line, is_begin_infill_segment_line, startswith.
  repeat split; apply not_a_comment; auto.
Qed.

(** Inside the infill, a line that is no comment leaves the markers' part of
    the loop body without any effect. *)
Lemma scan_markers_infill (st : State) (line : string) :
  prefix ";" line = false -> currentSection st = INFILL ->
  scan_markers st line = Ok st.
Proof.
  intros N S. destruct (markers_of_plain_line line N) as (A & B & C & D).
  unfold scan_markers. rewrite A, B, C, S. reflexivity.
Qed.

(** The layer marker hides whatever the perimeter set held before. *)
Lemma scan_markers_reset (st : State) (p : option (list Segment)) (line : string) :
  is_begin_layer_line line = true ->
  scan_markers (set_perimeter st p) line = scan_markers st line.
Proof.
  intros L. unfold scan_markers. rewrite L. reflexivity.
Qed.

Lemma process_line_reset (it : nat) (g : F) (st : State) (p : option (list Segment))
    (lines : list string) (line : string) :
  is_begin_layer_line line = true ->
  process_line cfg it g (set_perimeter st p) lines line = process_line cfg it g st lines line.
Proof.
  intros L. unfold process_line. rewrite (scan_markers_reset st p line L). reflexivity.
Qed.

(** C7. Layer isolation.  A layer-start marker that is not itself a wall move
    leaves the perimeter set empty; from a layer-start marker on, the scan goes
    the same way, with the same output and the same final state, whatever
    perimeter segments the lines before it had recorded; so a layer that starts
    with its marker is processed independently of the perimeter segments of
    the layer before it: they reach no distance computed for its moves. *)
Theorem layer_isolation (it : nat) (g : F) (st : State) (p : option (list Segment))
    (lines : list string) (k : nat) (marker : string) (rest : list nat) :
  nth_error lines k = Some marker ->
  is_begin_layer_line marker = true ->
  (forall st', is_extrusion_line marker = false ->
               scan_markers st marker = Ok st' -> perimeterSegments st' = Some []) /\
  scan_lines cfg it g (k :: rest) (set_perimeter st p) lines
    = scan_lines cfg it g (k :: rest) st lines /\
  (forall layer, split "010" layer = lines -> k = 0%nat ->
     process_layer cfg it g (set_perimeter st p) layer = process_layer cfg it g st layer).
Proof.
  intros K L. repeat split.
  - intros st' X. unfold scan_markers. rewrite L, X, andb_false_r.
    intros E. inversion E; subst.
    destruct (is_begin_inner_wall_line marker), (is_end_inner_wall_line marker);
      reflexivity.
  - simpl. rewrite K. now rewrite process_line_reset.
  - intros layer S ->. unfold process_layer. rewrite S.
    destruct lines as [|first others]; [discriminate|].
    simpl in K. inversion K; subst. simpl.
    now rewrite process_line_reset.
Qed.

(** ** Small segments *)

Lemma keep_speed_frame (st : State (F := F)) (line : string) :
  currentSection (keep_speed st line) = currentSection st /\
  lastPosition (keep_speed st line) = lastPosition st /\
  perimeterSegments (keep_speed st line) = perimeterSegments st /\
  extrusionLength (keep_speed st line) = extrusionLength st.
Proof.
  unfold keep_speed.
  destruct (contains "F" line && contains "G1" line); [|auto].
  destruct (re_search "F" line); auto.
Qed.

Lemma string_app_assoc (a b c : string) : (a ++ b) ++ c = a ++ b ++ c.
Proof. induction a as [|x a IH]; simpl; [reflexivity | now rewrite IH]. Qed.

Lemma string_app_empty (a : string) : a ++ "" = a.
Proof. induction a as [|x a IH]; simpl; [reflexivity | now rewrite IH]. Qed.

Lemma scale_each_field_pieces (d : F) (fields pieces : list string) (out : string) :
  Forall2 (fun element text => scaled_field cfg d element = Ok text) fields pieces ->
  scale_each_field cfg fields d out = Ok (out ++ String.concat "" pieces).
Proof.
  intros P; revert out; induction P as [|e t fs ts E _ IH]; intros out; simpl.
  - now rewrite string_app_empty.
  - rewrite E. simpl. rewrite IH, string_app_assoc.
    destruct ts; simpl; [now rewrite string_app_empty | reflexivity].
Qed.

(** ** What one line may write *)

Ltac invert_ok E :=
  repeat match type of E with
  | bind ?r ?k = Ok _ =>
      let a := fresh "a" in let Ea := fresh "E" in
      apply bind_ok in E as (a & Ea & E); simpl in E
  | (let (_, _) := ?x in _) = Ok _ => destruct x; simpl in E
  end.

Lemma linear_infill_writes (g : F) (st st' : State) (lines lines' : list string)
    (k : nat) (p : Point2D) (fields : list string) :
  linear_infill cfg g st lines k p fields = Ok (st', lines') ->
  exists v, lines' = assign k v lines.
Proof.
  unfold linear_infill. intros E. invert_ok E.
  destruct (fle (of_int 2) a2); invert_ok E; inversion E; subst; eauto.
Qed.

Lemma small_segments_writes (st : State) (lines lines' : list string)
    (k : nat) (p : Point2D) (fields : list string) :
  small_segments_infill cfg st lines k p fields = Ok lines' ->
  lines' = lines \/ exists v, lines' = assign k v lines.
Proof.
  unfold small_segments_infill. intros E. invert_ok E.
  destruct (flt a0 (gradient_thickness cfg)); invert_ok E; inversion E; subst; eauto.
Qed.

Lemma rewrite_move_writes (it : nat) (g : F) (st st' : State)
    (lines lines' : list string) (k : nat) (line : string) :
  rewrite_move cfg it g st lines k line = Ok (st', lines') ->
  lines' = lines \/ exists v, lines' = assign k v lines.
Proof.
  unfold rewrite_move. intros E.
  destruct (contains "E" line && contains "G1" line && contains " X" line
            && contains "Y" line); [|inversion E; subst; auto].
  invert_ok E.
  destruct (Nat.eqb it 1) eqn:I1.
  - apply Nat.eqb_eq in I1; subst it. simpl in E1. inversion E1; subst.
    invert_ok E. inversion E; subst. eapply small_segments_writes; eauto.
  - inversion E; subst. destruct (Nat.eqb it 2).
    + right. eapply linear_infill_writes; eauto.
    + inversion E1; subst. auto.
Qed.

Lemma process_line_writes (it : nat) (g : F) (st st' : State)
    (lines lines' : list string) (line : string) :
  process_line cfg it g st lines line = Ok (st', lines') ->
  exists k, index line lines = Ok k /\
            (lines' = lines \/ exists v, lines' = assign k v lines).
Proof.
  unfold process_line. intros E.
  apply bind_ok in E as (k & Ek & E). exists k; split; [assumption|].
  apply bind_ok in E as (st1 & E1 & E).
  destruct (is_begin_infill_segment_line line); [inversion E; subst; auto|].
  apply bind_ok in E as ([st2 lines2] & E2 & E).
  apply bind_ok in E as (st3 & E3 & E). inversion E; subst.
  destruct (Section_eqb (currentSection st1) INFILL); [|inversion E2; subst; auto].
  unfold infill_line in E2.
  apply bind_ok in E2 as ([st4 lines4] & E4 & E2). inversion E2; subst.
  eapply rewrite_move_writes; eauto.
Qed.

(** A line keeps the length of the list, and writes no position after its own. *)
Lemma process_line_frame (it : nat) (g : F) (st st' : State)
    (lines lines' : list string) (i : nat) (line : string) :
  nth_error lines i = Some line ->
  process_line cfg it g st lines line = Ok (st', lines') ->
  List.length lines' = List.length lines /\
  forall j, (i < j)%nat -> nth_error lines' j = nth_error lines j.
Proof.
  intros Hi E. destruct (process_line_writes _ _ _ _ _ E) as (k & Hk & W).
  destruct (index_found _ _ Hi) as (k' & Hk' & Le).
  rewrite Hk in Hk'. injection Hk' as <-.
  destruct W as [->|(v & ->)]; [auto|].
  split; [apply assign_length|].
  intros j Lt. apply assign_other. lia.
Qed.

(** ** Scanning a layer *)

Lemma scan_lines_frame (it : nat) (g : F) (n a : nat) (st st' : State)
    (lines lines' : list string) :
  scan_lines cfg it g (seq a n) st lines = Ok (st', lines') ->
  List.length lines' = List.length lines /\
  forall j, (a + n <= j)%nat -> nth_error lines' j = nth_error lines j.
Proof.
  revert a st lines; induction n as [|n IH]; intros a st lines E; simpl in E.
  - inversion E; subst; auto.
  - destruct (nth_error lines a) as [line|] eqn:Ha; [|inversion E; subst; auto].
    apply bind_ok in E as ([st1 lines1] & E1 & E).
    destruct (process_line_frame _ _ _ _ _ Ha E1) as (L1 & K1).
    destruct (IH _ _ _ E) as (L2 & K2). split; [congruence|].
    intros j Hj. rewrite K2, K1 by lia. reflexivity.
Qed.

Lemma scan_lines_split (it : nat) (g : F) (n m a : nat) (st : State)
    (lines : list string) :
  (a + n <= List.length lines)%nat ->
  scan_lines cfg it g (seq a (n + m)) st lines =
  let* (st1, lines1) := scan_lines cfg it g (seq a n) st lines in
  scan_lines cfg it g (seq (a + n) m) st1 lines1.
Proof.
  revert a st lines; induction n as [|n IH]; intros a st lines L; simpl.
  - now rewrite Nat.add_0_r.
  - destruct (nth_error lines a) as [line|] eqn:Ha.
    + destruct (process_line cfg it g st lines line) as [[st1 lines1]|e] eqn:E1;
        simpl; [|reflexivity].
      destruct (process_line_frame _ _ _ _ _ Ha E1) as (L1 & _).
      rewrite IH by lia. now rewrite Nat.add_succ_r.
    + apply nth_error_None in Ha. lia.
Qed.

(** ** The accumulator before its first assignment *)

Ltac unbinds :=
  repeat match goal with
  | E : bind _ _ = Ok _ |- _ =>
      let x := fresh "x" in let Ex := fresh "Ex" in
      apply bind_ok in E as (x & Ex & E); simpl in *
  | E : Ok _ = Ok _ |- _ => inversion E; subst; clear E
  | E : Raise _ = Ok _ |- _ => discriminate E
  end.

Lemma scan_markers_new_Line (st st' : State) (line : string) :
  scan_markers st line = Ok st' -> new_Line st' = new_Line st.
Proof.
  unfold scan_markers. destruct st as [sec pos per text ext].
  destruct (is_begin_layer_line line), (is_begin_inner_wall_line line),
    (is_end_inner_wall_line line), (is_extrusion_line line), sec; simpl; intros E;
    unbinds; reflexivity.
Qed.

Lemma track_position_new_Line (st st' : State) (line : string) :
  track_position st line = Ok st' -> new_Line st' = new_Line st.
Proof.
  unfold track_position.
  destruct (contains " X" line && contains " Y" line
            && (contains "G1" line || contains "G0" line)); intros E.
  - apply bind_ok in E as (p & _ & E). inversion E; reflexivity.
  - inversion E; reflexivity.
Qed.

Lemma subdivide_unassigned (n : nat) (eps : F) (dir : Point2D)
    (per : option (list Segment)) (last last' : Point2D) (text : option string) :
  subdivide cfg n eps dir per last None = Ok (last', text) -> text = None.
Proof.
  revert last; induction n as [|n IH]; intros last E; simpl in E.
  - inversion E; reflexivity.
  - apply bind_ok in E as (segs & _ & E).
    apply bind_ok in E as (d & _ & E).
    apply bind_ok in E as (e & _ & E).
    simpl in E. discriminate.
Qed.

(** The branch of the sub-moves cannot complete while [new_Line] is unbound. *)
Lemma subdivided_move_unassigned (steps eps len extrusion : F) (dir p : Point2D)
    (per : option (list Segment)) (last : Point2D) :
  exists e, subdivided_move cfg steps eps len extrusion dir p per last None = Raise e.
Proof.
  destruct (subdivided_move cfg steps eps len extrusion dir p per last None)
    as [r|e] eqn:E; [|eauto].
  exfalso. unfold subdivided_move in E.
  apply bind_ok in E as (n & _ & E).
  apply bind_ok in E as ([last' text] & S & E).
  apply subdivide_unassigned in S; subst.
  apply bind_ok in E as (rest & _ & E).
  apply bind_ok in E as (ratio & _ & E).
  simpl in E. discriminate.
Qed.

Lemma linear_infill_unassigned (g : F) (st st' : State) (lines lines' : list string)
    (k : nat) (p : Point2D) (fields : list string) :
  new_Line st = None ->
  linear_infill cfg g st lines k p fields = Ok (st', lines') -> new_Line st' = None.
Proof.
  intros N E. unfold linear_infill in E.
  apply bind_ok in E as (e & _ & E).
  apply bind_ok in E as (extrusion & _ & E).
  apply bind_ok in E as (len & _ & E).
  apply bind_ok in E as (steps & _ & E).
  apply bind_ok in E as (eps & _ & E).
  apply bind_ok in E as (dx & _ & E).
  apply bind_ok in E as (dy & _ & E).
  destruct (fle (of_int 2) steps).
  - apply bind_ok in E as (r & S & _). simpl in S. rewrite N in S.
    destruct (subdivided_move_unassigned steps eps len extrusion
                {| Px := fmul dx g; Py := fmul dy g |} p (perimeterSegments st)
                (lastPosition st)) as (x & X).
    rewrite X in S. discriminate.
  - inversion E; subst. exact N.
Qed.

Lemma rewrite_move_unassigned (it : nat) (g : F) (st st' : State)
    (lines lines' : list string) (k : nat) (line : string) :
  new_Line st = None ->
  rewrite_move cfg it g st lines k line = Ok (st', lines') -> new_Line st' = None.
Proof.
  intros N E. unfold rewrite_move in E.
  destruct (contains "E" line && contains "G1" line && contains " X" line
            && contains "Y" line); [|inversion E; subst; exact N].
  apply bind_ok in E as (p & _ & E).
  apply bind_ok in E as ([st1 lines1] & E1 & E).
  assert (N1 : new_Line st1 = None).
  { destruct (Nat.eqb it 2).
    - eapply linear_infill_unassigned; eauto.
    - inversion E1; subst; exact N. }
  destruct (Nat.eqb it 1); unbinds; exact N1.
Qed.

Lemma keep_speed_idle (st : State (F := F)) (line : string) :
  carries_speed line = false -> keep_speed st line = st.
Proof.
  unfold carries_speed, keep_speed. now intros ->.
Qed.

(** A line without F and G1 leaves [new_Line] unbound. *)
Lemma process_line_unassigned (it : nat) (g : F) (st st' : State)
    (lines lines' : list string) (line : string) :
  new_Line st = None -> carries_speed line = false ->
  process_line cfg it g st lines line = Ok (st', lines') -> new_Line st' = None.
Proof.
  intros N C E. unfold process_line in E.
  apply bind_ok in E as (k & _ & E).
  apply bind_ok in E as (st1 & E1 & E).
  apply scan_markers_new_Line in E1. rewrite N in E1.
  destruct (is_begin_infill_segment_line line); [inversion E; subst; exact E1|].
  apply bind_ok in E as ([st2 lines2] & E2 & E).
  apply bind_ok in E as (st3 & E3 & E). inversion E; subst.
  apply track_position_new_Line in E3. rewrite E3.
  destruct (Section_eqb (currentSection st1) INFILL); [|inversion E2; subst; exact E1].
  unfold infill_line in E2. rewrite keep_speed_idle in E2 by exact C.
  apply bind_ok in E2 as ([st4 lines4] & E4 & E2).
  apply rewrite_move_unassigned in E4; [|exact E1].
  inversion E2; subst. destruct (contains ";" line); exact E4.
Qed.

Lemma scan_lines_unassigned (it : nat) (g : F) (n a : nat) (st st' : State)
    (lines lines' : list string) :
  new_Line st = None ->
  (forall j l, (a <= j < a + n)%nat -> nth_error lines j = Some l ->
               carries_speed l = false) ->
  scan_lines cfg it g (seq a n) st lines = Ok (st', lines') -> new_Line st' = None.
Proof.
  revert a st lines; induction n as [|n IH]; intros a st lines N Q E; simpl in E.
  - inversion E; subst; exact N.
  - destruct (nth_error lines a) as [line|] eqn:Ha; [|inversion E; subst; exact N].
    apply bind_ok in E as ([st1 lines1] & E1 & E).
    destruct (process_line_frame _ _ _ _ _ Ha E1) as (_ & K1).
    eapply IH; [| |exact E].
    + eapply process_line_unassigned; [exact N| |exact E1].
      apply (Q a); [lia|exact Ha].
    + intros j l Hj Hl. rewrite K1 in Hl by lia. apply (Q j); [lia|exact Hl].
Qed.

Lemma process_layer_unassigned (it : nat) (g : F) (st st' : State)
    (layer layer' : string) :
  new_Line st = None ->
  (forall l, In l (split "010" layer) -> carries_speed l = false) ->
  process_layer cfg it g st layer = Ok (st', layer') -> new_Line st' = None.
Proof.
  intros N Q E. unfold process_layer in E.
  apply bind_ok in E as ([st1 lines1] & E1 & E). inversion E; subst.
  eapply scan_lines_unassigned; [exact N| |exact E1].
  intros j l _ Hl. apply Q. eapply nth_error_In; exact Hl.
Qed.

(** ** Scanning the stream *)

Lemma scan_layers_step_frame (data : list string) (j k : nat) (layer v : string) :
  nth_error data j = Some layer -> index layer data = Ok k ->
  List.length (assign k v data) = List.length data /\
  forall i, (j < i)%nat -> nth_error (assign k v data) i = nth_error data i.
Proof.
  intros Hj Hk. destruct (index_found _ _ Hj) as (k' & Hk' & Le).
  rewrite Hk in Hk'. inversion Hk'; subst.
  split; [apply assign_length|]. intros i Lt. apply assign_other. lia.
Qed.

Lemma scan_layers_frame (it : nat) (g : F) (n a : nat) (st st' : State)
    (data data' : list string) :
  scan_layers cfg it g (seq a n) st data = Ok (st', data') ->
  List.length data' = List.length data /\
  forall j, (a + n <= j)%nat -> nth_error data' j = nth_error data j.
Proof.
  revert a st data; induction n as [|n IH]; intros a st data E; simpl in E.
  - inversion E; subst; auto.
  - destruct (nth_error data a) as [layer|] eqn:Ha; [|inversion E; subst; auto].
    apply bind_ok in E as (k & Ek & E).
    apply bind_ok in E as ([st1 final] & E1 & E).
    destruct (@scan_layers_step_frame data a k layer final Ha Ek) as (L1 & K1).
    destruct (IH _ _ _ E) as (L2 & K2). split; [congruence|].
    intros j Hj. rewrite K2, K1 by lia. reflexivity.
Qed.

Lemma scan_layers_split (it : nat) (g : F) (n m a : nat) (st : State)
    (data : list string) :
  (a + n <= List.length data)%nat ->
  scan_layers cfg it g (seq a (n + m)) st data =
  let* (st1, data1) := scan_layers cfg it g (seq a n) st data in
  scan_layers cfg it g (seq (a + n) m) st1 data1.
Proof.
  revert a st data; induction n as [|n IH]; intros a st data L; simpl.
  - now rewrite Nat.add_0_r.
  - destruct (nth_error data a) as [layer|] eqn:Ha.
    + destruct (index layer data) as [k|e] eqn:Ek; simpl; [|reflexivity].
      destruct (process_layer cfg it g st layer) as [[st1 final]|e] eqn:E1;
        simpl; [|reflexivity].
      destruct (@scan_layers_step_frame data a k layer final Ha Ek) as (L1 & _).
      rewrite IH by lia. now rewrite Nat.add_succ_r.
    + apply nth_error_None in Ha. lia.
Qed.

Lemma scan_layers_unassigned (it : nat) (g : F) (n a : nat) (st st' : State)
    (data data' : list string) :
  new_Line st = None ->
  (forall j layer l, (a <= j < a + n)%nat -> nth_error data j = Some layer ->
                     In l (split "010" layer) -> carries_speed l = false) ->
  scan_layers cfg it g (seq a n) st data = Ok (st', data') -> new_Line st' = None.
Proof.
  revert a st data; induction n as [|n IH]; intros a st data N Q E; simpl in E.
  - inversion E; subst; exact N.
  - destruct (nth_error data a) as [layer|] eqn:Ha; [|inversion E; subst; exact N].
    apply bind_ok in E as (k & Ek & E).
    apply bind_ok in E as ([st1 final] & E1 & E).
    destruct (@scan_layers_step_frame data a k layer final Ha Ek) as (_ & K1).
    eapply IH; [| |exact E].
    + eapply process_layer_unassigned; [exact N| |exact E1].
      intros l Hl. apply (Q a layer); [lia|exact Ha|exact Hl].
    + intros j layer' l Hj Hl. rewrite K1 in Hl by lia. apply (Q j); [lia|exact Hl].
Qed.

(** ** Reading the accumulator *)

Lemma rewrite_without_accumulator (it : nat) (g : F) (st : State)
    (lines : list string) (k : nat) (line : string) :
  new_Line st = None ->
  contains "E" line && contains "G1" line && contains " X" line && contains "Y" line = true ->
  it = 1%nat \/
  (it = 2%nat /\
   exists p len steps,
     getXY line = Ok p /\ get_points_distance (lastPosition st) p = Ok len /\
     fdiv len g = Ok steps /\ fle (of_int 2) steps = true) ->
  exists e, rewrite_move cfg it g st lines k line = Raise e.
Proof.
  intros N X C.
  destruct (rewrite_move cfg it g st lines k line) as [[st' lines']|e] eqn:E; [|eauto].
  exfalso. unfold rewrite_move in E. rewrite X in E.
  apply bind_ok in E as (p & Ep & E).
  apply bind_ok in E as ([st1 lines1] & E1 & E).
  destruct C as [->|(-> & q & len & steps & Eq & El & Es & Le)]; simpl in E1, E.
  - inversion E1; subst.
    apply bind_ok in E as (lines2 & E2 & _). unfold small_segments_infill in E2.
    apply bind_ok in E2 as (segs & _ & E2).
    apply bind_ok in E2 as (d & _ & E2).
    rewrite N in E2. discriminate.
  - rewrite Ep in Eq. inversion Eq; subst q.
    unfold linear_infill in E1.
    apply bind_ok in E1 as (e & _ & E1).
    apply bind_ok in E1 as (extrusion & _ & E1).
    apply bind_ok in E1 as (len' & El' & E1). simpl in El'.
    rewrite El in El'. inversion El'; subst len'.
    apply bind_ok in E1 as (steps' & Es' & E1).
    rewrite Es in Es'. inversion Es'; subst steps'.
    apply bind_ok in E1 as (eps & _ & E1).
    apply bind_ok in E1 as (dx & _ & E1).
    apply bind_ok in E1 as (dy & _ & E1).
    rewrite Le in E1.
    apply bind_ok in E1 as (r & S & _). simpl in S. rewrite N in S.
    destruct (subdivided_move_unassigned steps eps len extrusion
                {| Px := fmul dx g; Py := fmul dy g |} p (perimeterSegments st)
                (lastPosition st)) as (x & Hx).
    rewrite Hx in S. discriminate.
Qed.

Lemma process_line_without_accumulator (it : nat) (g : F) (st st1 : State)
    (lines : list string) (i : nat) (line : string) :
  nth_error lines i = Some line ->
  new_Line st = None -> carries_speed line = false ->
  scan_markers st line = Ok st1 ->
  is_begin_infill_segment_line line = false ->
  currentSection st1 = INFILL ->
  contains "E" line && contains "G1" line && contains " X" line && contains "Y" line = true ->
  it = 1%nat \/
  (it = 2%nat /\
   exists p len steps,
     getXY line = Ok p /\ get_points_distance (lastPosition st1) p = Ok len /\
     fdiv len g = Ok steps /\ fle (of_int 2) steps = true) ->
  exists e, process_line cfg it g st lines line = Raise e.
Proof.
  intros Hi N C M B S X Q.
  destruct (index_found _ _ Hi) as (k & Hk & _).
  assert (N1 : new_Line st1 = None)
    by (rewrite (scan_markers_new_Line _ _ M); exact N).
  destruct (@rewrite_without_accumulator it g st1 lines k line N1 X Q) as (e & E).
  exists e. unfold process_line. rewrite Hk. simpl. rewrite M. simpl.
  rewrite B, S. simpl. unfold infill_line.
  rewrite keep_speed_idle by exact C. rewrite E. reflexivity.
Qed.

Lemma scan_lines_raises (it : nat) (g : F) (st0 st : State)
    (lines0 lines : list string) (i : nat) (line : string) (e : exn) :
  scan_lines cfg it g (seq 0 i) st0 lines0 = Ok (st, lines) ->
  nth_error lines i = Some line ->
  process_line cfg it g st lines line = Raise e ->
  scan_lines cfg it g (seq 0 (List.length lines0)) st0 lines0 = Raise e.
Proof.
  intros E Hi R.
  destruct (scan_lines_frame _ _ _ _ _ _ E) as (L & _).
  assert (Lt : (i < List.length lines0)%nat)
    by (rewrite <- L; apply nth_error_Some; congruence).
  replace (List.length lines0) with (i + S (List.length lines0 - S i))%nat by lia.
  rewrite scan_lines_split by (simpl; lia). rewrite E. simpl.
  rewrite Hi, R. reflexivity.
Qed.

Lemma scan_layers_raises (it : nat) (g : F) (st0 st : State)
    (data0 data : list string) (j : nat) (layer : string) (e : exn) :
  scan_layers cfg it g (seq 0 j) st0 data0 = Ok (st, data) ->
  nth_error data j = Some layer ->
  process_layer cfg it g st layer = Raise e ->
  scan_layers cfg it g (seq 0 (List.length data0)) st0 data0 = Raise e.
Proof.
  intros E Hj R.
  destruct (scan_layers_frame _ _ _ _ _ _ E) as (L & _).
  assert (Lt : (j < List.length data0)%nat)
    by (rewrite <- L; apply nth_error_Some; congruence).
  destruct (index_found _ _ Hj) as (k & Hk & _).
  replace (List.length data0) with (j + S (List.length data0 - S j))%nat by lia.
  rewrite scan_layers_split by (simpl; lia). rewrite E. simpl.
  rewrite Hj, Hk. simpl. rewrite R. reflexivity.
Qed.

Lemma subdivide_prepends (n : nat) (eps : F) (dir : Point2D)
    (per : option (list Segment)) (last last' : Point2D) (acc : string)
    (text : option string) :
  subdivide cfg n eps dir per last (Some acc) = Ok (last', text) ->
  exists body, text = Some (acc ++ body).
Proof.
  revert last acc; induction n as [|n IH]; intros last acc E; simpl in E.
  - inversion E; subst. exists "". now rewrite string_app_empty.
  - apply bind_ok in E as (segs & _ & E).
    apply bind_ok in E as (d & _ & E).
    apply bind_ok in E as (e & _ & E).
    simpl in E. apply IH in E as (body & ->).
    eexists. rewrite !string_app_assoc. reflexivity.
Qed.

End Properties.

(** ** The script on concrete streams *)

(** C1. Two linear infill moves in a row, each of two gradient steps.  The
    line written for the second move is the whole accumulated text: the speed
    command and the four commands of the first move come again, the last of
    them glued to the first sub-move of the second, before the two sub-moves
    and the tail of the second move itself. *)
Theorem second_move_replays_the_first :
  execute (default_settings "lines") [layer_of two_moves] =
  Ok [layer_of
        [";LAYER:0"; "G0 X0 Y0"; ";TYPE:WALL-INNER"; "G1 X0 Y10 E1"; ";TYPE:WALL-OUTER";
         "G0 X0 Y0"; ";TYPE:FILL";
         "G1 F1200"; "G1 X1.5 Y0.0 E1.5625"; "G1 X3.0 Y0.0 E1.1875"; "G1 X3.0 Y0.0 E0.0";
         "G1 F1200"; "G1 X1.5 Y0.0 E1.5625"; "G1 X3.0 Y0.0 E1.1875";
         "G1 X3.0 Y0.0 E0.0G1 X4.5 Y0.0 E0.8125"; "G1 X6.0 Y0.0 E0.4375";
         "G1 X6.0 Y0.0 E0.0"]].
Proof. vm_compute. reflexivity. Qed.

(** C3. A linear infill move of no length has zero steps, fewer than two, and
    the division of its extrusion by the steps, made before the branch on the
    steps, stops the whole call. *)
Theorem zero_length_move_raises :
  execute (default_settings "lines") [layer_of zero_length_move] = Raise ZeroDivisionError.
Proof. vm_compute. reflexivity. Qed.

(** C4. The infill move at position 6 has the text of the wall move at
    position 2: its rewriting is written over the wall move, and the infill
    move itself stays as it was. *)
Theorem rewrite_lands_on_first_equal_line :
  execute (default_settings "lines") [layer_of twin_of_wall_move] =
  Ok [layer_of
        [";LAYER:0"; ";TYPE:WALL-INNER"; "G1 X5 Y5 E3.5"; ";TYPE:WALL-OUTER"; ";TYPE:FILL";
         "G1 X6 Y5 E3.5"; "G1 X5 Y5 E1"]].
Proof. vm_compute. reflexivity. Qed.

(** C5, as stated, fails: the speed line inside the infill comes out as it went
    in, with its X and Y fields, and not as the bare speed command. *)
Lemma speed_line_is_not_replaced :
  execute (default_settings "lines") [layer_of speed_change] = Ok [layer_of speed_change] /\
  execute (default_settings "lines") [layer_of speed_change]
    <> Ok [layer_of [";LAYER:0"; ";TYPE:FILL"; "G1 F1200"]].
Proof. split; vm_compute; [reflexivity | discriminate]. Qed.

(** C6. A wall segment whose ends coincide has a squared length of zero, and
    the distance to it is a division by that zero: it raises, and the call on a
    layer with such a wall stops at the first infill move. *)
Theorem degenerate_segment_raises :
  dist (mkSegment (mkPoint (of_int 1) (of_int 1)) (mkPoint (of_int 1) (of_int 1)))
       (mkPoint (F := PrimFloat.float) (of_int 3) (of_int 3)) = Raise ZeroDivisionError /\
  execute (default_settings "gyroid") [layer_of wall_of_no_length] = Raise ZeroDivisionError.
Proof. split; vm_compute; reflexivity. Qed.

(** C8. The minimum over no perimeter segment raises, for every move, and the
    call on a layer whose infill comes with no wall before it stops there, for
    small segments and for a linear pattern alike. *)
Theorem empty_perimeter_raises :
  (forall segment : Segment (F := PrimFloat.float),
     min_distance_from_segment segment [] = Raise ValueError) /\
  execute (default_settings "gyroid") [layer_of infill_without_wall] = Raise ValueError /\
  execute (default_settings "lines") [layer_of infill_without_wall] = Raise ValueError.
Proof. repeat split; vm_compute; reflexivity. Qed.

(** C9. The move at position 1 lies before any section; the infill move at
    position 4 has the same text, and its rewriting is written over the move
    at position 1, which does not come out as it went in. *)
Theorem line_outside_sections_is_overwritten :
  execute (default_settings "lines") [layer_of twin_of_outside_move] =
  Ok [layer_of [";LAYER:0"; "G1 X5 Y5 E3.5"; ";TYPE:FILL"; "G1 X6 Y5 E3.5"; "G1 X5 Y5 E1"]].
Proof. vm_compute. reflexivity. Qed.

(** ** The general statements at concrete inputs *)

Lemma layer_isolation_witness :
  process_layer (default_settings "lines") 2 default_step
                (set_perimeter inside_infill (Some far_wall)) (layer_of second_layer)
  = process_layer (default_settings "lines") 2 default_step inside_infill
                  (layer_of second_layer).
Proof.
  assert (H1 : nth_error second_layer 0 = Some ";LAYER:1") by reflexivity.
  assert (H2 : is_begin_layer_line ";LAYER:1" = true) by (vm_compute; reflexivity).
  assert (H3 : split "010" (layer_of second_layer) = second_layer)
    by (vm_compute; reflexivity).
  exact (proj2 (proj2 (@layer_isolation _ _ (default_settings "lines") 2%nat default_step
                         inside_infill (Some far_wall) second_layer 0%nat ";LAYER:1" []
                         H1 H2)) (layer_of second_layer) H3 eq_refl).
Defined.

(** * More of the script *)

(** ** Splitting and joining *)

Lemma split_not_empty (c : ascii) (s : string) : split c s <> [].
Proof.
  destruct s as [|a rest]; simpl; [discriminate|].
  destruct (Ascii.eqb a c); [discriminate|].
  destruct (split c rest); discriminate.
Qed.

Lemma join_cons (sep w : string) (ws : list string) :
  ws <> [] -> join sep (w :: ws) = w ++ sep ++ join sep ws.
Proof. destruct ws; [contradiction | reflexivity]. Qed.

(** Splitting a text at a character and joining the parts with that character
    gives the text back: a layer none of whose lines is written comes out of
    [execute] byte for byte. *)
Lemma join_split (c : ascii) (s : string) :
  join (String c EmptyString) (split c s) = s.
Proof.
  induction s as [|a rest IH]; [reflexivity|]. simpl.
  destruct (Ascii.eqb a c) eqn:E.
  - apply Ascii.eqb_eq in E; subst a.
    rewrite join_cons by apply split_not_empty. simpl. now rewrite IH.
  - pose proof (split_not_empty c rest) as N.
    destruct (split c rest) as [|w ws]; [contradiction|].
    destruct ws as [|w' ws'].
    + simpl in *. now rewrite IH.
    + change (join (String c "") (String a w :: w' :: ws'))
        with (String a (join (String c "") (w :: w' :: ws'))).
      now rewrite IH.
Qed.

Lemma assign_self {A : Type} (k : nat) (v : A) (l : list A) :
  nth_error l k = Some v -> assign k v l = l.
Proof.
  revert k; induction l as [|w ws IH]; intros [|k] E; simpl in *; try discriminate.
  - now inversion E.
  - now rewrite IH.
Qed.

Section More.

Context {F : Type} `{PyFloat F}.
Variable cfg : Settings (F := F).

(** ** Lines that are not rewritten *)

Lemma reads_position_extrusion (line : string) :
  is_extrusion_line line = true -> reads_position line = true.
Proof.
  unfold is_extrusion_line, reads_position. now intros ->.
Qed.

Lemma reads_position_rewrite (line : string) :
  contains "E" line && contains "G1" line && contains " X" line && contains "Y" line = true ->
  reads_position line = true.
Proof.
  unfold reads_position.
  destruct (contains "E" line), (contains "G1" line), (contains " X" line),
    (contains "Y" line); simpl; intros E; trivial; discriminate.
Qed.

Lemma reads_position_track (line : string) :
  contains " X" line && contains " Y" line
    && (contains "G1" line || contains "G0" line) = true ->
  reads_position line = true.
Proof.
  unfold reads_position. intros ->. apply orb_true_r.
Qed.

Lemma scan_markers_quiet (st : State) (line : string) :
  perimeterSegments st <> None \/ is_begin_layer_line line = true ->
  (reads_position line = true -> exists p, getXY line = Ok p) ->
  exists st', scan_markers st line = Ok st' /\
              perimeterSegments st' <> None /\
              (currentSection st <> INFILL -> currentSection st' <> INFILL).
Proof.
  intros B R. unfold scan_markers.
  set (st1 := if is_begin_layer_line line then set_perimeter st (Some []) else st).
  assert (B1 : perimeterSegments st1 <> None).
  { unfold st1. destruct (is_begin_layer_line line); simpl; [discriminate|].
    destruct B as [B|B]; [exact B | discriminate]. }
  assert (S1 : currentSection st1 = currentSection st)
    by (unfold st1; destruct (is_begin_layer_line line); reflexivity).
  set (st2 := if is_begin_inner_wall_line line then set_section st1 INNER_WALL else st1).
  assert (B2 : perimeterSegments st2 <> None)
    by (unfold st2; destruct (is_begin_inner_wall_line line); exact B1).
  assert (S2 : currentSection st <> INFILL -> currentSection st2 <> INFILL).
  { unfold st2. destruct (is_begin_inner_wall_line line); simpl;
      [discriminate | now rewrite S1]. }
  clearbody st2. clear st1 B1 S1.
  destruct (Section_eqb (currentSection st2) INNER_WALL && is_extrusion_line line) eqn:W.
  - apply andb_prop in W as (_ & X).
    destruct (R (reads_position_extrusion line X)) as (p & ->).
    destruct (perimeterSegments st2) as [segs|] eqn:G; [|contradiction].
    simpl. eexists; split; [reflexivity|].
    destruct (is_end_inner_wall_line line); simpl; split; try discriminate; exact S2.
  - simpl. eexists; split; [reflexivity|].
    destruct (is_end_inner_wall_line line); simpl; split;
      try exact B2; try discriminate; exact S2.
Qed.

Lemma track_position_quiet (st : State) (line : string) :
  (reads_position line = true -> exists p, getXY line = Ok p) ->
  exists st', track_position st line = Ok st' /\
              perimeterSegments st' = perimeterSegments st /\
              currentSection st' = currentSection st.
Proof.
  intros R. unfold track_position.
  destruct (contains " X" line && contains " Y" line
            && (contains "G1" line || contains "G0" line)) eqn:T.
  - destruct (R (reads_position_track line T)) as (p & ->). simpl. eauto.
  - eauto.
Qed.

Lemma rewrite_move_unsupported (it : nat) (g : F) (st : State) (lines : list string)
    (k : nat) (line : string) :
  it <> 1%nat -> it <> 2%nat ->
  (reads_position line = true -> exists p, getXY line = Ok p) ->
  rewrite_move cfg it g st lines k line = Ok (st, lines).
Proof.
  intros N1 N2 R. unfold rewrite_move.
  destruct (contains "E" line && contains "G1" line && contains " X" line
            && contains "Y" line) eqn:X; [|reflexivity].
  destruct (R (reads_position_rewrite line X)) as (p & ->). simpl.
  apply Nat.eqb_neq in N1, N2. now rewrite N1, N2.
Qed.

(** A line of a pattern without gradient, or a line outside the infill that
    does not open it, is read without a write. *)
Lemma process_line_quiet (it : nat) (g : F) (st : State) (lines : list string)
    (i : nat) (line : string) :
  nth_error lines i = Some line ->
  perimeterSegments st <> None \/ is_begin_layer_line line = true ->
  (reads_position line = true -> exists p, getXY line = Ok p) ->
  (it <> 1%nat /\ it <> 2%nat) \/
  (currentSection st <> INFILL /\ is_begin_infill_segment_line line = false) ->
  exists st', process_line cfg it g st lines line = Ok (st', lines) /\
              perimeterSegments st' <> None /\
              (currentSection st <> INFILL ->
               is_begin_infill_segment_line line = false ->
               currentSection st' <> INFILL).
Proof.
  intros Hi B R Q.
  destruct (index_found _ _ Hi) as (k & Hk & _).
  destruct (@scan_markers_quiet st line B R) as (st1 & E1 & B1 & S1).
  unfold process_line. rewrite Hk. simpl. rewrite E1. simpl.
  destruct (is_begin_infill_segment_line line) eqn:M.
  - eexists; split; [reflexivity|]. split; [exact B1|]. discriminate.
  - destruct (Section_eqb (currentSection st1) INFILL) eqn:S.
    + destruct Q as [(N1 & N2)|(Q & _)].
      * unfold infill_line.
        rewrite (@rewrite_move_unsupported it g (keep_speed st1 line) lines k line N1 N2 R).
        simpl.
        destruct (keep_speed_frame st1 line) as (KS & _ & KG & _).
        set (st2 := if contains ";" line then set_section (keep_speed st1 line) NOTHING
                    else keep_speed st1 line).
        destruct (@track_position_quiet st2 line R) as (st3 & -> & G3 & S3). simpl.
        eexists; split; [reflexivity|]. split.
        -- rewrite G3. unfold st2. destruct (contains ";" line); simpl; now rewrite KG.
        -- intros A _. apply S1 in A. destruct (currentSection st1); simpl in S;
             try discriminate. contradiction.
      * apply S1 in Q. destruct (currentSection st1); simpl in S; try discriminate.
        contradiction.
    + simpl. destruct (@track_position_quiet st1 line R) as (st3 & -> & G3 & S3). simpl.
      eexists; split; [reflexivity|]. split; [now rewrite G3|].
      intros A _. rewrite S3. now apply S1.
Qed.

Lemma scan_lines_quiet (it : nat) (g : F) (lines : list string) (n a : nat)
    (st : State) :
  perimeterSegments st <> None ->
  (forall l, In l lines -> reads_position l = true -> exists p, getXY l = Ok p) ->
  (it <> 1%nat /\ it <> 2%nat) \/
  (currentSection st <> INFILL /\
   forall l, In l lines -> is_begin_infill_segment_line l = false) ->
  exists st', scan_lines cfg it g (seq a n) st lines = Ok (st', lines) /\
              perimeterSegments st' <> None /\
              (currentSection st <> INFILL ->
               (forall l, In l lines -> is_begin_infill_segment_line l = false) ->
               currentSection st' <> INFILL).
Proof.
  revert a st; induction n as [|n IH]; intros a st B R Q; simpl.
  - eexists; split; [reflexivity|]. auto.
  - destruct (nth_error lines a) as [line|] eqn:Ha.
    + assert (I : In line lines) by (eapply nth_error_In; exact Ha).
      destruct (@process_line_quiet it g st lines a line Ha (or_introl B) (R line I))
        as (st1 & -> & B1 & S1).
      { destruct Q as [Q|(Q & M)]; [left; exact Q | right; auto]. }
      simpl.
      destruct (IH (S a) st1 B1 R) as (st2 & E2 & B2 & S2).
      { destruct Q as [Q|(Q & M)]; [left; exact Q | right; auto]. }
      rewrite E2. eexists; split; [reflexivity|]. split; [exact B2|].
      intros A M. apply S2; auto.
    + eexists; split; [reflexivity|]. auto.
Qed.

(** X1. A layer with no infill marker, scanned from outside the infill with
    the perimeter set bound, comes out byte for byte, whatever the pattern,
    provided that each of its moves has coordinates [getXY] can read; the scan
    ends outside the infill. *)
Theorem layer_without_infill_unchanged (it : nat) (g : F) (st : State) (layer : string) :
  currentSection st <> INFILL ->
  perimeterSegments st <> None ->
  (forall l, In l (split "010" layer) -> is_begin_infill_segment_line l = false) ->
  (forall l, In l (split "010" layer) -> reads_position l = true ->
             exists p, getXY l = Ok p) ->
  exists st', process_layer cfg it g st layer = Ok (st', layer) /\
              currentSection st' <> INFILL /\ perimeterSegments st' <> None.
Proof.
  intros S B M R. unfold process_layer.
  destruct (@scan_lines_quiet it g (split "010" layer)
              (List.length (split "010" layer)) 0 st B R (or_intror (conj S M)))
    as (st' & -> & B' & S').
  simpl. exists st'. split; [|auto].
  change nl with (String "010"%char EmptyString). now rewrite join_split.
Qed.

(** ** Patterns without gradient *)

Lemma process_layer_unsupported (it : nat) (g : F) (st : State) (layer : string) :
  it <> 1%nat -> it <> 2%nat ->
  perimeterSegments st <> None \/
    is_begin_layer_line (hd "" (split "010" layer)) = true ->
  (forall l, In l (split "010" layer) -> reads_position l = true ->
             exists p, getXY l = Ok p) ->
  exists st', process_layer cfg it g st layer = Ok (st', layer) /\
              perimeterSegments st' <> None.
Proof.
  intros N1 N2 B R. unfold process_layer.
  pose proof (join_split "010" layer) as J.
  destruct (split "010" layer) as [|first rest] eqn:S;
    [exfalso; eapply split_not_empty; exact S|].
  simpl in B. simpl List.length. simpl seq.
  change (scan_lines cfg it g (0%nat :: seq 1 (List.length rest)) st (first :: rest))
    with (let* (st1, lines1) := process_line cfg it g st (first :: rest) first in
          scan_lines cfg it g (seq 1 (List.length rest)) st1 lines1).
  destruct (@process_line_quiet it g st (first :: rest) 0 first eq_refl B
              (R first (or_introl eq_refl)) (or_introl (conj N1 N2)))
    as (st1 & -> & B1 & _).
  simpl.
  destruct (@scan_lines_quiet it g (first :: rest) (List.length rest) 1 st1 B1 R
              (or_introl (conj N1 N2))) as (st2 & -> & B2 & _).
  cbv beta iota delta [bind]. exists st2. split; [|exact B2].
  change nl with (String "010"%char EmptyString). now rewrite J.
Qed.

Lemma scan_layers_unsupported (it : nat) (g : F) (data : list string) (n a : nat)
    (st : State) :
  it <> 1%nat -> it <> 2%nat ->
  perimeterSegments st <> None ->
  (forall layer l, In layer data -> In l (split "010" layer) ->
                   reads_position l = true -> exists p, getXY l = Ok p) ->
  exists st', scan_layers cfg it g (seq a n) st data = Ok (st', data) /\
              perimeterSegments st' <> None.
Proof.
  intros N1 N2. revert a st; induction n as [|n IH]; intros a st B R; simpl.
  - eauto.
  - destruct (nth_error data a) as [layer|] eqn:Ha; [|eauto].
    destruct (index_found _ _ Ha) as (k & Hk & _). rewrite Hk. simpl.
    destruct (@process_layer_unsupported it g st layer N1 N2 (or_introl B))
      as (st1 & -> & B1).
    { intros l. apply R. eapply nth_error_In; exact Ha. }
    simpl. rewrite assign_self by (apply index_lt; exact Hk).
    apply IH; assumption.
Qed.

Lemma execute_unsupported (data : list string) :
  mfill_mode (infillpattern cfg) <> 1%nat ->
  mfill_mode (infillpattern cfg) <> 2%nat ->
  fzero (gradient_discretization cfg) = false ->
  (forall layer, nth_error data 0 = Some layer ->
                 is_begin_layer_line (hd "" (split "010" layer)) = true) ->
  (forall layer l, In layer data -> In l (split "010" layer) ->
                   reads_position l = true -> exists p, getXY l = Ok p) ->
  execute cfg data = Ok data.
Proof.
  intros N1 N2 Z M R. unfold execute, run, fdiv. rewrite Z. simpl.
  destruct data as [|layer0 rest]; [reflexivity|].
  simpl List.length. simpl seq.
  set (it := mfill_mode (infillpattern cfg)) in *.
  set (g := fquot (gradient_thickness cfg) (gradient_discretization cfg)).
  change (scan_layers cfg it g (0%nat :: seq 1 (List.length rest)) initial_state
            (layer0 :: rest))
    with (let* layer_index := index layer0 (layer0 :: rest) in
          let* (st, final_lines) := process_layer cfg it g initial_state layer0 in
          scan_layers cfg it g (seq 1 (List.length rest)) st
            (assign layer_index final_lines (layer0 :: rest))).
  simpl index. rewrite String.eqb_refl. simpl.
  destruct (@process_layer_unsupported it g initial_state layer0 N1 N2
              (or_intror (M layer0 eq_refl))) as (st1 & -> & B1).
  { intros l. apply R. left; reflexivity. }
  simpl.
  destruct (@scan_layers_unsupported it g (layer0 :: rest) (List.length rest) 1 st1
              N1 N2 B1 R) as (st2 & -> & _).
  reflexivity.
Qed.

(** ** Linear infill, the move cut in steps *)

Lemma subdivide_step (n : nat) (eps : F) (dir : Point2D) (per : option (list Segment))
    (last : Point2D) (acc : string) :
  subdivide cfg (S n) eps dir per last (Some acc) =
  let* e := sub_move_extrusion cfg eps per last (moved last dir) in
  subdivide cfg n eps dir per (moved last dir)
    (Some (acc ++ get_extrusion_command (Px (moved last dir)) (Py (moved last dir)) e
               ++ nl)).
Proof.
  unfold sub_move_extrusion, moved.
  cbn [subdivide Px Py].
  destruct (load "perimeterSegments" per) as [segs|x]; [|reflexivity].
  cbn [bind].
  match goal with
  | |- context [min_distance_from_segment ?s ?l] =>
      destruct (min_distance_from_segment s l) as [d|x]
  end; [|reflexivity].
  cbn [bind].
  destruct (flt d (gradient_thickness cfg)); [|reflexivity].
  destruct (band_flow cfg d); reflexivity.
Qed.

Lemma subdivide_commands (extrusions : list F) (eps : F) (dir : Point2D)
    (per : option (list Segment)) (last : Point2D) (acc : string) :
  sub_moves_of cfg eps per dir last extrusions ->
  subdivide cfg (List.length extrusions) eps dir per last (Some acc) =
  Ok (advance (List.length extrusions) last dir,
      Some (acc ++ sub_move_commands dir last extrusions)).
Proof.
  revert last acc; induction extrusions as [|e rest IH]; intros last acc M.
  - simpl. now rewrite string_app_empty.
  - destruct M as (E & M). change (List.length (e :: rest)) with (S (List.length rest)).
    rewrite subdivide_step, E. cbn [bind]. rewrite (IH _ _ M).
    cbn [advance sub_move_commands]. now rewrite !string_app_assoc.
Qed.

Lemma subdivide_extrusions (n : nat) (eps : F) (dir : Point2D)
    (per : option (list Segment)) (last last' : Point2D) (acc : string)
    (text : option string) :
  subdivide cfg n eps dir per last (Some acc) = Ok (last', text) ->
  exists extrusions,
    List.length extrusions = n /\ sub_moves_of cfg eps per dir last extrusions.
Proof.
  revert last acc; induction n as [|n IH]; intros last acc E.
  - exists []. split; [reflexivity | exact I].
  - rewrite subdivide_step in E. apply bind_ok in E as (e & Ee & E).
    apply IH in E as (rest & L & M).
    exists (e :: rest). split; [simpl; now rewrite L | split; assumption].
Qed.

(** X3. The branch of two steps and more.  It returns exactly when [int]
    reads the steps, each sub-move gets its extrusion, and the rest of the way
    can be measured; it then adds to the accumulated text one command for
    each of the [int(segmentSteps)] sub-moves, every one a [segmentDirection]
    further than the one before, and one last command to the target of the
    move with the extrusion [ratio * extrusionLength * max_flow / 100], where
    [ratio] is the rest of the way over the length of the move; the position
    is left at the end of the last sub-move. *)
Theorem subdivided_move_commands (segmentSteps eps len extrusion : F)
    (dir target last last' : Point2D) (per : option (list Segment))
    (acc text : string) :
  subdivided_move cfg segmentSteps eps len extrusion dir target per last (Some acc)
    = Ok (last', text) <->
  exists steps extrusions rest ratio,
    trunc segmentSteps = Ok steps /\
    List.length extrusions = Z.to_nat steps /\
    sub_moves_of cfg eps per dir last extrusions /\
    last' = advance (Z.to_nat steps) last dir /\
    get_points_distance last' target = Ok rest /\
    fdiv rest len = Ok ratio /\
    text = acc ++ sub_move_commands dir last extrusions
               ++ get_extrusion_command (Px target) (Py target)
                    (fquot (fmul (fmul ratio extrusion) (max_flow cfg)) (of_int 100)).
Proof.
  unfold subdivided_move. split.
  - intros E.
    apply bind_ok in E as (steps & Es & E).
    apply bind_ok in E as ([p t] & Ed & E).
    destruct (@subdivide_extrusions (Z.to_nat steps) eps dir per last p acc t Ed)
      as (extrusions & L & M).
    rewrite <- L in Ed. rewrite (@subdivide_commands extrusions eps dir per last acc M) in Ed.
    rewrite L in Ed. inversion Ed; subst p t.
    apply bind_ok in E as (rest & Er & E).
    apply bind_ok in E as (ratio & Eq & E).
    simpl in E. inversion E; subst.
    exists steps, extrusions, rest, ratio.
    repeat split; try assumption. now rewrite string_app_assoc.
  - intros (steps & extrusions & rest & ratio & Es & L & M & -> & Er & Eq & ->).
    rewrite Es. simpl. rewrite <- L.
    rewrite (@subdivide_commands extrusions eps dir per last acc M). simpl.
    rewrite L, Er. simpl.
    rewrite Eq. simpl. now rewrite string_app_assoc.
Qed.

(** ** Linear infill, the short move *)

Lemma concat_cons (x : string) (xs : list string) :
  String.concat "" (x :: xs) = x ++ String.concat "" xs.
Proof.
  destruct xs; simpl; [now rewrite string_app_empty | reflexivity].
Qed.

Lemma scale_fields_map (fields : list string) (value out : string) :
  scale_fields fields value out
  = out ++ String.concat "" (map (short_move_field value) fields).
Proof.
  revert out; induction fields as [|f fs IH]; intros out.
  - simpl. now rewrite string_app_empty.
  - cbn [scale_fields map]. rewrite concat_cons. unfold short_move_field at 1.
    destruct (contains "E" f); rewrite IH; now rewrite !string_app_assoc.
Qed.

(** X4. The short linear move.  A linear infill move of more than no length
    and of fewer than two steps is rewritten with no look at the perimeter set
    or at the accumulated speed command: every field with an E becomes E and
    [extrusionLength * max_flow / 100] rounded to five places, every other
    field is copied with a space after it, and neither the position nor the
    section nor the accumulator changes. *)
Theorem short_linear_move (g : F) (st : State) (lines : list string) (k : nat)
    (target : Point2D) (fields : list string) (extrusion len segmentSteps : F) :
  find_extrusion fields (extrusionLength st) = Ok (Some extrusion) ->
  get_points_distance (lastPosition st) target = Ok len ->
  fdiv len g = Ok segmentSteps ->
  fzero segmentSteps = false -> fzero len = false ->
  fle (of_int 2) segmentSteps = false ->
  linear_infill cfg g st lines k target fields =
  Ok (set_extrusion st (Some extrusion),
      assign k (String.concat ""
                  (map (short_move_field
                          (repr (round_to 5 (fquot (fmul extrusion (max_flow cfg))
                                                   (of_int 100)))))
                       fields))
             lines).
Proof.
  intros E L S Z1 Z2 B. unfold linear_infill.
  rewrite E. simpl. rewrite L. simpl. rewrite S. simpl.
  unfold fdiv. rewrite Z1, Z2. simpl. rewrite B.
  now rewrite scale_fields_map.
Qed.

Lemma mfill_mode_other (Mode : string) :
  ~ In Mode gradient_patterns -> mfill_mode Mode = 0%nat.
Proof.
  intros N. unfold mfill_mode.
  repeat match goal with
  | |- context [String.eqb Mode ?s] =>
      let E := fresh "E" in
      destruct (String.eqb_spec Mode s) as [E|E];
      [ first [ exfalso; apply N; rewrite E; simpl; tauto
              | subst Mode; reflexivity ]
      | ]
  end.
  reflexivity.
Qed.

(** X2. Patterns without gradient.  For every infill pattern other than
    grid, lines, triangles, trihexagon, cubic, cubicsubdiv, tetrahedral,
    quarter_cubic, zigzag and gyroid, a stream that starts with a layer marker
    and whose moves have coordinates [getXY] can read comes back from
    [execute] as it went in, layer for layer and byte for byte. *)
Theorem pattern_without_gradient_passthrough (data : list string) :
  ~ In (infillpattern cfg) gradient_patterns ->
  fzero (gradient_discretization cfg) = false ->
  (forall layer, nth_error data 0 = Some layer ->
                 is_begin_layer_line (hd "" (split "010" layer)) = true) ->
  (forall layer l, In layer data -> In l (split "010" layer) ->
                   reads_position l = true -> exists p, getXY l = Ok p) ->
  execute cfg data = Ok data.
Proof.
  intros N. apply mfill_mode_other in N.
  apply execute_unsupported; rewrite N; discriminate.
Qed.

(** ** The end of the infill *)

Lemma track_position_section (st st' : State) (line : string) :
  track_position st line = Ok st' ->
  currentSection st' = currentSection st /\
  perimeterSegments st' = perimeterSegments st.
Proof.
  unfold track_position.
  destruct (contains " X" line && contains " Y" line
            && (contains "G1" line || contains "G0" line)); intros E.
  - apply bind_ok in E as (p & _ & E). inversion E; subst. auto.
  - inversion E; subst. auto.
Qed.

(** X5. A comment ends the infill.  Whatever line holds a semicolon and is
    not the infill marker, the scan is outside the infill once the line is
    processed: the rewriting stops at the first comment after [;TYPE:FILL],
    whatever that comment says. *)
Theorem comment_ends_infill (it : nat) (g : F) (st st' : State)
    (lines lines' : list string) (line : string) :
  contains ";" line = true ->
  is_begin_infill_segment_line line = false ->
  process_line cfg it g st lines line = Ok (st', lines') ->
  currentSection st' <> INFILL.
Proof.
  intros C M E. unfold process_line in E.
  apply bind_ok in E as (k & _ & E).
  apply bind_ok in E as (st1 & _ & E).
  rewrite M in E.
  apply bind_ok in E as ([st2 lines2] & E2 & E).
  apply bind_ok in E as (st3 & E3 & E). inversion E; subst.
  apply track_position_section in E3 as (-> & _).
  destruct (Section_eqb (currentSection st1) INFILL) eqn:S.
  - unfold infill_line in E2.
    apply bind_ok in E2 as ([st4 lines4] & _ & E2).
    rewrite C in E2. inversion E2; subst. discriminate.
  - inversion E2; subst. intros A. rewrite A in S. discriminate.
Qed.

(** ** Where a line is written *)

Lemma index_first (v : string) (l : list string) (i : nat) :
  nth_error l i = Some v ->
  (forall j, (j < i)%nat -> nth_error l j <> Some v) ->
  index v l = Ok i.
Proof.
  revert i; induction l as [|w ws IH]; intros [|i] E N; simpl in *; try discriminate.
  - inversion E; subst. now rewrite String.eqb_refl.
  - destruct (String.eqb_spec w v) as [->|D].
    + exfalso. apply (N 0%nat); [lia | reflexivity].
    + rewrite (IH i E); [reflexivity|].
      intros j Lt. apply (N (S j)). lia.
Qed.

(** X6. Written in place.  When the text of a line stands at no earlier
    position of the layer, processing the line changes no other position: the
    layer keeps its length, and every other line is as it was. *)
Theorem line_written_in_place (it : nat) (g : F) (st st' : State)
    (lines lines' : list string) (i : nat) (line : string) :
  nth_error lines i = Some line ->
  (forall j, (j < i)%nat -> nth_error lines j <> Some line) ->
  process_line cfg it g st lines line = Ok (st', lines') ->
  List.length lines' = List.length lines /\
  forall j, j <> i -> nth_error lines' j = nth_error lines j.
Proof.
  intros Hi N E.
  destruct (process_line_writes _ _ _ _ _ _ E) as (k & Hk & W).
  rewrite (index_first _ Hi N) in Hk. inversion Hk; subst k.
  destruct W as [->|(v & ->)]; [auto|].
  split; [apply assign_length|].
  intros j D. apply assign_other. congruence.
Qed.

(** ** How the accumulator grows *)

Lemma subdivided_move_prepends (steps eps len extrusion : F) (dir p last last' : Point2D)
    (per : option (list Segment)) (acc text : string) :
  subdivided_move cfg steps eps len extrusion dir p per last (Some acc)
    = Ok (last', text) ->
  exists body, text = acc ++ body.
Proof.
  intros E. unfold subdivided_move in E.
  apply bind_ok in E as (n & _ & E).
  apply bind_ok in E as ([last1 text1] & E1 & E).
  apply subdivide_prepends in E1 as (body & ->).
  apply bind_ok in E as (rest & _ & E).
  apply bind_ok in E as (ratio & _ & E).
  simpl in E. inversion E; subst.
  eexists. rewrite string_app_assoc. reflexivity.
Qed.

Lemma linear_infill_grows (g : F) (st st' : State) (lines lines' : list string)
    (k : nat) (p : Point2D) (fields : list string) (acc : string) :
  new_Line st = Some acc ->
  linear_infill cfg g st lines k p fields = Ok (st', lines') ->
  exists body, new_Line st' = Some (acc ++ body).
Proof.
  intros N E. unfold linear_infill in E.
  apply bind_ok in E as (e & _ & E).
  apply bind_ok in E as (extrusion & _ & E).
  apply bind_ok in E as (len & _ & E).
  apply bind_ok in E as (steps & _ & E).
  apply bind_ok in E as (eps & _ & E).
  apply bind_ok in E as (dx & _ & E).
  apply bind_ok in E as (dy & _ & E).
  destruct (fle (of_int 2) steps).
  - apply bind_ok in E as ([position text] & S & E). simpl in S. rewrite N in S.
    apply subdivided_move_prepends in S as (body & ->).
    inversion E; subst. exists body. reflexivity.
  - inversion E; subst. exists "". simpl. now rewrite N, string_app_empty.
Qed.

(** X7. The accumulator only grows.  A line that holds no F with a G1 never
    shortens or resets the text accumulated in [new_Line]: what it held
    before the line is the beginning of what it holds after it.  Only a speed
    line starts it afresh, so each rewritten linear move carries the text of
    all the moves rewritten since that line. *)
Theorem accumulator_only_grows (it : nat) (g : F) (st st' : State)
    (lines lines' : list string) (line acc : string) :
  carries_speed line = false ->
  new_Line st = Some acc ->
  process_line cfg it g st lines line = Ok (st', lines') ->
  exists body, new_Line st' = Some (acc ++ body).
Proof.
  intros C N E. unfold process_line in E.
  apply bind_ok in E as (k & _ & E).
  apply bind_ok in E as (st1 & E1 & E).
  apply scan_markers_new_Line in E1. rewrite N in E1.
  assert (Z : forall s : State (F := F), new_Line s = Some acc ->
              exists body, new_Line s = Some (acc ++ body))
    by (intros s ->; exists ""; now rewrite string_app_empty).
  destruct (is_begin_infill_segment_line line); [inversion E; subst; auto|].
  apply bind_ok in E as ([st2 lines2] & E2 & E).
  apply bind_ok in E as (st3 & E3 & E). inversion E; subst.
  apply track_position_new_Line in E3. rewrite E3.
  destruct (Section_eqb (currentSection st1) INFILL); [|inversion E2; subst; auto].
  unfold infill_line in E2. rewrite keep_speed_idle in E2 by exact C.
  apply bind_ok in E2 as ([st4 lines4] & E4 & E2).
  assert (G : exists body, new_Line st4 = Some (acc ++ body)).
  { unfold rewrite_move in E4.
    destruct (contains "E" line && contains "G1" line && contains " X" line
              && contains "Y" line); [|inversion E4; subst; auto].
    apply bind_ok in E4 as (p & _ & E4).
    apply bind_ok in E4 as ([st5 lines5] & E5 & E4).
    assert (G5 : exists body, new_Line st5 = Some (acc ++ body)).
    { destruct (Nat.eqb it 2).
      - eapply linear_infill_grows; eauto.
      - inversion E5; subst; auto. }
    destruct (Nat.eqb it 1).
    - apply bind_ok in E4 as (lines6 & _ & E4). inversion E4; subst. exact G5.
    - inversion E4; subst. exact G5. }
  inversion E2; subst. destruct (contains ";" line); exact G.
Qed.

(** ** What [getXY] raises *)

Lemma re_search_none (c : ascii) (line : string) :
  re_search c line = None <-> contains (String c EmptyString) line = false.
Proof.
  split.
  - intros N. destruct (contains (String c "") line) eqn:C; [|reflexivity].
    destruct (re_search_found c line C) as (g & G). congruence.
  - induction line as [|a rest IH]; simpl; [reflexivity|].
    destruct (ascii_dec c a) as [->|D].
    + destruct rest; discriminate.
    + intros C. destruct (Ascii.eqb_spec a c) as [->|_]; [contradiction|].
      apply IH. exact C.
Qed.

(** X8. Syntax errors of [getXY].  It raises SyntaxError exactly on the lines
    that hold no X or no Y at all; on every other line it returns a point or
    raises the ValueError of [float]. *)
Theorem getXY_syntax_error (line : string) :
  (getXY line = Raise SyntaxError <->
   contains "X" line = false \/ contains "Y" line = false) /\
  (contains "X" line = true -> contains "Y" line = true ->
   getXY line = Raise ValueError \/ exists p, getXY line = Ok p).
Proof.
  unfold getXY, to_float.
  pose proof (re_search_none "X" line) as NX.
  pose proof (re_search_none "Y" line) as NY.
  destruct (re_search "X" line) as [ex|], (re_search "Y" line) as [ey|].
  - assert (CX : contains "X" line = true)
      by (destruct (contains "X" line); [reflexivity | discriminate (proj2 NX eq_refl)]).
    assert (CY : contains "Y" line = true)
      by (destruct (contains "Y" line); [reflexivity | discriminate (proj2 NY eq_refl)]).
    split.
    + split.
      * destruct (parse ex); simpl; [destruct (parse ey); simpl|]; discriminate.
      * intros [E|E]; congruence.
    + intros _ _. destruct (parse ex); simpl; [destruct (parse ey); simpl|]; eauto.
  - split; [split; [intros _; right; now apply NY | reflexivity]|].
    intros _ CY. rewrite (proj1 NY eq_refl) in CY. discriminate.
  - split; [split; [intros _; left; now apply NX | reflexivity]|].
    intros CX. rewrite (proj1 NX eq_refl) in CX. discriminate.
  - split; [split; [intros _; left; now apply NX | reflexivity]|].
    intros CX. rewrite (proj1 NX eq_refl) in CX. discriminate.
Qed.

Lemma contains_cons_false (c a : ascii) (rest : string) :
  contains (String c EmptyString) (String a rest) = false ->
  a <> c /\ contains (String c EmptyString) rest = false.
Proof.
  simpl. destruct (ascii_dec c a) as [->|D].
  - destruct rest; discriminate.
  - intros C. split; [congruence | exact C].
Qed.

Lemma re_search_first (c : ascii) (pre rest : string) :
  contains (String c EmptyString) pre = false ->
  re_search c (pre ++ String c rest) = Some (number_prefix rest).
Proof.
  induction pre as [|a pre IH]; simpl append.
  - intros _. simpl. now rewrite Ascii.eqb_refl.
  - intros C. apply contains_cons_false in C as (D & C).
    simpl. destruct (Ascii.eqb_spec a c) as [E|_]; [contradiction|].
    now apply IH.
Qed.

Lemma number_prefix_no_number (c : ascii) (post : string) :
  is_digit c = false -> c <> "."%char -> number_prefix (String c post) = "".
Proof.
  intros D N. unfold number_prefix. simpl take_digits. rewrite D.
  destruct c as [b0 b1 b2 b3 b4 b5 b6 b7].
  destruct b0, b1, b2, b3, b4, b5, b6, b7; try reflexivity.
  exfalso. apply N. reflexivity.
Qed.

(** X9. Coordinates [getXY] cannot read.  When the first X of a line is
    followed by a character that is neither a digit nor a point, a minus sign
    for one, the pattern captures the empty string and [float] of it raises:
    the line has its X and its Y, and [getXY] raises ValueError. *)
Theorem getXY_unreadable_coordinate (pre post : string) (c : ascii) :
  parse "" = None ->
  contains "X" pre = false ->
  is_digit c = false -> c <> "."%char ->
  contains "Y" (pre ++ String "X" (String c post)) = true ->
  getXY (pre ++ String "X" (String c post)) = Raise ValueError.
Proof.
  intros P C D N Y. unfold getXY.
  rewrite (re_search_first "X" pre (String c post) C).
  destruct (re_search_found "Y" _ Y) as (ey & ->).
  rewrite (number_prefix_no_number post D N).
  unfold to_float. rewrite P. reflexivity.
Qed.

(** ** The least distance *)

Lemma min_rest_fold (segments : list Segment) (distances : list F) (p : Point2D)
    (current : F) :
  Forall2 (fun s d => dist s p = Ok d) segments distances ->
  min_rest current segments p = Ok (fold_left smaller distances current).
Proof.
  intros A; revert current; induction A as [|s d ss ds E _ IH]; intros current.
  - reflexivity.
  - simpl. rewrite E. simpl. apply IH.
Qed.

Lemma fold_smaller_in (distances : list F) (current : F) :
  In (fold_left smaller distances current) (current :: distances).
Proof.
  revert current; induction distances as [|d ds IH]; intros current; simpl.
  - auto.
  - destruct (IH (smaller current d)) as [E|I]; [|auto].
    rewrite <- E. unfold smaller. destruct (flt d current); auto.
Qed.

Lemma fold_smaller_least (distances : list F) (current : F) (all : list F) :
  incl (current :: distances) all ->
  (forall a b, In a all -> In b all -> flt a b = true -> flt b a = false) ->
  (forall a b c, In a all -> In b all -> In c all ->
                 flt a b = true -> flt a c = true \/ flt c b = true) ->
  forall x, In x (current :: distances) ->
            flt x (fold_left smaller distances current) = false.
Proof.
  intros I A T. revert current I; induction distances as [|d ds IH]; intros current I x X.
  - simpl in *. destruct X as [<-|[]].
    destruct (flt current current) eqn:E; [|reflexivity].
    rewrite (A current current) in E; auto with datatypes.
  - simpl fold_left.
    assert (Ic : In current all) by (apply I; simpl; auto).
    assert (Id : In d all) by (apply I; simpl; auto).
    assert (I' : incl (smaller current d :: ds) all).
    { intros y [<-|Y]; [unfold smaller; destruct (flt d current); assumption|].
      apply I; simpl; auto. }
    set (m := fold_left smaller ds (smaller current d)).
    assert (Im : In m all) by (apply I'; apply fold_smaller_in).
    pose proof (IH _ I' (smaller current d) (or_introl eq_refl)) as Hs. fold m in Hs.
    assert (Hc : flt current m = false /\ flt d m = false).
    { unfold smaller in Hs. destruct (flt d current) eqn:E.
      - split; [|exact Hs]. destruct (flt current m) eqn:G; [|reflexivity].
        destruct (T current m d Ic Im Id G) as [G1|G1]; [|congruence].
        rewrite (A d current Id Ic E) in G1. discriminate.
      - split; [exact Hs|]. destruct (flt d m) eqn:G; [|reflexivity].
        destruct (T d m current Id Im Ic G) as [G1|G1]; congruence. }
    destruct X as [<-|[<-|X]]; [apply Hc | apply Hc |].
    apply (IH _ I'). simpl. auto.
Qed.

(** X10. The least distance.  When the distance to every perimeter segment
    can be computed and there is a segment at all,
    [min_distance_from_segment] returns one of these distances; and when they
    compare as numbers do (no NaN among them), none of them is strictly
    smaller than the one returned. *)
Theorem min_distance_is_least (segment : Segment) (segments : list Segment)
    (distances : list F) :
  segments <> [] ->
  Forall2 (fun s d => dist s (middle_point segment) = Ok d) segments distances ->
  exists d,
    min_distance_from_segment segment segments = Ok d /\
    In d distances /\
    ((forall a b, In a distances -> In b distances -> flt a b = true -> flt b a = false) ->
     (forall a b c, In a distances -> In b distances -> In c distances ->
                    flt a b = true -> flt a c = true \/ flt c b = true) ->
     forall x, In x distances -> flt x d = false).
Proof.
  intros N A. destruct A as [|s d0 ss ds E A]; [contradiction|].
  unfold min_distance_from_segment. fold (middle_point segment).
  rewrite E. simpl. rewrite (@min_rest_fold ss ds (middle_point segment) d0 A).
  eexists; split; [reflexivity|]. split; [apply fold_smaller_in|].
  intros As T x X.
  apply (@fold_smaller_least ds d0 (d0 :: ds) (incl_refl _) As T x X).
Qed.

(** ** The perimeter set before the first layer marker *)

Lemma scan_markers_unmarked (st st' : State) (line : string) :
  perimeterSegments st = None -> is_begin_layer_line line = false ->
  scan_markers st line = Ok st' -> perimeterSegments st' = None.
Proof.
  intros N L. unfold scan_markers. rewrite L.
  destruct st as [sec pos per text ext]. simpl in N. subst per.
  destruct (is_begin_inner_wall_line line), (is_end_inner_wall_line line),
    (is_extrusion_line line), sec; simpl; intros E;
    try discriminate E; inversion E; reflexivity.
Qed.

Lemma linear_infill_perimeter (g : F) (st st' : State) (lines lines' : list string)
    (k : nat) (p : Point2D) (fields : list string) :
  linear_infill cfg g st lines k p fields = Ok (st', lines') ->
  perimeterSegments st' = perimeterSegments st.
Proof.
  intros E. unfold linear_infill in E.
  apply bind_ok in E as (e & _ & E).
  apply bind_ok in E as (extrusion & _ & E).
  apply bind_ok in E as (len & _ & E).
  apply bind_ok in E as (steps & _ & E).
  apply bind_ok in E as (eps & _ & E).
  apply bind_ok in E as (dx & _ & E).
  apply bind_ok in E as (dy & _ & E).
  destruct (fle (of_int 2) steps).
  - apply bind_ok in E as ([position text] & _ & E). inversion E; reflexivity.
  - inversion E; reflexivity.
Qed.

Lemma rewrite_move_perimeter (it : nat) (g : F) (st st' : State)
    (lines lines' : list string) (k : nat) (line : string) :
  rewrite_move cfg it g st lines k line = Ok (st', lines') ->
  perimeterSegments st' = perimeterSegments st.
Proof.
  intros E. unfold rewrite_move in E.
  destruct (contains "E" line && contains "G1" line && contains " X" line
            && contains "Y" line); [|inversion E; reflexivity].
  apply bind_ok in E as (p & _ & E).
  apply bind_ok in E as ([st1 lines1] & E1 & E).
  assert (G1 : perimeterSegments st1 = perimeterSegments st).
  { destruct (Nat.eqb it 2).
    - eapply linear_infill_perimeter; eauto.
    - inversion E1; reflexivity. }
  destruct (Nat.eqb it 1).
  - apply bind_ok in E as (lines2 & _ & E). inversion E; subst. exact G1.
  - inversion E; subst. exact G1.
Qed.

(** A line that is no layer marker leaves the perimeter set unbound. *)
Lemma process_line_unmarked (it : nat) (g : F) (st st' : State)
    (lines lines' : list string) (line : string) :
  perimeterSegments st = None -> is_begin_layer_line line = false ->
  process_line cfg it g st lines line = Ok (st', lines') ->
  perimeterSegments st' = None.
Proof.
  intros N L E. unfold process_line in E.
  apply bind_ok in E as (k & _ & E).
  apply bind_ok in E as (st1 & E1 & E).
  apply (scan_markers_unmarked _ _ N L) in E1.
  destruct (is_begin_infill_segment_line line); [inversion E; subst; exact E1|].
  apply bind_ok in E as ([st2 lines2] & E2 & E).
  apply bind_ok in E as (st3 & E3 & E). inversion E; subst.
  apply track_position_section in E3 as (_ & ->).
  destruct (Section_eqb (currentSection st1) INFILL); [|inversion E2; subst; exact E1].
  unfold infill_line in E2.
  apply bind_ok in E2 as ([st4 lines4] & E4 & E2).
  apply rewrite_move_perimeter in E4.
  destruct (keep_speed_frame st1 line) as (_ & _ & KG & _).
  inversion E2; subst. destruct (contains ";" line); simpl; congruence.
Qed.

Lemma scan_lines_unmarked (it : nat) (g : F) (n a : nat) (st st' : State)
    (lines lines' : list string) :
  perimeterSegments st = None ->
  (forall j l, (a <= j < a + n)%nat -> nth_error lines j = Some l ->
               is_begin_layer_line l = false) ->
  scan_lines cfg it g (seq a n) st lines = Ok (st', lines') ->
  perimeterSegments st' = None.
Proof.
  revert a st lines; induction n as [|n IH]; intros a st lines N Q E; simpl in E.
  - inversion E; subst; exact N.
  - destruct (nth_error lines a) as [line|] eqn:Ha; [|inversion E; subst; exact N].
    apply bind_ok in E as ([st1 lines1] & E1 & E).
    destruct (process_line_frame _ _ _ _ _ _ Ha E1) as (_ & K1).
    eapply IH; [| |exact E].
    + eapply process_line_unmarked; [exact N| |exact E1].
      apply (Q a); [lia|exact Ha].
    + intros j l Hj Hl. rewrite K1 in Hl by lia. apply (Q j); [lia|exact Hl].
Qed.

Lemma scan_layers_unmarked (it : nat) (g : F) (n a : nat) (st st' : State)
    (data data' : list string) :
  perimeterSegments st = None ->
  (forall j layer l, (a <= j < a + n)%nat -> nth_error data j = Some layer ->
                     In l (split "010" layer) -> is_begin_layer_line l = false) ->
  scan_layers cfg it g (seq a n) st data = Ok (st', data') ->
  perimeterSegments st' = None.
Proof.
  revert a st data; induction n as [|n IH]; intros a st data N Q E; simpl in E.
  - inversion E; subst; exact N.
  - destruct (nth_error data a) as [layer|] eqn:Ha; [|inversion E; subst; exact N].
    apply bind_ok in E as (k & Ek & E).
    apply bind_ok in E as ([st1 final] & E1 & E).
    destruct (@scan_layers_step_frame data a k layer final Ha Ek) as (_ & K1).
    eapply IH; [| |exact E].
    + unfold process_layer in E1.
      apply bind_ok in E1 as ([st2 lines2] & E2 & E1). inversion E1; subst.
      eapply scan_lines_unmarked; [exact N| |exact E2].
      intros j l _ Hl. apply (Q a layer); [lia|exact Ha|].
      eapply nth_error_In; exact Hl.
    + intros j layer' l Hj Hl. rewrite K1 in Hl by lia. apply (Q j); [lia|exact Hl].
Qed.

Lemma wall_move_unbound (it : nat) (g : F) (st : State) (lines : list string)
    (i : nat) (line : string) :
  nth_error lines i = Some line ->
  perimeterSegments st = None -> is_begin_layer_line line = false ->
  currentSection st = INNER_WALL \/ is_begin_inner_wall_line line = true ->
  is_extrusion_line line = true ->
  process_line cfg it g st lines line = Raise (UnboundLocalError "perimeterSegments").
Proof.
  intros Hi N L W X.
  destruct (index_found _ _ Hi) as (k & Hk & _).
  unfold process_line. rewrite Hk. simpl.
  unfold scan_markers. rewrite L, X.
  destruct st as [sec pos per text ext]. simpl in N, W. subst per.
  destruct (is_begin_inner_wall_line line); simpl.
  - reflexivity.
  - destruct W as [->|W]; [reflexivity | discriminate].
Qed.

(** X12. A wall before the first layer marker.  While no line read so far is
    a layer marker, [perimeterSegments] has never been assigned; an extrusion
    move of an inner wall that is reached then stops the whole call with the
    error of the unbound variable. *)
Theorem wall_before_first_layer_marker (data data_j ls : list string) (j i : nat)
    (g : F) (st_j st : State) (layer line : string) :
  fdiv (gradient_thickness cfg) (gradient_discretization cfg) = Ok g ->
  scan_layers cfg (mfill_mode (infillpattern cfg)) g (seq 0 j) initial_state data
    = Ok (st_j, data_j) ->
  nth_error data_j j = Some layer ->
  scan_lines cfg (mfill_mode (infillpattern cfg)) g (seq 0 i) st_j (split "010" layer)
    = Ok (st, ls) ->
  nth_error ls i = Some line ->
  (forall k l x, (k < j)%nat -> nth_error data k = Some l ->
                 In x (split "010" l) -> is_begin_layer_line x = false) ->
  (forall k x, (k <= i)%nat -> nth_error (split "010" layer) k = Some x ->
               is_begin_layer_line x = false) ->
  currentSection st = INNER_WALL \/ is_begin_inner_wall_line line = true ->
  is_extrusion_line line = true ->
  execute cfg data = Raise (UnboundLocalError "perimeterSegments").
Proof.
  intros G Ej Hj Ei Hi Qj Qi W X.
  set (it := mfill_mode (infillpattern cfg)) in *.
  assert (Nj : perimeterSegments st_j = None).
  { apply (fun N Q => @scan_layers_unmarked it g j 0 initial_state st_j
                        data data_j N Q Ej); [reflexivity|].
    intros k l x Hk Hl Hx. apply (Qj k l x); [lia|exact Hl|exact Hx]. }
  assert (N : perimeterSegments st = None).
  { apply (fun Q => @scan_lines_unmarked it g i 0 st_j st
                      (split "010" layer) ls Nj Q Ei).
    intros k x Hk Hx. apply (Qi k x); [lia|exact Hx]. }
  assert (L : is_begin_layer_line line = false).
  { destruct (scan_lines_frame _ _ _ _ _ _ _ Ei) as (_ & K).
    apply (Qi i line); [lia|]. rewrite <- K by lia. exact Hi. }
  pose proof (@wall_move_unbound it g st ls i line Hi N L W X) as E.
  unfold execute, run. rewrite G. simpl. fold it.
  rewrite (@scan_layers_raises _ _ cfg it g initial_state st_j data data_j j layer
             (UnboundLocalError "perimeterSegments") Ej Hj); [reflexivity|].
  unfold process_layer.
  rewrite (@scan_lines_raises _ _ cfg it g st_j st (split "010" layer) ls i line
             (UnboundLocalError "perimeterSegments") Ei Hi E). reflexivity.
Qed.

(** ** What the scan reads and records *)

(** X13. The scan reads the text it was given.  Whatever the lines before
    position [i] wrote, the layer has kept its length and every line from
    position [i] on is still the one of the input: a rewriting is never read
    again as a line to process. *)
Theorem scan_reads_original_lines (it : nat) (g : F) (i : nat) (st st' : State)
    (lines lines' : list string) :
  scan_lines cfg it g (seq 0 i) st lines = Ok (st', lines') ->
  List.length lines' = List.length lines /\
  forall j, (i <= j)%nat -> nth_error lines' j = nth_error lines j.
Proof.
  intros E. destruct (scan_lines_frame _ _ _ _ _ _ _ E) as (L & K).
  split; [exact L|]. intros j Hj. apply K. lia.
Qed.

(** X14. As many layers out as in.  A call that returns gives back a stream
    with the number of layers it received. *)
Theorem execute_keeps_layer_count (data data' : list string) :
  execute cfg data = Ok data' -> List.length data' = List.length data.
Proof.
  unfold execute, run. intros E.
  apply bind_ok in E as ([st d] & E1 & E). inversion E; subst.
  apply bind_ok in E1 as (g & _ & E1).
  now destruct (scan_layers_frame _ _ _ _ _ _ _ E1).
Qed.

(** X15. The position follows the moves.  After a line that holds [ X], [ Y]
    and G0 or G1, and is not the infill marker, the position is the point
    [getXY] reads on that line, also when a linear move was cut in steps that
    end short of it. *)
Theorem position_follows_moves (it : nat) (g : F) (st st' : State)
    (lines lines' : list string) (line : string) (p : Point2D) :
  is_begin_infill_segment_line line = false ->
  contains " X" line && contains " Y" line
    && (contains "G1" line || contains "G0" line) = true ->
  getXY line = Ok p ->
  process_line cfg it g st lines line = Ok (st', lines') ->
  lastPosition st' = p.
Proof.
  intros M C P E. unfold process_line in E.
  apply bind_ok in E as (k & _ & E).
  apply bind_ok in E as (st1 & _ & E).
  rewrite M in E.
  apply bind_ok in E as ([st2 lines2] & _ & E).
  apply bind_ok in E as (st3 & E3 & E). inversion E; subst.
  unfold track_position in E3. rewrite C, P in E3. simpl in E3.
  inversion E3; reflexivity.
Qed.

(** X16. Wall moves are recorded.  Inside an inner wall, an extrusion move
    that is no comment adds one segment to the perimeter set, from the point
    read on the line to the position before it, after those already there;
    the line itself is not written, and the scan stays in the wall. *)
Theorem wall_move_is_recorded (it : nat) (g : F) (st : State) (lines : list string)
    (i : nat) (line : string) (p : Point2D) (segments : list Segment) :
  nth_error lines i = Some line ->
  prefix ";" line = false ->
  currentSection st = INNER_WALL ->
  is_extrusion_line line = true ->
  perimeterSegments st = Some segments ->
  getXY line = Ok p ->
  exists st',
    process_line cfg it g st lines line = Ok (st', lines) /\
    perimeterSegments st' = Some (segments ++ [mkSegment p (lastPosition st)])%list /\
    currentSection st' = INNER_WALL.
Proof.
  intros Hi N S X G P.
  destruct (index_found _ _ Hi) as (k & Hk & _).
  destruct (markers_of_plain_line line N) as (A & B & C & D).
  unfold process_line. rewrite Hk. simpl.
  unfold scan_markers. rewrite A, B, C, S, X, G, P. simpl. rewrite D. simpl.
  rewrite S. simpl. unfold track_position. rewrite P.
  destruct (contains " X" line && contains " Y" line
            && (contains "G1" line || contains "G0" line)); simpl;
    (eexists; repeat split; try reflexivity; exact S).
Qed.

End More.

(** ** The extruder of the settings *)

(** X11. The extruder the settings select.  With as many extruders as the
    machine counts, and at least one: a setting of 1 or more selects the
    extruder of that number, the last one when the number is too large, and
    the lookup cannot fail; a setting of 0 or less counts from the end, 0
    selecting the last extruder; and the lookup fails exactly when the
    setting is at most minus the count. *)
Theorem extruder_selection (extrud : list Extruder) (extruder_nb count : Z) :
  count = Z.of_nat (List.length extrud) ->
  extrud <> [] ->
  (1 <= extruder_nb ->
   list_item extrud (selected_extruder extruder_nb count)
     = nth_error extrud (Z.to_nat (Z.min extruder_nb count - 1)) /\
   list_item extrud (selected_extruder extruder_nb count) <> None)%Z /\
  (- count < extruder_nb <= 0 ->
   list_item extrud (selected_extruder extruder_nb count)
     = nth_error extrud (Z.to_nat (count + extruder_nb - 1)) /\
   list_item extrud (selected_extruder extruder_nb count) <> None)%Z /\
  (list_item extrud (selected_extruder extruder_nb count) = None
   <-> extruder_nb <= - count)%Z.
Proof.
  intros C N.
  assert (P : (0 < count)%Z).
  { subst count. destruct extrud; [contradiction | simpl; lia]. }
  unfold selected_extruder, list_item. rewrite <- C.
  repeat split.
  - destruct (Z.ltb_spec (count - 1) (extruder_nb - 1)).
    + destruct (Z.leb_spec 0 (count - 1)); [|lia]. f_equal. lia.
    + destruct (Z.leb_spec 0 (extruder_nb - 1)); [|lia]. f_equal. lia.
  - destruct (Z.ltb_spec (count - 1) (extruder_nb - 1)).
    + destruct (Z.leb_spec 0 (count - 1)); [|lia]. apply nth_error_Some. lia.
    + destruct (Z.leb_spec 0 (extruder_nb - 1)); [|lia]. apply nth_error_Some. lia.
  - destruct (Z.ltb_spec (count - 1) (extruder_nb - 1)); [lia|].
    destruct (Z.leb_spec 0 (extruder_nb - 1)); [lia|].
    destruct (Z.leb_spec (- count) (extruder_nb - 1)); [|lia]. f_equal. lia.
  - destruct (Z.ltb_spec (count - 1) (extruder_nb - 1)); [lia|].
    destruct (Z.leb_spec 0 (extruder_nb - 1)); [lia|].
    destruct (Z.leb_spec (- count) (extruder_nb - 1)); [|lia]. apply nth_error_Some. lia.
  - destruct (Z.ltb_spec (count - 1) (extruder_nb - 1)).
    + destruct (Z.leb_spec 0 (count - 1)); [|lia].
      intros E. apply nth_error_None in E. lia.
    + destruct (Z.leb_spec 0 (extruder_nb - 1)).
      * intros E. apply nth_error_None in E. lia.
      * destruct (Z.leb_spec (- count) (extruder_nb - 1)); [|lia].
        intros E. apply nth_error_None in E. lia.
  - intros L.
    destruct (Z.ltb_spec (count - 1) (extruder_nb - 1)); [lia|].
    destruct (Z.leb_spec 0 (extruder_nb - 1)); [lia|].
    destruct (Z.leb_spec (- count) (extruder_nb - 1)); [lia|]. reflexivity.
Qed.

(** ** More statements at concrete inputs *)

Ltac each_line tac :=
  let l := fresh "l" in
  let I := fresh "I" in
  intros l I; simpl in I;
  repeat (destruct I as [I|I]; [subst l; tac|]); contradiction.

Ltac readable :=
  let R := fresh "R" in
  intros R;
  first [ vm_compute in R; discriminate R
        | eexists; vm_compute; reflexivity ].

Lemma layer_without_infill_unchanged_witness :
  exists st',
    process_layer (default_settings "lines") 2 default_step outside_sections
                  (layer_of layer_without_infill)
    = Ok (st', layer_of layer_without_infill) /\
    currentSection st' <> INFILL /\ perimeterSegments st' <> None.
Proof.
  assert (S : split "010" (layer_of layer_without_infill) = layer_without_infill)
    by (vm_compute; reflexivity).
  assert (H1 : currentSection outside_sections <> INFILL) by discriminate.
  assert (H2 : perimeterSegments outside_sections <> None) by discriminate.
  assert (H3 : forall l, In l (split "010" (layer_of layer_without_infill)) ->
                         is_begin_infill_segment_line l = false).
  { rewrite S. each_line ltac:(vm_compute; reflexivity). }
  assert (H4 : forall l, In l (split "010" (layer_of layer_without_infill)) ->
                         reads_position l = true ->
                         exists p : Point2D (F := PrimFloat.float), getXY l = Ok p).
  { rewrite S. each_line readable. }
  exact (@layer_without_infill_unchanged _ _ (default_settings "lines") 2%nat
           default_step outside_sections (layer_of layer_without_infill) H1 H2 H3 H4).
Defined.

Lemma pattern_without_gradient_passthrough_witness :
  execute (default_settings "concentric") [layer_of two_moves] = Ok [layer_of two_moves].
Proof.
  assert (S : split "010" (layer_of two_moves) = two_moves) by (vm_compute; reflexivity).
  assert (H1 : ~ In (infillpattern (default_settings "concentric")) gradient_patterns).
  { simpl. intros I. repeat (destruct I as [I|I]; [discriminate I|]). exact I. }
  assert (H2 : fzero (gradient_discretization (default_settings "concentric")) = false)
    by (vm_compute; reflexivity).
  assert (H3 : forall layer, nth_error [layer_of two_moves] 0 = Some layer ->
                 is_begin_layer_line (hd "" (split "010" layer)) = true).
  { intros layer E. inversion E; subst. rewrite S. vm_compute. reflexivity. }
  assert (H4 : forall layer l, In layer [layer_of two_moves] ->
                 In l (split "010" layer) -> reads_position l = true ->
                 exists p : Point2D (F := PrimFloat.float), getXY l = Ok p).
  { intros layer l [<-|[]]. rewrite S. revert l. each_line readable. }
  exact (@pattern_without_gradient_passthrough _ _ (default_settings "concentric")
           [layer_of two_moves] H1 H2 H3 H4).
Defined.

Lemma short_linear_move_witness :
  linear_infill (default_settings "lines") default_step inside_infill
                ["G1 X1 Y0 E1.0"] 0 (mkPoint (of_int 1) (of_int 0))
                ["G1"; "X1"; "Y0"; "E1.0"]
  = Ok (set_extrusion inside_infill (Some (of_int 1)),
        assign 0
          (String.concat ""
             (map (short_move_field
                     (repr (round_to 5
                              (fquot (fmul (of_int 1)
                                           (max_flow (default_settings "lines")))
                                     (of_int 100)))))
                  ["G1"; "X1"; "Y0"; "E1.0"]))
          ["G1 X1 Y0 E1.0"]).
Proof.
  pose (steps := PrimFloat.div (of_int 1) default_step).
  assert (H1 : find_extrusion ["G1"; "X1"; "Y0"; "E1.0"] (extrusionLength inside_infill)
               = Ok (Some (of_int 1))) by (vm_compute; reflexivity).
  assert (H2 : get_points_distance (lastPosition inside_infill)
                 (mkPoint (of_int 1) (of_int 0)) = Ok (of_int 1))
    by (vm_compute; reflexivity).
  assert (H3 : fdiv (of_int 1) default_step = Ok steps) by (vm_compute; reflexivity).
  assert (H4 : fzero steps = false) by (vm_compute; reflexivity).
  assert (H5 : fzero (of_int 1) = false) by (vm_compute; reflexivity).
  assert (H6 : fle (of_int 2) steps = false) by (vm_compute; reflexivity).
  exact (@short_linear_move _ _ (default_settings "lines") default_step inside_infill
           ["G1 X1 Y0 E1.0"] 0%nat (mkPoint (of_int 1) (of_int 0))
           ["G1"; "X1"; "Y0"; "E1.0"] (of_int 1) (of_int 1) steps
           H1 H2 H3 H4 H5 H6).
Defined.

Lemma comment_ends_infill_witness :
  process_line (default_settings "lines") 2 default_step inside_infill
               [";MESH:NONMESH"] ";MESH:NONMESH"
  = Ok (set_section inside_infill NOTHING, [";MESH:NONMESH"]) /\
  currentSection (set_section inside_infill NOTHING) <> INFILL.
Proof.
  assert (H1 : contains ";" ";MESH:NONMESH" = true) by (vm_compute; reflexivity).
  assert (H2 : is_begin_infill_segment_line ";MESH:NONMESH" = false)
    by (vm_compute; reflexivity).
  assert (H3 : process_line (default_settings "lines") 2 default_step inside_infill
                 [";MESH:NONMESH"] ";MESH:NONMESH"
               = Ok (set_section inside_infill NOTHING, [";MESH:NONMESH"]))
    by (vm_compute; reflexivity).
  split; [exact H3|].
  exact (@comment_ends_infill _ _ (default_settings "lines") 2%nat default_step
           inside_infill (set_section inside_infill NOTHING) [";MESH:NONMESH"]
           [";MESH:NONMESH"] ";MESH:NONMESH" H1 H2 H3).
Defined.

Lemma line_written_in_place_witness :
  List.length [";TYPE:FILL"; "G1 X1 Y0 E3.5"] = List.length [";TYPE:FILL"; "G1 X1 Y0 E1.0"] /\
  forall j, j <> 1%nat ->
            nth_error [";TYPE:FILL"; "G1 X1 Y0 E3.5"] j
            = nth_error [";TYPE:FILL"; "G1 X1 Y0 E1.0"] j.
Proof.
  assert (H1 : nth_error [";TYPE:FILL"; "G1 X1 Y0 E1.0"] 1 = Some "G1 X1 Y0 E1.0")
    by reflexivity.
  assert (H2 : forall j, (j < 1)%nat ->
                 nth_error [";TYPE:FILL"; "G1 X1 Y0 E1.0"] j <> Some "G1 X1 Y0 E1.0").
  { intros j Hj. destruct j; [discriminate | lia]. }
  assert (H3 : exists st',
                 process_line (default_settings "lines") 2 default_step inside_infill
                   [";TYPE:FILL"; "G1 X1 Y0 E1.0"] "G1 X1 Y0 E1.0"
                 = Ok (st', [";TYPE:FILL"; "G1 X1 Y0 E3.5"]))
    by (eexists; vm_compute; reflexivity).
  destruct H3 as (st' & H3).
  exact (@line_written_in_place _ _ (default_settings "lines") 2%nat default_step
           inside_infill st' [";TYPE:FILL"; "G1 X1 Y0 E1.0"]
           [";TYPE:FILL"; "G1 X1 Y0 E3.5"] 1%nat "G1 X1 Y0 E1.0" H1 H2 H3).
Defined.

Lemma accumulator_only_grows_witness :
  exists st' lines' body,
    process_line (default_settings "lines") 2 default_step inside_infill
                 ["G1 X3 Y0 E1.0"] "G1 X3 Y0 E1.0" = Ok (st', lines') /\
    new_Line st' = Some (("G1 F1200" ++ nl) ++ body).
Proof.
  assert (H1 : carries_speed "G1 X3 Y0 E1.0" = false) by (vm_compute; reflexivity).
  assert (H2 : new_Line inside_infill = Some ("G1 F1200" ++ nl)) by reflexivity.
  assert (H3 : exists st' lines',
                 process_line (default_settings "lines") 2 default_step inside_infill
                   ["G1 X3 Y0 E1.0"] "G1 X3 Y0 E1.0" = Ok (st', lines'))
    by (eexists; eexists; vm_compute; reflexivity).
  destruct H3 as (st' & lines' & H3).
  destruct (@accumulator_only_grows _ _ (default_settings "lines") 2%nat default_step
              inside_infill st' ["G1 X3 Y0 E1.0"] lines' "G1 X3 Y0 E1.0"
              ("G1 F1200" ++ nl) H1 H2 H3) as (body & B).
  exists st', lines', body. split; [exact H3 | exact B].
Defined.

Lemma getXY_unreadable_coordinate_witness :
  getXY (F := PrimFloat.float) ("G1 " ++ String "X" (String "-" "5 Y3"))
  = Raise ValueError.
Proof.
  assert (H1 : parse (F := PrimFloat.float) "" = None) by (vm_compute; reflexivity).
  assert (H2 : contains "X" "G1 " = false) by (vm_compute; reflexivity).
  assert (H3 : is_digit "-" = false) by (vm_compute; reflexivity).
  assert (H4 : "-"%char <> "."%char) by discriminate.
  assert (H5 : contains "Y" ("G1 " ++ String "X" (String "-" "5 Y3")) = true)
    by (vm_compute; reflexivity).
  exact (@getXY_unreadable_coordinate _ _ "G1 " "5 Y3" "-"%char H1 H2 H3 H4 H5).
Defined.

Lemma min_distance_is_least_witness :
  exists d,
    min_distance_from_segment
      (mkSegment (mkPoint (of_int 0) (of_int 0)) (mkPoint (of_int 2) (of_int 0)))
      two_walls = Ok d /\
    In d [of_int 1; of_int 4] /\
    forall x, In x [of_int 1; of_int 4] -> flt x d = false.
Proof.
  pose (segment := mkSegment (mkPoint (F := PrimFloat.float) (of_int 0) (of_int 0))
                             (mkPoint (of_int 2) (of_int 0))).
  assert (H1 : two_walls <> []) by discriminate.
  assert (H2 : Forall2 (fun s d => dist s (middle_point segment) = Ok d) two_walls
                       [of_int 1; of_int 4]).
  { repeat constructor; vm_compute; reflexivity. }
  destruct (@min_distance_is_least _ _ segment two_walls [of_int 1; of_int 4] H1 H2)
    as (d & D & I & L).
  exists d. split; [exact D|]. split; [exact I|].
  apply L.
  - intros a b [<-|[<-|[]]] [<-|[<-|[]]]; vm_compute; intros E;
      first [discriminate E | reflexivity].
  - intros a b c [<-|[<-|[]]] [<-|[<-|[]]] [<-|[<-|[]]]; vm_compute; intros E;
      first [discriminate E | left; reflexivity | right; reflexivity].
Defined.

Lemma extruder_selection_witness :
  list_item two_extruders (selected_extruder 5 2) = nth_error two_extruders 1 /\
  list_item two_extruders (selected_extruder 0 2) = nth_error two_extruders 1 /\
  list_item two_extruders (selected_extruder (-2) 2) = None.
Proof.
  assert (H1 : 2%Z = Z.of_nat (List.length two_extruders)) by reflexivity.
  assert (H2 : two_extruders <> []) by discriminate.
  split; [|split].
  - exact (proj1 (proj1 (@extruder_selection two_extruders 5 2 H1 H2) ltac:(lia))).
  - exact (proj1 (proj1 (proj2 (@extruder_selection two_extruders 0 2 H1 H2))
                        ltac:(lia))).
  - exact (proj2 (proj2 (proj2 (@extruder_selection two_extruders (-2) 2 H1 H2)))
                 ltac:(lia)).
Defined.

Lemma wall_before_first_layer_marker_witness :
  execute (default_settings "lines") [layer_of wall_without_marker]
  = Raise (UnboundLocalError "perimeterSegments").
Proof.
  pose (cfg := default_settings "lines").
  pose (data := [layer_of wall_without_marker]).
  assert (S : split "010" (layer_of wall_without_marker) = wall_without_marker)
    by (vm_compute; reflexivity).
  assert (H1 : fdiv (gradient_thickness cfg) (gradient_discretization cfg)
               = Ok default_step) by (vm_compute; reflexivity).
  assert (H2 : scan_layers cfg (mfill_mode (infillpattern cfg)) default_step (seq 0 0)
                 initial_state data = Ok (initial_state, data)) by reflexivity.
  assert (H3 : nth_error data 0 = Some (layer_of wall_without_marker)) by reflexivity.
  assert (H4 : scan_lines cfg (mfill_mode (infillpattern cfg)) default_step (seq 0 1)
                 initial_state (split "010" (layer_of wall_without_marker))
               = Ok (set_section initial_state INNER_WALL, wall_without_marker))
    by (vm_compute; reflexivity).
  assert (H5 : nth_error wall_without_marker 1 = Some "G1 X5 Y5 E1") by reflexivity.
  assert (H6 : forall k l x, (k < 0)%nat -> nth_error data k = Some l ->
                 In x (split "010" l) -> is_begin_layer_line x = false)
    by (intros k l x Hk; inversion Hk).
  assert (H7 : forall k x, (k <= 1)%nat ->
                 nth_error (split "010" (layer_of wall_without_marker)) k = Some x ->
                 is_begin_layer_line x = false).
  { intros k x Hk. rewrite S.
    do 2 (destruct k as [|k];
          [intros E; inversion E; subst; vm_compute; reflexivity|]).
    lia. }
  assert (H8 : is_extrusion_line "G1 X5 Y5 E1" = true) by (vm_compute; reflexivity).
  exact (@wall_before_first_layer_marker _ _ cfg data data wall_without_marker
           0%nat 1%nat default_step initial_state
           (set_section initial_state INNER_WALL)
           (layer_of wall_without_marker) "G1 X5 Y5 E1"
           H1 H2 H3 H4 H5 H6 H7 (or_introl eq_refl) H8).
Defined.

Lemma scan_reads_original_lines_witness :
  exists st' lines',
    scan_lines (default_settings "lines") 2 default_step (seq 0 8) initial_state two_moves
    = Ok (st', lines') /\
    List.length lines' = List.length two_moves /\
    forall j, (8 <= j)%nat -> nth_error lines' j = nth_error two_moves j.
Proof.
  assert (H1 : exists st' lines',
                 scan_lines (default_settings "lines") 2 default_step (seq 0 8)
                   initial_state two_moves = Ok (st', lines'))
    by (eexists; eexists; vm_compute; reflexivity).
  destruct H1 as (st' & lines' & H1).
  exists st', lines'. split; [exact H1|].
  exact (@scan_reads_original_lines _ _ (default_settings "lines") 2%nat default_step
           8%nat initial_state st' two_moves lines' H1).
Defined.

Lemma execute_keeps_layer_count_witness :
  exists data',
    execute (default_settings "lines") [layer_of two_moves; layer_of two_moves]
    = Ok data' /\
    List.length data' = List.length [layer_of two_moves; layer_of two_moves].
Proof.
  assert (H1 : exists data',
                 execute (default_settings "lines")
                   [layer_of two_moves; layer_of two_moves] = Ok data')
    by (eexists; vm_compute; reflexivity).
  destruct H1 as (data' & H1).
  exists data'. split; [exact H1|].
  exact (@execute_keeps_layer_count _ _ (default_settings "lines")
           [layer_of two_moves; layer_of two_moves] data' H1).
Defined.

Lemma position_follows_moves_witness :
  exists st' lines',
    process_line (default_settings "lines") 2 default_step inside_infill
                 ["G1 F1200 X4 Y0 E1.0"] "G1 F1200 X4 Y0 E1.0" = Ok (st', lines') /\
    lastPosition st' = mkPoint (of_int 4) (of_int 0).
Proof.
  assert (H1 : is_begin_infill_segment_line "G1 F1200 X4 Y0 E1.0" = false)
    by (vm_compute; reflexivity).
  assert (H2 : contains " X" "G1 F1200 X4 Y0 E1.0" && contains " Y" "G1 F1200 X4 Y0 E1.0"
               && (contains "G1" "G1 F1200 X4 Y0 E1.0"
                   || contains "G0" "G1 F1200 X4 Y0 E1.0") = true)
    by (vm_compute; reflexivity).
  assert (H3 : getXY (F := PrimFloat.float) "G1 F1200 X4 Y0 E1.0"
               = Ok (mkPoint (of_int 4) (of_int 0))) by (vm_compute; reflexivity).
  assert (H4 : exists st' lines',
                 process_line (default_settings "lines") 2 default_step inside_infill
                   ["G1 F1200 X4 Y0 E1.0"] "G1 F1200 X4 Y0 E1.0" = Ok (st', lines'))
    by (eexists; eexists; vm_compute; reflexivity).
  destruct H4 as (st' & lines' & H4).
  exists st', lines'. split; [exact H4|].
  exact (@position_follows_moves _ _ (default_settings "lines") 2%nat default_step
           inside_infill st' ["G1 F1200 X4 Y0 E1.0"] lines' "G1 F1200 X4 Y0 E1.0"
           (mkPoint (of_int 4) (of_int 0)) H1 H2 H3 H4).
Defined.

Lemma wall_move_is_recorded_witness :
  exists st',
    process_line (default_settings "lines") 2 default_step inside_wall
                 ["G1 X5 Y5 E1"] "G1 X5 Y5 E1" = Ok (st', ["G1 X5 Y5 E1"]) /\
    perimeterSegments st'
    = Some ([mkSegment (mkPoint (of_int 0) (of_int 0)) (mkPoint (of_int 1) (of_int 1))]
              ++ [mkSegment (mkPoint (of_int 5) (of_int 5)) (lastPosition inside_wall)])%list /\
    currentSection st' = INNER_WALL.
Proof.
  assert (H1 : nth_error ["G1 X5 Y5 E1"] 0 = Some "G1 X5 Y5 E1") by reflexivity.
  assert (H2 : prefix ";" "G1 X5 Y5 E1" = false) by (vm_compute; reflexivity).
  assert (H3 : currentSection inside_wall = INNER_WALL) by reflexivity.
  assert (H4 : is_extrusion_line "G1 X5 Y5 E1" = true) by (vm_compute; reflexivity).
  assert (H5 : perimeterSegments inside_wall
               = Some [mkSegment (mkPoint (of_int 0) (of_int 0))
                                 (mkPoint (of_int 1) (of_int 1))]) by reflexivity.
  assert (H6 : getXY (F := PrimFloat.float) "G1 X5 Y5 E1"
               = Ok (mkPoint (of_int 5) (of_int 5))) by (vm_compute; reflexivity).
  exact (@wall_move_is_recorded _ _ (default_settings "lines") 2%nat default_step
           inside_wall ["G1 X5 Y5 E1"] 0%nat "G1 X5 Y5 E1"
           (mkPoint (of_int 5) (of_int 5))
           [mkSegment (mkPoint (of_int 0) (of_int 0)) (mkPoint (of_int 1) (of_int 1))]
           H1 H2 H3 H4 H5 H6).
Defined.

(** * The rewriting of a move, in full *)

Lemma index_least (v : string) (l : list string) (k : nat) :
  index v l = Ok k -> forall j, (j < k)%nat -> nth_error l j <> Some v.
Proof.
  revert k; induction l as [|w ws IH]; intros k E j Lt; simpl in E; [discriminate|].
  destruct (String.eqb_spec w v) as [->|D].
  - inversion E; subst. lia.
  - apply bind_ok in E as (i & Ei & E). inversion E; subst.
    destruct j as [|j]; simpl.
    + intros Q. inversion Q. contradiction.
    + apply (IH _ Ei). lia.
Qed.

(** [lines.index(currentLine)] for the line at position [i]: the first
    position that holds the same text, [i] itself when there is none before. *)
Lemma index_of_line (lines : list string) (i : nat) (line : string) :
  nth_error lines i = Some line ->
  exists k, index line lines = Ok k /\ (k <= i)%nat /\ nth_error lines k = Some line /\
            forall j, (j < k)%nat -> nth_error lines j <> Some line.
Proof.
  intros Hi. destruct (@index_found line lines i Hi) as (k & Hk & Le).
  exists k. split; [exact Hk|]. split; [exact Le|].
  split; [apply (@index_lt line lines k Hk) | apply (@index_least line lines k Hk)].
Qed.

Section Accumulator.

Context {F : Type} `{PyFloat F}.
Variable cfg : Settings (F := F).

(** ** The loop body on an extrusion move of the infill *)

Lemma track_position_read (st : State) (line : string) (p : Point2D) :
  getXY line = Ok p ->
  track_position (if contains ";" line then set_section st NOTHING else st) line
  = Ok (after_line st line p).
Proof.
  intros P. unfold track_position, after_line. rewrite P.
  destruct (contains " X" line && contains " Y" line
            && (contains "G1" line || contains "G0" line)); reflexivity.
Qed.

Lemma process_line_move (it : nat) (g : F) (st st1 : State) (lines : list string)
    (k : nat) (line : string) (p : Point2D) :
  index line lines = Ok k ->
  scan_markers st line = Ok st1 ->
  is_begin_infill_segment_line line = false ->
  currentSection st1 = INFILL ->
  contains "E" line && contains "G1" line && contains " X" line && contains "Y" line = true ->
  getXY line = Ok p ->
  process_line cfg it g st lines line =
  let* (st2, lines2) :=
    (let* (st0, lines0) :=
       if Nat.eqb it 2 then
         linear_infill cfg g (keep_speed st1 line) lines k p (split " " line)
       else Ok (keep_speed st1 line, lines) in
     if Nat.eqb it 1 then
       let* lines1 := small_segments_infill cfg st0 lines0 k p (split " " line) in
       Ok (st0, lines1)
     else Ok (st0, lines0)) in
  Ok (after_line st2 line p, lines2).
Proof.
  intros Hk M B S X P. unfold process_line. rewrite Hk. cbn [bind]. rewrite M. cbn [bind].
  rewrite B, S. cbn [Section_eqb]. unfold infill_line, rewrite_move. rewrite X, P.
  cbn [bind].
  destruct (Nat.eqb it 2).
  - destruct (linear_infill cfg g (keep_speed st1 line) lines k p (split " " line))
      as [[st0 lines0]|e]; cbn [bind]; [|reflexivity].
    destruct (Nat.eqb it 1).
    + destruct (small_segments_infill cfg st0 lines0 k p (split " " line)) as [lines1|e];
        cbn [bind]; [|reflexivity].
      now rewrite (@track_position_read st0 line p P).
    + cbn [bind]. now rewrite (@track_position_read st0 line p P).
  - cbn [bind]. destruct (Nat.eqb it 1).
    + destruct (small_segments_infill cfg (keep_speed st1 line) lines k p (split " " line))
        as [lines1|e]; cbn [bind]; [|reflexivity].
      now rewrite (@track_position_read (keep_speed st1 line) line p P).
    + cbn [bind]. now rewrite (@track_position_read (keep_speed st1 line) line p P).
Qed.

Lemma after_line_new_Line (st : State (F := F)) (line : string) (p : Point2D) :
  new_Line (after_line st line p) = new_Line st.
Proof.
  unfold after_line.
  destruct (contains ";" line),
    (contains " X" line && contains " Y" line
     && (contains "G1" line || contains "G0" line)); reflexivity.
Qed.

(** ** Small segments *)

Lemma small_segments_cases (st : State) (lines : list string) (k : nat) (p : Point2D)
    (fields : list string) (segs : list Segment) (d : F) :
  perimeterSegments st = Some segs ->
  min_distance_from_segment (mkSegment (lastPosition st) p) segs = Ok d ->
  (new_Line st = None ->
   small_segments_infill cfg st lines k p fields = Raise (UnboundLocalError "new_Line")) /\
  (forall acc, new_Line st = Some acc ->
     (flt d (gradient_thickness cfg) = false ->
      small_segments_infill cfg st lines k p fields = Ok lines) /\
     (flt d (gradient_thickness cfg) = true ->
      forall pieces,
        Forall2 (fun element text => scaled_field cfg d element = Ok text) fields pieces ->
        small_segments_infill cfg st lines k p fields
        = Ok (assign k (acc ++ String.concat "" pieces ++ nl) lines))).
Proof.
  intros G D. unfold small_segments_infill. rewrite G. cbn [load bind]. rewrite D.
  cbn [bind]. split.
  - intros ->. reflexivity.
  - intros acc ->. cbn [load bind]. split.
    + intros ->. reflexivity.
    + intros -> pieces Q.
      rewrite (@scale_each_field_pieces _ _ cfg d fields pieces acc Q). cbn [bind].
      now rewrite string_app_assoc.
Qed.

Lemma process_line_small (g : F) (st : State) (lines : list string) (k : nat)
    (line : string) (p : Point2D) :
  index line lines = Ok k ->
  currentSection st = INFILL ->
  prefix ";" line = false ->
  contains "E" line && contains "G1" line && contains " X" line && contains "Y" line = true ->
  getXY line = Ok p ->
  process_line cfg 1 g st lines line =
  let* lines1 :=
    small_segments_infill cfg (keep_speed st line) lines k p (split " " line) in
  Ok (after_line (keep_speed st line) line p, lines1).
Proof.
  intros Hk S N X P.
  destruct (@markers_of_plain_line line N) as (_ & _ & _ & M).
  rewrite (@process_line_move 1 g st st lines k line p Hk
             (@scan_markers_infill _ _ st line N S) M S X P).
  cbn [Nat.eqb bind].
  destruct (small_segments_infill cfg (keep_speed st line) lines k p (split " " line));
    reflexivity.
Qed.

(** ** Linear infill, two steps and more *)

Lemma linear_infill_long (g : F) (st : State) (lines : list string) (k : nat)
    (p : Point2D) (fields : list string) (extrusion len steps : F) :
  find_extrusion fields (extrusionLength st) = Ok (Some extrusion) ->
  get_points_distance (lastPosition st) p = Ok len -> fzero len = false ->
  fdiv len g = Ok steps -> fzero steps = false ->
  fle (of_int 2) steps = true ->
  linear_infill cfg g st lines k p fields =
  let* (position, text) :=
    subdivided_move cfg steps (fquot extrusion steps) len extrusion
      (segment_direction g (lastPosition st) p len) p (perimeterSegments st)
      (lastPosition st) (new_Line st) in
  Ok (set_new_Line (set_position (set_extrusion st (Some extrusion)) position) (Some text),
      assign k text lines).
Proof.
  intros E L Z1 S Z2 B. unfold linear_infill.
  rewrite E. simpl. rewrite L. simpl. rewrite S. simpl.
  unfold fdiv. rewrite Z1, Z2. simpl. rewrite B. reflexivity.
Qed.

Lemma process_line_linear (g : F) (st : State) (lines : list string) (k : nat)
    (line : string) (p : Point2D) :
  index line lines = Ok k ->
  currentSection st = INFILL ->
  prefix ";" line = false ->
  contains "E" line && contains "G1" line && contains " X" line && contains "Y" line = true ->
  getXY line = Ok p ->
  process_line cfg 2 g st lines line =
  let* (st1, lines1) :=
    linear_infill cfg g (keep_speed st line) lines k p (split " " line) in
  Ok (after_line st1 line p, lines1).
Proof.
  intros Hk S N X P.
  destruct (@markers_of_plain_line line N) as (_ & _ & _ & M).
  rewrite (@process_line_move 2 g st st lines k line p Hk
             (@scan_markers_infill _ _ st line N S) M S X P).
  cbn [Nat.eqb bind].
  destruct (linear_infill cfg g (keep_speed st line) lines k p (split " " line))
    as [[st1 lines1]|e]; reflexivity.
Qed.

Lemma subdivide_unbound (n : nat) (eps : F) (dir : Point2D) (per : option (list Segment))
    (last : Point2D) (e : F) :
  sub_move_extrusion cfg eps per last (moved last dir) = Ok e ->
  subdivide cfg (S n) eps dir per last None = Raise (UnboundLocalError "new_Line").
Proof.
  unfold sub_move_extrusion, moved. cbn [subdivide Px Py].
  destruct (load "perimeterSegments" per) as [segs|x]; [|discriminate].
  cbn [bind].
  match goal with
  | |- context [min_distance_from_segment ?s ?l] =>
      destruct (min_distance_from_segment s l) as [d|x]
  end; [|discriminate].
  cbn [bind].
  destruct (flt d (gradient_thickness cfg)); [|reflexivity].
  destruct (band_flow cfg d); [reflexivity | discriminate].
Qed.

(** The branch of the sub-moves stops at its first read of [new_Line]: in the
    first sub-move, once its extrusion is computed, or, when there is no
    sub-move, after the rest of the way is measured. *)
Lemma subdivided_move_unbound (steps eps len extrusion : F) (dir p last : Point2D)
    (per : option (list Segment)) (n : Z) :
  trunc steps = Ok n ->
  ((0 < n)%Z -> exists e, sub_move_extrusion cfg eps per last (moved last dir) = Ok e) ->
  get_points_distance last p = Ok len -> fzero len = false ->
  subdivided_move cfg steps eps len extrusion dir p per last None
  = Raise (UnboundLocalError "new_Line").
Proof.
  intros T Q L Z. unfold subdivided_move. rewrite T. cbn [bind].
  destruct (Z.to_nat n) as [|m] eqn:N.
  - cbn [subdivide bind]. rewrite L. cbn [bind]. unfold fdiv. rewrite Z. reflexivity.
  - destruct Q as (e & E); [lia|].
    rewrite (@subdivide_unbound m eps dir per last e E). reflexivity.
Qed.

(** The whole branch on an accumulator that is bound. *)
Lemma subdivided_move_text (steps eps len extrusion : F) (dir p last : Point2D)
    (per : option (list Segment)) (acc : string) (n : Z) (extrusions : list F)
    (rest : F) :
  trunc steps = Ok n ->
  List.length extrusions = Z.to_nat n ->
  sub_moves_of cfg eps per dir last extrusions ->
  get_points_distance (advance (Z.to_nat n) last dir) p = Ok rest ->
  fzero len = false ->
  subdivided_move cfg steps eps len extrusion dir p per last (Some acc)
  = Ok (advance (Z.to_nat n) last dir,
        acc ++ sub_move_commands dir last extrusions
            ++ get_extrusion_command (Px p) (Py p)
                 (fquot (fmul (fmul (fquot rest len) extrusion) (max_flow cfg)) (of_int 100))).
Proof.
  intros T L M R Z. unfold subdivided_move. rewrite T. cbn [bind]. rewrite <- L.
  rewrite (@subdivide_commands _ _ cfg extrusions eps dir per last acc M). cbn [bind].
  rewrite L, R. cbn [bind]. unfold fdiv. rewrite Z. cbn [bind load].
  now rewrite string_app_assoc.
Qed.


(** ** A speed line inside the infill *)

(** C5, as the script has it.  Inside the infill, a line that is no comment,
    holds an F and a G1 and is not an extrusion move (it does not hold all of
    E, X and Y) is not replaced: no line of the layer changes, and the command
    [G1 F<speed>] with a newline, [<speed>] being what the number pattern
    captures after the first F, becomes the content of the accumulator
    [new_Line].  A line without X and Y leaves the position alone.  On a line
    with X and Y, [getXY] is called: the position becomes the point it reads,
    and when it raises, the processing of the line raises with it. *)
Theorem speed_line_feeds_accumulator (it : nat) (g : F) (st : State)
    (lines : list string) (i : nat) (line speed : string) :
  nth_error lines i = Some line ->
  currentSection st = INFILL ->
  prefix ";" line = false ->
  contains "F" line = true -> contains "G1" line = true ->
  contains "E" line && contains "G1" line && contains " X" line && contains "Y" line = false ->
  re_search "F" line = Some speed ->
  (contains " X" line && contains " Y" line = false ->
   exists st', process_line cfg it g st lines line = Ok (st', lines) /\
               new_Line st' = Some ("G1 F" ++ speed ++ nl) /\
               lastPosition st' = lastPosition st) /\
  (contains " X" line && contains " Y" line = true ->
   (forall p, getXY line = Ok p ->
      exists st', process_line cfg it g st lines line = Ok (st', lines) /\
                  new_Line st' = Some ("G1 F" ++ speed ++ nl) /\
                  lastPosition st' = p) /\
   (forall e, getXY line = Raise e ->
      process_line cfg it g st lines line = Raise e)).
Proof.
  intros Hi S N HF HG HE R.
  destruct (@index_found line lines i Hi) as (k & Hk & _).
  destruct (@markers_of_plain_line line N) as (_ & _ & _ & D).
  assert (Q : process_line cfg it g st lines line =
              let* st' :=
                track_position
                  (if contains ";" line
                   then set_section (set_new_Line st (Some ("G1 F" ++ speed ++ nl))) NOTHING
                   else set_new_Line st (Some ("G1 F" ++ speed ++ nl))) line in
              Ok (st', lines)).
  { unfold process_line. rewrite Hk. cbn [bind].
    rewrite (@scan_markers_infill _ _ st line N S). cbn [bind]. rewrite D, S.
    cbn [Section_eqb]. unfold infill_line, rewrite_move. rewrite HE. cbn [bind].
    unfold keep_speed. rewrite HF, HG, R. reflexivity. }
  rewrite Q. unfold track_position. rewrite HG. cbn [orb]. rewrite andb_true_r.
  split.
  - intros ->. cbn [bind]. eexists; split; [reflexivity|].
    destruct (contains ";" line); split; reflexivity.
  - intros ->. split.
    + intros p ->. cbn [bind]. eexists; split; [reflexivity|].
      destruct (contains ";" line); split; reflexivity.
    + intros e ->. reflexivity.
Qed.

(** ** The accumulator, unbound and bound *)

Lemma execute_raises (data data_j ls : list string) (j i : nat) (g : F)
    (st_j st : State) (layer line : string) (e : exn) :
  fdiv (gradient_thickness cfg) (gradient_discretization cfg) = Ok g ->
  scan_layers cfg (mfill_mode (infillpattern cfg)) g (seq 0 j) initial_state data
    = Ok (st_j, data_j) ->
  nth_error data_j j = Some layer ->
  scan_lines cfg (mfill_mode (infillpattern cfg)) g (seq 0 i) st_j (split "010" layer)
    = Ok (st, ls) ->
  nth_error ls i = Some line ->
  process_line cfg (mfill_mode (infillpattern cfg)) g st ls line = Raise e ->
  execute cfg data = Raise e.
Proof.
  intros G Ej Hj Ei Hi E. unfold execute, run. rewrite G. cbn [bind].
  rewrite (@scan_layers_raises _ _ cfg (mfill_mode (infillpattern cfg)) g initial_state
             st_j data data_j j layer e Ej Hj); [reflexivity|].
  unfold process_layer.
  rewrite (@scan_lines_raises _ _ cfg (mfill_mode (infillpattern cfg)) g st_j st
             (split "010" layer) ls i line e Ei Hi E). reflexivity.
Qed.

(** C10. The accumulator [new_Line].  First, before its first assignment:
    while no line read so far holds both an F and a G1, an extrusion move with
    X, Y and E that is reached inside the infill, for small segments or for a
    linear pattern with two steps and more, makes the whole call fail; and the
    failure is the UnboundLocalError of [new_Line] itself as soon as what the
    script evaluates before its first read of [new_Line] succeeds: for small
    segments the distance to a bound perimeter set, whether inside the band or
    not; for a linear pattern the extrusion, the length and the steps of the
    move and, when there is a sub-move, the extrusion of the first one.
    Second, a line with F and G1 assigns [G1 F<speed>] and a newline.  Third
    and fourth, once it is bound: the line written for a linear move of two
    steps and more, and for a move of small segments inside the band, is the
    content of the accumulator followed by the commands of the move, at the
    first position that holds the text of the move; the linear move leaves
    that whole text in the accumulator, small segments leave it as it was. *)
Theorem accumulator_read_before_assignment :
  (forall (data data_j ls : list string) (j i : nat) (g : F) (st_j st st1 : State)
          (layer line : string),
     let it := mfill_mode (infillpattern cfg) in
     fdiv (gradient_thickness cfg) (gradient_discretization cfg) = Ok g ->
     scan_layers cfg it g (seq 0 j) initial_state data = Ok (st_j, data_j) ->
     nth_error data_j j = Some layer ->
     scan_lines cfg it g (seq 0 i) st_j (split "010" layer) = Ok (st, ls) ->
     nth_error ls i = Some line ->
     (forall k l x, (k < j)%nat -> nth_error data k = Some l ->
                    In x (split "010" l) -> carries_speed x = false) ->
     (forall k x, (k <= i)%nat -> nth_error (split "010" layer) k = Some x ->
                  carries_speed x = false) ->
     scan_markers st line = Ok st1 ->
     is_begin_infill_segment_line line = false ->
     currentSection st1 = INFILL ->
     contains "E" line && contains "G1" line && contains " X" line
       && contains "Y" line = true ->
     (it = 1%nat \/
      (it = 2%nat /\
       exists p len steps,
         getXY line = Ok p /\ get_points_distance (lastPosition st1) p = Ok len /\
         fdiv len g = Ok steps /\ fle (of_int 2) steps = true) ->
      exists e, execute cfg data = Raise e) /\
     (it = 1%nat ->
      forall p segs d,
        getXY line = Ok p ->
        perimeterSegments st1 = Some segs ->
        min_distance_from_segment (mkSegment (lastPosition st1) p) segs = Ok d ->
        execute cfg data = Raise (UnboundLocalError "new_Line")) /\
     (it = 2%nat ->
      forall p extrusion len steps n,
        getXY line = Ok p ->
        find_extrusion (split " " line) (extrusionLength st1) = Ok (Some extrusion) ->
        get_points_distance (lastPosition st1) p = Ok len -> fzero len = false ->
        fdiv len g = Ok steps -> fzero steps = false ->
        fle (of_int 2) steps = true ->
        trunc steps = Ok n ->
        ((0 < n)%Z ->
         exists e,
           sub_move_extrusion cfg (fquot extrusion steps) (perimeterSegments st1)
             (lastPosition st1)
             (moved (lastPosition st1) (segment_direction g (lastPosition st1) p len))
           = Ok e) ->
        execute cfg data = Raise (UnboundLocalError "new_Line"))) /\
  (forall (st : State (F := F)) (line speed : string),
     carries_speed line = true -> re_search "F" line = Some speed ->
     new_Line (keep_speed st line) = Some ("G1 F" ++ speed ++ nl)) /\
  (forall (g : F) (st : State) (lines : list string) (i : nat) (line acc : string)
          (p : Point2D) (extrusion len steps rest : F) (n : Z) (extrusions : list F),
     nth_error lines i = Some line ->
     currentSection st = INFILL ->
     prefix ";" line = false ->
     contains "E" line && contains "G1" line && contains " X" line
       && contains "Y" line = true ->
     getXY line = Ok p ->
     new_Line (keep_speed st line) = Some acc ->
     find_extrusion (split " " line) (extrusionLength st) = Ok (Some extrusion) ->
     get_points_distance (lastPosition st) p = Ok len -> fzero len = false ->
     fdiv len g = Ok steps -> fzero steps = false ->
     fle (of_int 2) steps = true ->
     trunc steps = Ok n ->
     List.length extrusions = Z.to_nat n ->
     sub_moves_of cfg (fquot extrusion steps) (perimeterSegments st)
       (segment_direction g (lastPosition st) p len) (lastPosition st) extrusions ->
     get_points_distance
       (advance (Z.to_nat n) (lastPosition st)
                (segment_direction g (lastPosition st) p len)) p = Ok rest ->
     let text :=
       acc ++ sub_move_commands (segment_direction g (lastPosition st) p len)
                (lastPosition st) extrusions
           ++ get_extrusion_command (Px p) (Py p)
                (fquot (fmul (fmul (fquot rest len) extrusion) (max_flow cfg))
                       (of_int 100)) in
     exists k st',
       (k <= i)%nat /\ nth_error lines k = Some line /\
       (forall j, (j < k)%nat -> nth_error lines j <> Some line) /\
       process_line cfg 2 g st lines line = Ok (st', assign k text lines) /\
       new_Line st' = Some text) /\
  (forall (g : F) (st : State) (lines : list string) (i : nat) (line acc : string)
          (p : Point2D) (segs : list Segment) (d : F) (pieces : list string),
     nth_error lines i = Some line ->
     currentSection st = INFILL ->
     prefix ";" line = false ->
     contains "E" line && contains "G1" line && contains " X" line
       && contains "Y" line = true ->
     getXY line = Ok p ->
     new_Line (keep_speed st line) = Some acc ->
     perimeterSegments st = Some segs ->
     min_distance_from_segment (mkSegment (lastPosition st) p) segs = Ok d ->
     flt d (gradient_thickness cfg) = true ->
     Forall2 (fun element text => scaled_field cfg d element = Ok text)
             (split " " line) pieces ->
     exists k st',
       (k <= i)%nat /\ nth_error lines k = Some line /\
       (forall j, (j < k)%nat -> nth_error lines j <> Some line) /\
       process_line cfg 1 g st lines line
       = Ok (st', assign k (acc ++ String.concat "" pieces ++ nl) lines) /\
       new_Line st' = Some acc).
Proof.
  split; [|split; [|split]].
  - intros data data_j ls j i g st_j st st1 layer line it G Ej Hj Ei Hi Qj Qi M B S X.
    assert (Nj : new_Line st_j = None).
    { apply (fun N Q => @scan_layers_unassigned _ _ cfg it g j 0 initial_state st_j
                          data data_j N Q Ej); [reflexivity|].
      intros k l x Hk Hl Hx. apply (Qj k l x); [lia|exact Hl|exact Hx]. }
    assert (N : new_Line st = None).
    { apply (fun Q => @scan_lines_unassigned _ _ cfg it g i 0 st_j st
                        (split "010" layer) ls Nj Q Ei).
      intros k x Hk Hx. apply (Qi k x); [lia|exact Hx]. }
    assert (Cl : carries_speed line = false).
    { destruct (@scan_lines_frame _ _ cfg it g i 0 st_j st (split "010" layer) ls Ei)
        as (_ & K).
      apply (Qi i line); [lia|]. rewrite <- K by lia. exact Hi. }
    assert (N1 : new_Line (keep_speed st1 line) = None).
    { rewrite (@keep_speed_idle _ st1 line Cl).
      rewrite (@scan_markers_new_Line _ _ st st1 line M). exact N. }
    destruct (@index_found line ls i Hi) as (k & Hk & _).
    split; [|split].
    + intros C.
      destruct (@process_line_without_accumulator _ _ cfg it g st st1 ls i line
                  Hi N Cl M B S X C) as (e & E).
      exists e. exact (@execute_raises data data_j ls j i g st_j st layer line e
                         G Ej Hj Ei Hi E).
    + intros I1 p segs d P Sg D.
      apply (@execute_raises data data_j ls j i g st_j st layer line _ G Ej Hj Ei Hi).
      fold it. rewrite I1.
      rewrite (@process_line_move 1 g st st1 ls k line p Hk M B S X P).
      cbn [Nat.eqb bind].
      destruct (@keep_speed_frame _ st1 line) as (_ & KP & KG & _).
      rewrite <- KG in Sg. rewrite <- KP in D.
      destruct (@small_segments_cases (keep_speed st1 line) ls k p (split " " line)
                  segs d Sg D) as (U & _).
      rewrite (U N1). reflexivity.
    + intros I2 p extrusion len steps n P Ex L Z1 Sp Z2 Le T Q.
      apply (@execute_raises data data_j ls j i g st_j st layer line _ G Ej Hj Ei Hi).
      fold it. rewrite I2.
      rewrite (@process_line_move 2 g st st1 ls k line p Hk M B S X P).
      cbn [Nat.eqb bind].
      rewrite (@keep_speed_idle _ st1 line Cl).
      rewrite (@linear_infill_long g st1 ls k p (split " " line) extrusion len steps
                 Ex L Z1 Sp Z2 Le).
      rewrite (@scan_markers_new_Line _ _ st st1 line M), N.
      rewrite (@subdivided_move_unbound steps (fquot extrusion steps) len extrusion
                 (segment_direction g (lastPosition st1) p len) p (lastPosition st1)
                 (perimeterSegments st1) n T Q L Z1).
      reflexivity.
  - intros st line speed C R. unfold keep_speed. unfold carries_speed in C.
    rewrite C, R. reflexivity.
  - intros g st lines i line acc p extrusion len steps rest n extrusions
           Hi S N X P A Ex L Z1 Sp Z2 Le T Ln Sm R text.
    destruct (@index_of_line lines i line Hi) as (k & Hk & Lk & Hn & Hf).
    destruct (@keep_speed_frame _ st line) as (_ & KP & KG & KE).
    rewrite (@process_line_linear g st lines k line p Hk S N X P).
    rewrite <- KE in Ex. rewrite <- KP in L.
    rewrite (@linear_infill_long g (keep_speed st line) lines k p (split " " line)
               extrusion len steps Ex L Z1 Sp Z2 Le).
    rewrite KP, KG, A.
    rewrite (@subdivided_move_text steps (fquot extrusion steps) len extrusion
               (segment_direction g (lastPosition st) p len) p (lastPosition st)
               (perimeterSegments st) acc n extrusions rest T Ln Sm R Z1).
    cbn [bind]. exists k. eexists.
    split; [exact Lk|]. split; [exact Hn|]. split; [exact Hf|].
    split; [reflexivity|]. now rewrite after_line_new_Line.
  - intros g st lines i line acc p segs d pieces Hi S N X P A G D T Q.
    destruct (@index_of_line lines i line Hi) as (k & Hk & Lk & Hn & Hf).
    destruct (@keep_speed_frame _ st line) as (_ & KP & KG & _).
    rewrite <- KG in G. rewrite <- KP in D.
    destruct (@small_segments_cases (keep_speed st line) lines k p (split " " line) segs d
                G D) as (_ & B).
    destruct (B acc A) as (_ & Near).
    rewrite (@process_line_small g st lines k line p Hk S N X P).
    rewrite (Near T pieces Q). cbn [bind]. exists k. eexists.
    split; [exact Lk|]. split; [exact Hn|]. split; [exact Hf|].
    split; [reflexivity|]. now rewrite after_line_new_Line.
Qed.

End Accumulator.


(** ** The rewriting at concrete inputs *)


Lemma speed_line_feeds_accumulator_witness :
  (exists st',
     process_line (default_settings "lines") 2 default_step inside_infill
                  ["G1 F1500"] "G1 F1500" = Ok (st', ["G1 F1500"]) /\
     new_Line st' = Some ("G1 F" ++ "1500" ++ nl) /\
     lastPosition st' = lastPosition inside_infill) /\
  (exists st',
     process_line (default_settings "lines") 2 default_step inside_infill
                  ["G1 F1500 X5 Y5"] "G1 F1500 X5 Y5" = Ok (st', ["G1 F1500 X5 Y5"]) /\
     new_Line st' = Some ("G1 F" ++ "1500" ++ nl) /\
     lastPosition st' = mkPoint (of_int 5) (of_int 5)) /\
  process_line (default_settings "lines") 2 default_step inside_infill
               ["G1 F1200 X-5 Y5"] "G1 F1200 X-5 Y5" = Raise ValueError.
Proof.
  pose (cfg := default_settings "lines").
  assert (S : currentSection inside_infill = INFILL) by reflexivity.
  split; [|split].
  - pose (line := "G1 F1500").
    assert (H1 : nth_error [line] 0 = Some line) by reflexivity.
    assert (H3 : prefix ";" line = false) by (vm_compute; reflexivity).
    assert (H4 : contains "F" line = true) by (vm_compute; reflexivity).
    assert (H5 : contains "G1" line = true) by (vm_compute; reflexivity).
    assert (H6 : contains "E" line && contains "G1" line && contains " X" line
                 && contains "Y" line = false) by (vm_compute; reflexivity).
    assert (H7 : re_search "F" line = Some "1500") by (vm_compute; reflexivity).
    assert (H8 : contains " X" line && contains " Y" line = false)
      by (vm_compute; reflexivity).
    exact (proj1 (@speed_line_feeds_accumulator _ _ cfg 2%nat default_step inside_infill
                    [line] 0%nat line "1500" H1 S H3 H4 H5 H6 H7) H8).
  - pose (line := "G1 F1500 X5 Y5").
    assert (H1 : nth_error [line] 0 = Some line) by reflexivity.
    assert (H3 : prefix ";" line = false) by (vm_compute; reflexivity).
    assert (H4 : contains "F" line = true) by (vm_compute; reflexivity).
    assert (H5 : contains "G1" line = true) by (vm_compute; reflexivity).
    assert (H6 : contains "E" line && contains "G1" line && contains " X" line
                 && contains "Y" line = false) by (vm_compute; reflexivity).
    assert (H7 : re_search "F" line = Some "1500") by (vm_compute; reflexivity).
    assert (H8 : contains " X" line && contains " Y" line = true)
      by (vm_compute; reflexivity).
    assert (H9 : getXY line = Ok (mkPoint (F := PrimFloat.float) (of_int 5) (of_int 5)))
      by (vm_compute; reflexivity).
    exact (proj1 (proj2 (@speed_line_feeds_accumulator _ _ cfg 2%nat default_step
                           inside_infill [line] 0%nat line "1500" H1 S H3 H4 H5 H6 H7) H8)
                 (mkPoint (of_int 5) (of_int 5)) H9).
  - pose (line := "G1 F1200 X-5 Y5").
    assert (H1 : nth_error [line] 0 = Some line) by reflexivity.
    assert (H3 : prefix ";" line = false) by (vm_compute; reflexivity).
    assert (H4 : contains "F" line = true) by (vm_compute; reflexivity).
    assert (H5 : contains "G1" line = true) by (vm_compute; reflexivity).
    assert (H6 : contains "E" line && contains "G1" line && contains " X" line
                 && contains "Y" line = false) by (vm_compute; reflexivity).
    assert (H7 : re_search "F" line = Some "1200") by (vm_compute; reflexivity).
    assert (H8 : contains " X" line && contains " Y" line = true)
      by (vm_compute; reflexivity).
    assert (H9 : getXY (F := PrimFloat.float) line = Raise ValueError)
      by (vm_compute; reflexivity).
    exact (proj2 (proj2 (@speed_line_feeds_accumulator _ _ cfg 2%nat default_step
                           inside_infill [line] 0%nat line "1200" H1 S H3 H4 H5 H6 H7) H8)
                 ValueError H9).
Defined.

Ltac line_without_speed k :=
  destruct k as [|k];
  [let E := fresh "E" in intros E; inversion E; subst; vm_compute; reflexivity|].

Lemma accumulator_read_before_assignment_witness :
  execute (default_settings "gyroid") [layer_of move_without_speed]
    = Raise (UnboundLocalError "new_Line") /\
  execute (default_settings "lines") [layer_of steps_without_speed]
    = Raise (UnboundLocalError "new_Line") /\
  new_Line (keep_speed infill_without_speed "G1 F1500 X5 Y5")
    = Some ("G1 F" ++ "1500" ++ nl) /\
  (exists st',
     process_line (default_settings "lines") 2 default_step inside_infill
                  ["G1 X3 Y0 E1.0"] "G1 X3 Y0 E1.0"
     = Ok (st', [("G1 F1200" ++ nl)
                   ++ ("G1 X1.5 Y0.0 E1.5625" ++ nl) ++ ("G1 X3.0 Y0.0 E1.1875" ++ nl)
                   ++ "G1 X3.0 Y0.0 E0.0"]) /\
     new_Line st' = Some (("G1 F1200" ++ nl)
                            ++ ("G1 X1.5 Y0.0 E1.5625" ++ nl)
                            ++ ("G1 X3.0 Y0.0 E1.1875" ++ nl)
                            ++ "G1 X3.0 Y0.0 E0.0")) /\
  (exists st',
     process_line (default_settings "gyroid") 1 default_step inside_infill
                  ["G1 X4 Y0 E1.0"] "G1 X4 Y0 E1.0"
     = Ok (st', [("G1 F1200" ++ nl) ++ String.concat "" ["G1 "; "X4 "; "Y0 "; "E2.5"] ++ nl])
     /\ new_Line st' = Some ("G1 F1200" ++ nl)).
Proof.
  pose (wall := [mkSegment (mkPoint (F := PrimFloat.float) (of_int 0) (of_int 10))
                           (mkPoint (of_int 0) (of_int 0))]).
  pose (st := mkState (F := PrimFloat.float) INFILL (mkPoint (of_int 0) (of_int 0))
                (Some wall) None None).
  split; [|split; [|split; [|split]]].
  - pose (cfg := default_settings "gyroid").
    pose (data := [layer_of move_without_speed]).
    pose (line := "G1 X5 Y5 E1.0").
    pose (p := mkPoint (F := PrimFloat.float) (of_int 5) (of_int 5)).
    assert (H1 : fdiv (gradient_thickness cfg) (gradient_discretization cfg)
                 = Ok default_step) by (vm_compute; reflexivity).
    assert (H2 : scan_layers cfg 1 default_step (seq 0 0) initial_state data
                 = Ok (initial_state, data)) by reflexivity.
    assert (H3 : nth_error data 0 = Some (layer_of move_without_speed)) by reflexivity.
    assert (H4 : scan_lines cfg 1 default_step (seq 0 7) initial_state
                   (split "010" (layer_of move_without_speed))
                 = Ok (st, move_without_speed)) by (vm_compute; reflexivity).
    assert (H5 : nth_error move_without_speed 7 = Some line) by reflexivity.
    assert (H6 : forall k l x, (k < 0)%nat -> nth_error data k = Some l ->
                   In x (split "010" l) -> carries_speed x = false)
      by (intros k l x Hk; inversion Hk).
    assert (H7 : forall k x, (k <= 7)%nat ->
                   nth_error (split "010" (layer_of move_without_speed)) k = Some x ->
                   carries_speed x = false).
    { replace (split "010" (layer_of move_without_speed)) with move_without_speed
        by (vm_compute; reflexivity).
      intros k x Hk. do 8 (line_without_speed k). lia. }
    assert (H8 : scan_markers st line = Ok st) by (vm_compute; reflexivity).
    assert (H9 : is_begin_infill_segment_line line = false) by (vm_compute; reflexivity).
    assert (H10 : currentSection st = INFILL) by reflexivity.
    assert (H11 : contains "E" line && contains "G1" line && contains " X" line
                  && contains "Y" line = true) by (vm_compute; reflexivity).
    assert (H12 : getXY line = Ok p) by (vm_compute; reflexivity).
    assert (H13 : perimeterSegments st = Some wall) by reflexivity.
    assert (H14 : min_distance_from_segment (mkSegment (lastPosition st) p) wall
                  = Ok (PrimFloat.div (of_int 5) (of_int 2)))
      by (vm_compute; reflexivity).
    exact (proj1 (proj2 (proj1 (accumulator_read_before_assignment cfg) data data
                                move_without_speed 0%nat 7%nat default_step initial_state
                                st st (layer_of move_without_speed) line
                                H1 H2 H3 H4 H5 H6 H7 H8 H9 H10 H11))
                 eq_refl p wall (PrimFloat.div (of_int 5) (of_int 2)) H12 H13 H14).
  - pose (cfg := default_settings "lines").
    pose (data := [layer_of steps_without_speed]).
    pose (line := "G1 X3 Y0 E1.0").
    pose (p := mkPoint (F := PrimFloat.float) (of_int 3) (of_int 0)).
    assert (H1 : fdiv (gradient_thickness cfg) (gradient_discretization cfg)
                 = Ok default_step) by (vm_compute; reflexivity).
    assert (H2 : scan_layers cfg 2 default_step (seq 0 0) initial_state data
                 = Ok (initial_state, data)) by reflexivity.
    assert (H3 : nth_error data 0 = Some (layer_of steps_without_speed)) by reflexivity.
    assert (H4 : scan_lines cfg 2 default_step (seq 0 7) initial_state
                   (split "010" (layer_of steps_without_speed))
                 = Ok (st, steps_without_speed)) by (vm_compute; reflexivity).
    assert (H5 : nth_error steps_without_speed 7 = Some line) by reflexivity.
    assert (H6 : forall k l x, (k < 0)%nat -> nth_error data k = Some l ->
                   In x (split "010" l) -> carries_speed x = false)
      by (intros k l x Hk; inversion Hk).
    assert (H7 : forall k x, (k <= 7)%nat ->
                   nth_error (split "010" (layer_of steps_without_speed)) k = Some x ->
                   carries_speed x = false).
    { replace (split "010" (layer_of steps_without_speed)) with steps_without_speed
        by (vm_compute; reflexivity).
      intros k x Hk. do 8 (line_without_speed k). lia. }
    assert (H8 : scan_markers st line = Ok st) by (vm_compute; reflexivity).
    assert (H9 : is_begin_infill_segment_line line = false) by (vm_compute; reflexivity).
    assert (H10 : currentSection st = INFILL) by reflexivity.
    assert (H11 : contains "E" line && contains "G1" line && contains " X" line
                  && contains "Y" line = true) by (vm_compute; reflexivity).
    assert (H12 : getXY line = Ok p) by (vm_compute; reflexivity).
    assert (H13 : find_extrusion (split " " line) (extrusionLength st)
                  = Ok (Some (of_int 1))) by (vm_compute; reflexivity).
    assert (H14 : get_points_distance (lastPosition st) p = Ok (of_int 3))
      by (vm_compute; reflexivity).
    assert (H15 : fzero (of_int (F := PrimFloat.float) 3) = false)
      by (vm_compute; reflexivity).
    assert (H16 : fdiv (of_int 3) default_step = Ok (of_int 2))
      by (vm_compute; reflexivity).
    assert (H17 : fzero (of_int (F := PrimFloat.float) 2) = false)
      by (vm_compute; reflexivity).
    assert (H18 : fle (of_int 2) (of_int (F := PrimFloat.float) 2) = true)
      by (vm_compute; reflexivity).
    assert (H19 : trunc (of_int (F := PrimFloat.float) 2) = Ok 2%Z)
      by (vm_compute; reflexivity).
    assert (H20 : (0 < 2)%Z ->
                  exists e,
                    sub_move_extrusion cfg (fquot (of_int 1) (of_int 2))
                      (perimeterSegments st) (lastPosition st)
                      (moved (lastPosition st)
                             (segment_direction default_step (lastPosition st) p (of_int 3)))
                    = Ok e).
    { intros _. eexists. vm_compute. reflexivity. }
    exact (proj2 (proj2 (proj1 (accumulator_read_before_assignment cfg) data data
                                steps_without_speed 0%nat 7%nat default_step initial_state
                                st st (layer_of steps_without_speed) line
                                H1 H2 H3 H4 H5 H6 H7 H8 H9 H10 H11))
                 eq_refl p (of_int 1) (of_int 3) (of_int 2) 2%Z
                 H12 H13 H14 H15 H16 H17 H18 H19 H20).
  - assert (H1 : carries_speed "G1 F1500 X5 Y5" = true) by (vm_compute; reflexivity).
    assert (H2 : re_search "F" "G1 F1500 X5 Y5" = Some "1500") by (vm_compute; reflexivity).
    exact (proj1 (proj2 (accumulator_read_before_assignment (default_settings "lines")))
                 infill_without_speed "G1 F1500 X5 Y5" "1500" H1 H2).
  - pose (cfg := default_settings "lines").
    pose (line := "G1 X3 Y0 E1.0").
    pose (p := mkPoint (F := PrimFloat.float) (of_int 3) (of_int 0)).
    pose (dir := segment_direction default_step (lastPosition inside_infill) p (of_int 3)).
    pose (extrusions := [PrimFloat.div (of_int 25) (of_int 16);
                         PrimFloat.div (of_int 19) (of_int 16)]).
    assert (H1 : nth_error [line] 0 = Some line) by reflexivity.
    assert (H2 : currentSection inside_infill = INFILL) by reflexivity.
    assert (H3 : prefix ";" line = false) by (vm_compute; reflexivity).
    assert (H4 : contains "E" line && contains "G1" line && contains " X" line
                 && contains "Y" line = true) by (vm_compute; reflexivity).
    assert (H5 : getXY line = Ok p) by (vm_compute; reflexivity).
    assert (H6 : new_Line (keep_speed inside_infill line) = Some ("G1 F1200" ++ nl))
      by (vm_compute; reflexivity).
    assert (H7 : find_extrusion (split " " line) (extrusionLength inside_infill)
                 = Ok (Some (of_int 1))) by (vm_compute; reflexivity).
    assert (H8 : get_points_distance (lastPosition inside_infill) p = Ok (of_int 3))
      by (vm_compute; reflexivity).
    assert (H9 : fzero (of_int (F := PrimFloat.float) 3) = false)
      by (vm_compute; reflexivity).
    assert (H10 : fdiv (of_int 3) default_step = Ok (of_int 2))
      by (vm_compute; reflexivity).
    assert (H11 : fzero (of_int (F := PrimFloat.float) 2) = false)
      by (vm_compute; reflexivity).
    assert (H12 : fle (of_int 2) (of_int (F := PrimFloat.float) 2) = true)
      by (vm_compute; reflexivity).
    assert (H13 : trunc (of_int (F := PrimFloat.float) 2) = Ok 2%Z)
      by (vm_compute; reflexivity).
    assert (H14 : List.length extrusions = Z.to_nat 2) by reflexivity.
    assert (H15 : sub_moves_of cfg (fquot (of_int 1) (of_int 2))
                    (perimeterSegments inside_infill) dir (lastPosition inside_infill)
                    extrusions).
    { repeat split; vm_compute; reflexivity. }
    assert (H16 : get_points_distance
                    (advance (Z.to_nat 2) (lastPosition inside_infill) dir) p
                  = Ok (of_int 0)) by (vm_compute; reflexivity).
    destruct (proj1 (proj2 (proj2 (accumulator_read_before_assignment cfg)))
                    default_step inside_infill [line] 0%nat line ("G1 F1200" ++ nl) p
                    (of_int 1) (of_int 3) (of_int 2) (of_int 0) 2%Z extrusions
                    H1 H2 H3 H4 H5 H6 H7 H8 H9 H10 H11 H12 H13 H14 H15 H16)
      as (k & st' & Lk & _ & _ & E & A).
    assert (K : k = 0%nat) by lia. subst k.
    exists st'. split.
    + exact (eq_trans E ltac:(vm_compute; reflexivity)).
    + exact (eq_trans A ltac:(vm_compute; reflexivity)).
  - pose (cfg := default_settings "gyroid").
    pose (line := "G1 X4 Y0 E1.0").
    pose (p := mkPoint (F := PrimFloat.float) (of_int 4) (of_int 0)).
    pose (d := of_int (F := PrimFloat.float) 2).
    assert (H1 : nth_error [line] 0 = Some line) by reflexivity.
    assert (H2 : currentSection inside_infill = INFILL) by reflexivity.
    assert (H3 : prefix ";" line = false) by (vm_compute; reflexivity).
    assert (H4 : contains "E" line && contains "G1" line && contains " X" line
                 && contains "Y" line = true) by (vm_compute; reflexivity).
    assert (H5 : getXY line = Ok p) by (vm_compute; reflexivity).
    assert (H6 : new_Line (keep_speed inside_infill line) = Some ("G1 F1200" ++ nl))
      by (vm_compute; reflexivity).
    assert (H7 : perimeterSegments inside_infill = Some wall) by reflexivity.
    assert (H8 : min_distance_from_segment (mkSegment (lastPosition inside_infill) p) wall
                 = Ok d) by (vm_compute; reflexivity).
    assert (H9 : flt d (gradient_thickness cfg) = true) by (vm_compute; reflexivity).
    assert (H10 : Forall2 (fun element text => scaled_field cfg d element = Ok text)
                          (split " " line) ["G1 "; "X4 "; "Y0 "; "E2.5"]).
    { change (split " " line) with ["G1"; "X4"; "Y0"; "E1.0"].
      repeat constructor; vm_compute; reflexivity. }
    destruct (proj2 (proj2 (proj2 (accumulator_read_before_assignment cfg)))
                    default_step inside_infill [line] 0%nat line ("G1 F1200" ++ nl) p
                    wall d ["G1 "; "X4 "; "Y0 "; "E2.5"]
                    H1 H2 H3 H4 H5 H6 H7 H8 H9 H10)
      as (k & st' & Lk & _ & _ & E & A).
    assert (K : k = 0%nat) by lia. subst k.
    exists st'. split; [exact E | exact A].
Defined.
